(** * ReefMind: telemetry synthesis and parameter assessment

    A shallow embedding of the simulator and assessment code of the
    ReefMind desktop application:

    - [Ranges], [AiNew], [Ai]: the [PARAM_RANGES] tables and
      [assessParameter] of the two AI modules;
    - [ApexSimulator]: [jitter] and [generateReadings] of the stand-alone
      Apex simulator;
    - [SimulatorApi]: the in-memory [simulatorData] store of the Electron
      simulator routes and the handlers that read and write it;
    - [Server]: the [/api/tanks/:tankId/analyze] route of the unified
      server.

    JavaScript numbers are modelled as exact rationals ([Q]): decimal
    literals denote their decimal value and [+], [-], [*] are exact, so the
    rounding error of IEEE-754 arithmetic is outside the model of the
    generators and the routes.  It is inside the model of [Binary64], which
    rounds the result of every operation of [jitter] to the nearest
    binary64 value and carries the bound on the noise.  Time values are
    integers ([Z], milliseconds since the epoch), which is exact for every
    value a [Date] can hold. *)

From Stdlib Require Import ZArith QArith Qround Qabs Qpower List String Bool Lia Lqa.
From Stdlib Require Import Sorted Permutation Ascii DecimalString.
Import ListNotations.

Local Open Scope string_scope.
Local Open Scope list_scope.
Local Open Scope Q_scope.

(* ================================================================= *)
(** ** The JavaScript runtime, as far as the sources use it *)

Module Js.

(** Exceptions the modelled code can raise. *)
Inductive exn : Type :=
| RangeError (msg : string)
| TypeError (msg : string).

Inductive result (A : Type) : Type :=
| Ok (a : A)
| Throw (e : exn).
Arguments Ok {A} a.
Arguments Throw {A} e.

(** [Math.random] is the only hidden input of the simulators.  The
    [i]-th number it hands out since the process started is [rand i];
    the state threaded through a computation is the number of draws made
    so far. *)
Definition M (A : Type) : Type := (nat -> Q) -> nat -> result (A * nat).

Definition ret {A} (a : A) : M A := fun _ n => Ok (a, n).

Definition bind {A B} (m : M A) (k : A -> M B) : M B :=
  fun rand n =>
    match m rand n with
    | Ok (a, n') => k a rand n'
    | Throw e => Throw e
    end.

Definition throw {A} (e : exn) : M A := fun _ _ => Throw e.

Definition Math_random : M Q := fun rand n => Ok (rand n, S n).

(** [for (const x of xs) acc = body(x, acc)] *)
Fixpoint for_each {A S} (xs : list A) (body : A -> S -> M S) (acc : S) : M S :=
  match xs with
  | [] => ret acc
  | x :: xs' => bind (body x acc) (for_each xs' body)
  end.

(** [Math.round]: the nearest integer, ties towards +infinity. *)
Definition Math_round (x : Q) : Z := Qfloor (x + 0.5).

(** [+x.toFixed(f)].  For [|x| < 10^21] [toFixed] prints the integer [n]
    for which [n / 10^f] is closest to [|x|] (the larger one on a tie)
    with the sign of [x]; from [10^21] on it prints the number itself.
    The unary plus reads the digits back. *)
Definition toFixed (f : nat) (x : Q) : Q :=
  let scale := (10 ^ Z.of_nat f)%Z in
  let digits (y : Q) : Z := Qfloor (y * inject_Z scale + 0.5) in
  if Qle_bool 0 x then
    if Qle_bool 1e21 x then x
    else Qmake (digits x) (Z.to_pos scale)
  else
    if Qle_bool 1e21 (- x) then x
    else Qmake (- digits (- x)) (Z.to_pos scale).

(** A [Date] holds a time value of at most 8.64e15 ms in magnitude;
    anything else is an invalid date. *)
Definition maxTime : Z := 8640000000000000.

Definition validTime (t : Z) : bool :=
  ((- maxTime <=? t) && (t <=? maxTime))%Z.

(** [new Date(t).toISOString()].  The ISO string is represented by the
    instant it denotes. *)
Definition toISOString (t : Z) : M Z :=
  if validTime t then ret t
  else throw (RangeError "Invalid time value").

(** [new Date(t).getTime()], [None] standing for [NaN]. *)
Definition getTime (t : Z) : option Z :=
  if validTime t then Some t else None.

Definition string_of_Z (z : Z) : string :=
  NilZero.string_of_int (Z.to_int z).

(** Template-literal rendering of [getTime()]. *)
Definition string_of_time (t : option Z) : string :=
  match t with
  | Some z => string_of_Z z
  | None => "NaN"
  end.

(** *** Property lookup on an object literal

    An object literal inherits from [Object.prototype], so [o[k]] finds
    an own property first and an inherited one otherwise. *)
Definition Object_prototype_keys : list string :=
  [ "constructor"; "__defineGetter__"; "__defineSetter__";
    "hasOwnProperty"; "__lookupGetter__"; "__lookupSetter__";
    "isPrototypeOf"; "propertyIsEnumerable"; "toString"; "valueOf";
    "__proto__"; "toLocaleString" ].

Inductive propval (A : Type) : Type :=
| Undefined
| Own (a : A)
| Inherited (k : string).
Arguments Undefined {A}.
Arguments Own {A} a.
Arguments Inherited {A} k.

Fixpoint own {A} (o : list (string * A)) (k : string) : option A :=
  match o with
  | [] => None
  | (k', a) :: o' => if String.eqb k' k then Some a else own o' k
  end.

Definition get {A} (o : list (string * A)) (k : string) : propval A :=
  match own o k with
  | Some a => Own a
  | None =>
      if existsb (String.eqb k) Object_prototype_keys
      then Inherited k else Undefined
  end.

End Js.

Import Js.

Declare Scope js_scope.
Delimit Scope js_scope with js.
Notation "x <- m ;; k" := (bind m (fun x => k))
  (at level 61, m at next level, right associativity) : js_scope.
Local Open Scope js_scope.

(* ================================================================= *)
(** ** Parameter ranges and assessment *)

Module Ranges.

Inductive Tier : Type := optimal | watch | critical | danger | unknown.

Record ParamRange : Type := mkRange {
  r_optimal : Q * Q;
  r_watch : Q * Q;
  r_critical : Q * Q;
  r_unit : string
}.

(** [value >= band[0] && value <= band[1]] *)
Definition inside (band : Q * Q) (value : Q) : bool :=
  Qle_bool (fst band) value && Qle_bool value (snd band).

(** The body shared by both copies of [assessParameter]; [table] is the
    module's [PARAM_RANGES].  A key inherited from [Object.prototype] is
    a truthy value without an [optimal] property, so reading
    [ranges.optimal[0]] raises. *)
Definition assess (table : list (string * ParamRange))
           (param : string) (value : Q) : result Tier :=
  match get table param with
  | Undefined => Ok unknown
  | Inherited _ =>
      Throw (TypeError "Cannot read properties of undefined (reading '0')")
  | Own ranges =>
      if inside (r_optimal ranges) value then Ok optimal
      else if inside (r_watch ranges) value then Ok watch
      else if inside (r_critical ranges) value then Ok critical
      else Ok danger
  end.

(** optimal within watch within critical *)
Definition nested (r : ParamRange) : Prop :=
  fst (r_watch r) <= fst (r_optimal r) /\
  snd (r_optimal r) <= snd (r_watch r) /\
  fst (r_critical r) <= fst (r_watch r) /\
  snd (r_watch r) <= snd (r_critical r).

Definition nestedb (r : ParamRange) : bool :=
  Qle_bool (fst (r_watch r)) (fst (r_optimal r)) &&
  Qle_bool (snd (r_optimal r)) (snd (r_watch r)) &&
  Qle_bool (fst (r_critical r)) (fst (r_watch r)) &&
  Qle_bool (snd (r_watch r)) (snd (r_critical r)).

End Ranges.

Import Ranges.

(** The Gemini module used by the unified server
    ([require('./lib/ai-new')]); the Vertex AI module carries the same
    table and the same function. *)
Module AiNew.

Definition PARAM_RANGES : list (string * ParamRange) :=
  [ ("pH", mkRange (8.0, 8.3) (7.8, 8.5) (7.6, 8.7) EmptyString);
    ("temp", mkRange (76, 79) (75, 80) (73, 82) "°F");
    ("alk", mkRange (7.5, 9.0) (7.0, 10.0) (6.0, 12.0) "dKH");
    ("ca", mkRange (400, 450) (380, 480) (350, 520) "mg/L");
    ("mg", mkRange (1300, 1400) (1250, 1450) (1200, 1500) "mg/L");
    ("no3", mkRange (2, 10) (1, 15) (0, 25) "ppm");
    ("po4", mkRange (0.03, 0.1) (0.02, 0.15) (0, 0.3) "ppm");
    ("orp", mkRange (300, 400) (250, 420) (200, 450) "mV");
    ("salinity", mkRange (1.025, 1.026) (1.024, 1.027) (1.020, 1.030) "sg") ].

Definition assessParameter (param : string) (value : Q) : result Tier :=
  assess PARAM_RANGES param value.

End AiNew.

(** The library-backed Gemini module (the one that requires [./library]). *)
Module Ai.

Definition PARAM_RANGES : list (string * ParamRange) :=
  [ ("pH", mkRange (8.0, 8.3) (7.8, 8.5) (7.6, 8.7) EmptyString);
    ("temp", mkRange (76, 79) (75, 80) (73, 82) "°F");
    ("alk", mkRange (7, 9) (6.5, 10) (5.5, 12) "dKH");
    ("ca", mkRange (400, 450) (380, 480) (350, 520) "ppm");
    ("mg", mkRange (1300, 1400) (1250, 1450) (1200, 1500) "ppm");
    ("no3", mkRange (2, 10) (1, 15) (0, 25) "ppm");
    ("po4", mkRange (0.03, 0.1) (0.02, 0.15) (0, 0.3) "ppm");
    ("orp", mkRange (300, 400) (250, 420) (200, 450) "mV");
    ("sal", mkRange (34, 36) (33, 37) (32, 38) "ppt") ].

Definition assessParameter (param : string) (value : Q) : result Tier :=
  assess PARAM_RANGES param value.

End Ai.

(* ================================================================= *)
(** ** The stand-alone Apex simulator *)

Module ApexSimulator.

Record Reading : Type := mkReading {
  timestamp : Z;
  source : string;
  alk : Q;
  ca : Q;
  mg : Q;
  ph : Q;
  temp : Q;
  no3 : Q;
  po4 : Q
}.

(** [+(value + (Math.random() - 0.5) * 2 * amount).toFixed(2)] *)
Definition jitter (value amount : Q) : M Q :=
  u <- Math_random ;;
  ret (toFixed 2 (value + (u - 0.5) * 2 * amount)).

Definition msPerDay : Z := 86400000.

(** [for (let d = days; d >= 0; d--)]: the values [d] takes. *)
Definition countdown (days : Z) : list Z :=
  map (fun k => (days - Z.of_nat k)%Z) (seq 0 (Z.to_nat (days + 1))).

(** [for (let r = 0; r < n; r++)]: the values [r] takes. *)
Definition upto (n : nat) : list Z := map Z.of_nat (seq 0 n).

Definition alkBase (d : Z) : Q :=
  if (20 <? d)%Z then 8.2
  else if (10 <? d)%Z then 8.2 - inject_Z (20 - d) * 0.08
  else 7.4 + inject_Z (10 - d) * 0.06.

Definition caBase (d : Z) : Q :=
  if (20 <? d)%Z then 440
  else if (10 <? d)%Z then 440 + inject_Z (20 - d) * 3
  else 470 - inject_Z (10 - d) * 2.

Definition no3Base (d : Z) : Q :=
  if (15 <? d)%Z then 5 else 5 + inject_Z (15 - d) * 0.6.

Definition po4Base (d : Z) : Q :=
  if (15 <? d)%Z then 0.04 else 0.04 + inject_Z (15 - d) * 0.005.

Section Generator.

(** [sinThirds r] is the value of [Math.sin(r * Math.PI / 3)], which
    is not a rational function of [r]; it only feeds the pH channel. *)
Variable sinThirds : Z -> Q.

(** The object literal pushed for day [d], slot [r]; its fields are
    evaluated in the order they are written. *)
Definition reading (dayTime d r : Z) : M Reading :=
  ts <- toISOString (dayTime + r * 4 * 3600000)%Z ;;
  a <- jitter (alkBase d) 0.08 ;;
  c <- jitter (caBase d) 2 ;;
  m <- jitter 1350 5 ;;
  p <- jitter (8.32 + sinThirds r * 0.12) 0.02 ;;
  t <- jitter 77.8 0.3 ;;
  n <- jitter (no3Base d) 0.3 ;;
  o <- jitter (po4Base d) 0.005 ;;
  ret (mkReading ts "trident" a c m p t n o).

Definition day (now d : Z) (readings : list Reading) : M (list Reading) :=
  let dayTime := (now - d * msPerDay)%Z in
  for_each (upto 6)
    (fun r readings => x <- reading dayTime d r ;; ret (readings ++ [x]))
    readings.

(** [now] is the value of [Date.now()] read on entry. *)
Definition generateReadings (days now : Z) : M (list Reading) :=
  for_each (countdown days) (day now) [].

(** [const allReadings = generateReadings(30)] *)
Definition allReadings (now : Z) : M (list Reading) :=
  generateReadings 30 now.

End Generator.

End ApexSimulator.

(* ================================================================= *)
(** ** The simulator routes of the Electron application *)

Module SimulatorApi.

Record Reading : Type := mkReading {
  id : string;
  source : string;
  alk : Q;
  ca : Q;
  mg : Q;
  ph : Q;
  temp : Q;
  orp : Q;
  timestamp : Z
}.

Record Event : Type := mkEvent {
  e_id : string;
  e_type : string;
  e_title : string;
  e_details : string;
  e_date : Z;
  e_source : string
}.

Record Citation : Type := mkCitation {
  c_source : string;
  c_text : string;
  c_relevance : string
}.

Record Analysis : Type := mkAnalysis {
  a_id : string;
  a_type : string;
  a_date : Z;
  diagnosis : string;
  confidence : Q;
  severity : string;
  recommendations : list string;
  citations : list Citation
}.

(** The scalar fields of [simulatorData.tank]; its [targets] and
    [equipment] are constants no route modifies. *)
Record Tank : Type := mkTank {
  t_id : string;
  t_name : string;
  volume : Q;
  volumeLiters : Q;
  t_type : string;
  apexSerial : string;
  demoMode : bool
}.

(** The module-level object [simulatorData]. *)
Record Store : Type := mkStore {
  tank : Tank;
  readings : list Reading;
  events : list Event;
  analyses : list Analysis
}.

(** Its value when the module is loaded. *)
Definition simulatorData : Store :=
  mkStore
    (mkTank "sim-tank-1" "Simulated Reef" 240 908 "mixed-reef" "AC5:SIM01" true)
    [] [] [].

Definition jitter (value amount : Q) : M Q :=
  u <- Math_random ;;
  ret (toFixed 2 (value + (u - 0.5) * 2 * amount)).

(** [simulator.generateReading()]; [tick] is what [Date.now()] returns
    and [tock] the instant of the later [new Date()]. *)
Definition generateReading (tick tock : Z) : M Reading :=
  a <- jitter 8.1 0.08 ;;
  c <- jitter 438 3 ;;
  m <- jitter 1350 8 ;;
  p <- jitter 8.32 0.02 ;;
  t <- jitter 77.8 0.3 ;;
  o <- jitter 325 5 ;;
  ts <- toISOString tock ;;
  ret (mkReading ("sim-reading-" ++ string_of_Z tick)%string "trident" a c m p t o ts).

Definition dayMs : Z := (24 * 60 * 60 * 1000)%Z.

(** The alkalinity-crash story, by days before [now]. *)
Definition alkValue (i : Z) : Q :=
  if ((i <=? 27) && (15 <? i))%Z then 8.2 - (inject_Z (27 - i) / 12) * 0.8
  else if ((i <=? 15) && (3 <? i))%Z then 7.4 - (inject_Z (15 - i) / 12) * 0.4
  else if (i <=? 3)%Z then 7.0 + (inject_Z (3 - i) / 3) * 0.9
  else 8.2.

Definition caValue (i : Z) : Q :=
  if ((i <=? 27) && (15 <? i))%Z then 440 + (inject_Z (27 - i) / 12) * 30
  else if ((i <=? 15) && (3 <? i))%Z then 470 + (inject_Z (15 - i) / 12) * 40
  else if (i <=? 3)%Z then 510 - (inject_Z (3 - i) / 3) * 10
  else 440.

(** One iteration of the initialisation loop. *)
Definition pushDay (now i : Z) (readings : list Reading) : M (list Reading) :=
  let timestamp := (now - i * dayMs)%Z in
  u1 <- Math_random ;;
  u2 <- Math_random ;;
  u3 <- Math_random ;;
  u4 <- Math_random ;;
  u5 <- Math_random ;;
  u6 <- Math_random ;;
  ts <- toISOString timestamp ;;
  ret (readings ++
       [ mkReading
           ("sim-reading-" ++ string_of_time (getTime timestamp))%string
           "trident"
           (toFixed 2 (alkValue i + (u1 - 0.5) * 0.16))
           (inject_Z (Math_round (caValue i + (u2 - 0.5) * 6)))
           (inject_Z (Math_round (1350 + (u3 - 0.5) * 16)))
           (toFixed 2 (8.25 + (u4 - 0.5) * 0.3))
           (toFixed 1 (77.8 + (u5 - 0.5) * 1.2))
           (inject_Z (Math_round (325 + (u6 - 0.5) * 20)))
           ts ]).

Definition storyEvents (now : Z) : M (list Event) :=
  d1 <- toISOString (now - 30 * dayMs)%Z ;;
  d2 <- toISOString (now - 27 * dayMs)%Z ;;
  d3 <- toISOString (now - 24 * dayMs)%Z ;;
  d4 <- toISOString (now - 15 * dayMs)%Z ;;
  d5 <- toISOString (now - 3 * dayMs)%Z ;;
  d6 <- toISOString (now - 3 * dayMs)%Z ;;
  ret [ mkEvent "sim-event-1" "test" "ICP Test Results"
          "All parameters within range" d1 "user-entered";
        mkEvent "sim-event-2" "dosing" "Started Ammonium + Urea Dosing"
          "Testing for nitrate reduction" d2 "user-entered";
        mkEvent "sim-event-3" "maintenance" "Dino Treatment Started"
          "UV sterilizer + blackout period" d3 "user-entered";
        mkEvent "sim-event-4" "dosing" "A4R Reduced 210→160 mL/day"
          "Calcium too high" d4 "user-entered";
        mkEvent "sim-event-5" "dosing" "Ammonium Pump Stopped"
          "Suspected cause of alk crash" d5 "user-entered";
        mkEvent "sim-event-6" "dosing" "A4R Increased to 180 mL/day"
          "Correcting alk drop" d6 "user-entered" ].

(** [initializeSimulatorData()], as a transformer of the store.  With
    [now] a time the clock can show, an exception can only leave the
    first iteration, before anything was pushed. *)
Definition initializeSimulatorData (now : Z) (s : Store) : M Store :=
  if (0 <? List.length (readings s))%nat then ret s
  else
    rs <- for_each (ApexSimulator.countdown 30) (pushDay now) (readings s) ;;
    es <- storyEvents now ;;
    ret (mkStore (tank s) rs es (analyses s)).

(** What a route sends back. *)
Inductive Response : Type :=
| TankJson (t : Tank)
| ReadingJson (r : Reading)
| SyncJson (success : bool) (r : Reading) (demo : bool)
| EventsJson (es : list Event)
| EventJson (e : Event)
| AnalysisJson (a : Analysis).

(** [router.get('/tanks/:tankId')] *)
Definition get_tank (now : Z) (s : Store) : M (Store * Response) :=
  s' <- initializeSimulatorData now s ;;
  ret (s', TankJson (tank s')).

(** [router.post('/tanks/:tankId/readings')] *)
Definition post_readings (tick tock : Z) (s : Store) : M (Store * Response) :=
  reading <- generateReading tick tock ;;
  ret (mkStore (tank s) (reading :: readings s) (events s) (analyses s),
       ReadingJson reading).

(** [router.get('/tanks/:tankId/events')] *)
Definition get_events (now : Z) (s : Store) : M (Store * Response) :=
  s' <- initializeSimulatorData now s ;;
  ret (s', EventsJson (events s')).

(** [router.post('/tanks/:tankId/events')]; [details] is [None] when the
    body has none (an empty string is falsy as well). *)
Definition post_events (type title : string) (details : option string)
           (tick tock : Z) (s : Store) : M (Store * Response) :=
  d <- toISOString tock ;;
  let event :=
    mkEvent ("sim-event-" ++ string_of_Z tick)%string type title
      (match details with Some x => x | None => EmptyString end) d "user-entered" in
  ret (mkStore (tank s) (readings s) (event :: events s) (analyses s),
       EventJson event).

(** [router.get('/tanks/:tankId/sync')] *)
Definition get_sync (tick tock : Z) (s : Store) : M (Store * Response) :=
  reading <- generateReading tick tock ;;
  ret (mkStore (tank s) (reading :: readings s) (events s) (analyses s),
       SyncJson true reading true).

(** [router.post('/tanks/:tankId/analyze')]: the mock analysis. *)
Definition post_analyze (tick tock : Z) (s : Store) : M (Store * Response) :=
  d <- toISOString tock ;;
  ret (s,
       AnalysisJson
         (mkAnalysis
            ("sim-analysis-" ++ string_of_Z tick)%string
            "user-requested"
            d
            "Alkalinity crash likely caused by nitrification from urea/ammonium dosing consuming alk. Calcium elevated due to reduced All-For-Reef dosing."
            95
            "high"
            [ "Stop ammonium dosing immediately";
              "Increase All-For-Reef to 180-200 mL/day to restore alk";
              "Monitor alk every 12 hours for next 48 hours";
              "Once alk stabilizes above 7.5, resume normal dosing schedule" ]
            [ mkCitation "Randy Holmes-Farley"
                "Nitrification consumes alkalinity at a rate of ~7 dKH per 1 ppm ammonia converted"
                "Explains the mechanism of alkalinity consumption from urea dosing" ])).

End SimulatorApi.

(* ================================================================= *)
(** ** The analyze route of the unified server *)

Module Server.

#[local] Set Warnings "-register-all".

(** Firestore documents, request bodies and the parsed model answer are
    JSON values. *)
Inductive json : Type :=
| JNull
| JBool (b : bool)
| JNum (q : Q)
| JStr (s : string)
| JArr (items : list json)
| JObj (fields : list (string * json)).

Definition object : Type := list (string * json).

(** [o[k] = v] on an object literal under construction: an existing key
    keeps its place and takes the new value, a new key goes last.  Only
    lookups are made on these objects, so the special enumeration order of
    index-like keys is left out. *)
Fixpoint set (o : object) (k : string) (v : json) : object :=
  match o with
  | [] => [(k, v)]
  | (k', v') :: o' =>
      if String.eqb k' k then (k', v) :: o' else (k', v') :: set o' k v
  end.

(** [{ ...o, ...extra }] *)
Definition assign (o extra : object) : object :=
  fold_left (fun acc kv => set acc (fst kv) (snd kv)) extra o.

Fixpoint chars (s : string) : list json :=
  match s with
  | EmptyString => []
  | String c s' => JStr (String c EmptyString) :: chars s'
  end.

Definition indexed (items : list json) : object :=
  combine (map (fun i => string_of_Z (Z.of_nat i)) (seq 0 (List.length items)))
          items.

(** The own enumerable properties a spread [...v] copies. *)
Definition spread (v : json) : object :=
  match v with
  | JObj fields => fields
  | JArr items => indexed items
  | JStr s => indexed (chars s)
  | _ => []
  end.

(** An awaited promise either resolves or rejects. *)
Inductive outcome (A : Type) : Type :=
| Resolved (a : A)
| Rejected (message : string).
Arguments Resolved {A} a.
Arguments Rejected {A} message.

(** What [analyzeTank] resolves to: [{ ok: true, analysis }] or
    [{ ok: false, error }]. *)
Inductive AnalysisResult : Type :=
| AnalysisOk (analysis : json)
| AnalysisFailed (error : string).

(** The collaborators of the route: the Firestore helpers and the model
    call.  [getTank] resolves to [None] for [null]; [newAnalysisId] is the
    document write inside [addAnalysis], resolving to the new id. *)
Record Backend : Type := mkBackend {
  getTank : string -> string -> outcome (option object);
  getReadings : string -> string -> Z -> outcome (list object);
  getEvents : string -> string -> Z -> outcome (list object);
  analyzeTank :
    object -> object -> list object -> list object -> json ->
    outcome AnalysisResult;
  newAnalysisId : string -> string -> object -> outcome string
}.

(** [addAnalysis]: [{ id: analysisRef.id, ...analysisData }] once the
    write went through. *)
Definition addAnalysis (b : Backend) (userId tankId : string)
           (analysisData : object) : outcome object :=
  match newAnalysisId b userId tankId analysisData with
  | Resolved i => Resolved (assign [("id", JStr i)] analysisData)
  | Rejected m => Rejected m
  end.

Record Response : Type := mkResponse {
  status : Z;
  body : object
}.

Definition error (code : Z) (message : string) : Response :=
  mkResponse code [("error", JStr message)].

Definition truthy (v : json) : bool :=
  match v with
  | JNull => false
  | JBool b => b
  | JNum q => negb (Qeq_bool q 0)
  | JStr s => negb (String.eqb s EmptyString)
  | JArr _ | JObj _ => true
  end.

(** [tank.dosing || {}] *)
Definition dosing (tank : object) : json :=
  match own tank "dosing" with
  | Some v => if truthy v then v else JObj []
  | None => JObj []
  end.

(** [app.post('/api/tanks/:tankId/analyze', requireAuth, ...)] for an
    authenticated request; every rejected [await] lands in the [catch]. *)
Definition analyze (b : Backend) (userId tankId : string) : Response :=
  match getTank b userId tankId with
  | Rejected _ => error 500 "AI analysis failed"
  | Resolved None => error 404 "Tank not found"
  | Resolved (Some tank) =>
    match getReadings b userId tankId 7 with
    | Rejected _ => error 500 "AI analysis failed"
    | Resolved recentReadings =>
      match getEvents b userId tankId 10 with
      | Rejected _ => error 500 "AI analysis failed"
      | Resolved recentEvents =>
        match recentReadings with
        | [] => error 400 "No readings available. Add readings first."
        | currentReadings :: _ =>
          match analyzeTank b tank currentReadings recentReadings
                  recentEvents (dosing tank) with
          | Rejected _ => error 500 "AI analysis failed"
          | Resolved (AnalysisFailed e) => error 500 e
          | Resolved (AnalysisOk analysis) =>
            let dataUsed :=
              JObj [ ("readingCount",
                      JNum (inject_Z (Z.of_nat (List.length recentReadings))));
                     ("eventCount",
                      JNum (inject_Z (Z.of_nat (List.length recentEvents))));
                     ("daysAnalyzed", JNum 7) ] in
            let analysisData :=
              set (assign [("type", JStr "user-requested")] (spread analysis))
                  "dataUsed" dataUsed in
            match addAnalysis b userId tankId analysisData with
            | Rejected _ => error 500 "AI analysis failed"
            | Resolved stored => mkResponse 200 [("analysis", JObj stored)]
            end
          end
        end
      end
    end
  end.


End Server.

(* ================================================================= *)
(** ** Specification vocabulary *)

(** [value] lies in the closed band. *)
Definition within (band : Q * Q) (value : Q) : Prop :=
  fst band <= value /\ value <= snd band.

(** [value] lies strictly below or strictly above the band. *)
Definition beyond (band : Q * Q) (value : Q) : Prop :=
  value < fst band \/ snd band < value.

(** A computation run from draw [n] returns normally with a result and a
    draw count satisfying [post]. *)
Definition wp {A} (m : M A) (rand : nat -> Q) (n : nat)
           (post : A -> nat -> Prop) : Prop :=
  match m rand n with
  | Ok (a, n') => post a n'
  | Throw _ => False
  end.

(** A computation looks at no more than the next [c] draws: two sources
    that agree on them give the same outcome, and the draw count only
    advances, by [c] at most. *)
Definition draws_at_most {A} (c : nat) (m : M A) : Prop :=
  forall rand1 rand2 n,
    (forall i, (n <= i < n + c)%nat -> rand1 i = rand2 i) ->
    m rand1 n = m rand2 n /\
    forall a n', m rand1 n = Ok (a, n') -> (n <= n' <= n + c)%nat.

(** Strictly increasing instants, oldest first. *)
Definition ascending (ts : list Z) : Prop := StronglySorted Z.lt ts.

(** The instants of a generated series, in sequence order. *)
Definition timestamps (rs : list ApexSimulator.Reading) : list Z :=
  map ApexSimulator.timestamp rs.

Definition simTimestamps (rs : list SimulatorApi.Reading) : list Z :=
  map SimulatorApi.timestamp rs.

(** Every instant the generator stamps for a window of [days] days ending
    at [now] is one a [Date] can hold. *)
Definition window_valid (days now : Z) : Prop :=
  (- maxTime <= now - days * ApexSimulator.msPerDay)%Z /\
  (now + 5 * 4 * 3600000 <= maxTime)%Z.

(** The value [{ ...o }[k]] of a spread copy: the last binding of [k]. *)
Fixpoint last_binding (o : Server.object) (k : string) : option Server.json :=
  match o with
  | [] => None
  | (k', v) :: o' =>
      match last_binding o' k with
      | Some v' => Some v'
      | None => if String.eqb k' k then Some v else None
      end
  end.

Definition keys (o : Server.object) : list string := map fst o.

(** A backend whose tank exists but has no reading in the last week. *)
Definition emptyWindowBackend : Server.Backend :=
  Server.mkBackend
    (fun _ tankId => Server.Resolved (Some [("id", Server.JStr tankId)]))
    (fun _ _ _ => Server.Resolved [])
    (fun _ _ _ => Server.Resolved [])
    (fun _ _ _ _ _ =>
       Server.Resolved
         (Server.AnalysisOk (Server.JObj [("summary", Server.JStr "insufficient-data")])))
    (fun _ _ _ => Server.Resolved "analysis-1").

(** A backend with one stored reading whose model answers with a
    confidence written as a percentage. *)
Definition sampleReading : Server.object :=
  [("id", Server.JStr "reading-1"); ("alk", Server.JNum 8.1)].

Definition percentBackend : Server.Backend :=
  Server.mkBackend
    (fun _ tankId => Server.Resolved (Some [("id", Server.JStr tankId)]))
    (fun _ _ _ => Server.Resolved [sampleReading])
    (fun _ _ _ => Server.Resolved [])
    (fun _ _ _ _ _ =>
       Server.Resolved
         (Server.AnalysisOk
            (Server.JObj [("summary", Server.JStr "Alkalinity is stable");
                          ("confidence", Server.JNum 95)])))
    (fun _ _ _ => Server.Resolved "analysis-1").

(** Sample inputs: a clock reading in November 2023, two constant sources
    of draws, and the sine of the pH cycle to seven digits. *)
Definition sampleNow : Z := 1700000000000.

Definition zeros : nat -> Q := fun _ => 0.

Definition halves : nat -> Q := fun _ => 0.5.

Definition sineTable (r : Z) : Q :=
  match r with
  | 1%Z | 2%Z => 0.8660254
  | 4%Z | 5%Z => - 0.8660254
  | _ => 0
  end.

(** A source of draws inside the unit interval, as [Math.random] is. *)
Definition unit_draws (rand : nat -> Q) : Prop :=
  forall i, 0 <= rand i /\ rand i < 1.

(* ================================================================= *)
(** ** Vocabulary for the further properties *)

(** Tiers from best to worst. *)
Definition rank (t : Tier) : nat :=
  match t with
  | optimal => 0
  | watch => 1
  | critical => 2
  | danger => 3
  | unknown => 4
  end.

(** The two range tables of the program. *)
Definition isRangeTable (table : list (string * ParamRange)) : Prop :=
  table = AiNew.PARAM_RANGES \/ table = Ai.PARAM_RANGES.

(** An assessment that returned a tier no worse than [t]. *)
Definition noWorseThan (t : Tier) (res : result Tier) : Prop :=
  match res with
  | Ok t' => (rank t' <= rank t)%nat
  | Throw _ => False
  end.

(** Like [wp], but saying nothing about a run that raises. *)
Definition onReturn {A} (m : M A) (rand : nat -> Q) (n : nat)
           (post : A -> nat -> Prop) : Prop :=
  match m rand n with
  | Ok (a, n') => post a n'
  | Throw _ => True
  end.

(* ================================================================= *)
(** ** The remaining routes of the simulators *)

(** The routes of the stand-alone Apex simulator that serve the
    pre-generated series. *)
Module FusionApi.

(** [parseInt(req.query.days) || 30]; [parsed] is what [parseInt] returned,
    [None] standing for [NaN]. *)
Definition daysOrDefault (parsed : option Z) : Z :=
  match parsed with
  | None => 30
  | Some 0%Z => 30
  | Some d => d
  end.

(** [app.get('/api/fusion/readings')]: [clock] is [Date.now()] at the
    request, [allReadings] the series generated when the module was
    loaded.  The answer is [{ count, readings }]. *)
Definition readings (parsed : option Z) (clock : Z)
           (allReadings : list ApexSimulator.Reading)
  : Z * list ApexSimulator.Reading :=
  let days := daysOrDefault parsed in
  let cutoff := (clock - days * 86400000)%Z in
  let filtered :=
    filter (fun r => (cutoff <? ApexSimulator.timestamp r)%Z) allReadings in
  (Z.of_nat (List.length filtered), filtered).

End FusionApi.

(** The reading route of the Electron simulator. *)
Module SimulatorRoutes.

(** [.sort((a, b) => new Date(b.timestamp) - new Date(a.timestamp))]: the
    sort is stable, so its result is the one of inserting each reading in
    front of the first reading that is not newer. *)
Fixpoint insertNewestFirst (x : SimulatorApi.Reading)
         (l : list SimulatorApi.Reading) : list SimulatorApi.Reading :=
  match l with
  | [] => [x]
  | y :: l' =>
      if (SimulatorApi.timestamp x <? SimulatorApi.timestamp y)%Z
      then y :: insertNewestFirst x l'
      else x :: y :: l'
  end.

Definition sortNewestFirst (l : list SimulatorApi.Reading)
  : list SimulatorApi.Reading :=
  fold_right insertNewestFirst [] l.

(** [router.get('/tanks/:tankId/readings')]: [now] is the clock reading
    inside [initializeSimulatorData], [clock] the later one of the
    cutoff. *)
Definition get_readings (parsed : option Z) (now clock : Z)
           (s : SimulatorApi.Store)
  : M (SimulatorApi.Store * list SimulatorApi.Reading) :=
  s' <- SimulatorApi.initializeSimulatorData now s ;;
  let days := FusionApi.daysOrDefault parsed in
  let cutoff := (clock - days * 24 * 60 * 60 * 1000)%Z in
  let filtered :=
    filter (fun r => (cutoff <=? SimulatorApi.timestamp r)%Z)
           (SimulatorApi.readings s') in
  ret (s', sortNewestFirst filtered).

End SimulatorRoutes.

(** The [simulator] object of the unified server, whose readings the demo
    mode stores and later hands to the analysis. *)
Module DemoSimulator.

Record Reading : Type := mkReading {
  source : string;
  alk : Q;
  ca : Q;
  mg : Q;
  ph : Q;
  temp : Q;
  orp : Q;
  timestamp : Z
}.

Definition jitter (value amount : Q) : M Q :=
  u <- Math_random ;;
  ret (toFixed 2 (value + (u - 0.5) * 2 * amount)).

(** [simulator.generateReading()]; [tock] is the instant of [new Date()]. *)
Definition generateReading (tock : Z) : M Reading :=
  a <- jitter 8.1 0.08 ;;
  c <- jitter 438 3 ;;
  m <- jitter 1350 8 ;;
  p <- jitter 8.32 0.02 ;;
  t <- jitter 77.8 0.3 ;;
  o <- jitter 325 5 ;;
  ts <- toISOString tock ;;
  ret (mkReading "trident" a c m p t o ts).

(** The entries of a reading that carry numbers, with the keys
    [Object.entries] lists them under. *)
Definition numericEntries (r : Reading) : list (string * Q) :=
  [ ("alk", alk r); ("ca", ca r); ("mg", mg r);
    ("ph", ph r); ("temp", temp r); ("orp", orp r) ].

End DemoSimulator.

(** The day offset and slot of every reading [generateReadings] pushes,
    in the order of the pushes. *)
Definition slots (days : Z) : list (Z * Z) :=
  flat_map (fun d => map (fun r => (d, r)) (ApexSimulator.upto 6))
           (ApexSimulator.countdown days).

(** The instant stamped on day offset [d], slot [r]. *)
Definition slotTime (now : Z) (dr : Z * Z) : Z :=
  (now - fst dr * ApexSimulator.msPerDay + snd dr * 4 * 3600000)%Z.

(** [x] is a value [jitter value amount] can return. *)
Definition jittered (value amount x : Q) : Prop :=
  value - amount - 0.005 <= x /\ x <= value + amount + 0.005.

(** Newest first. *)
Definition descending (ts : list Z) : Prop := StronglySorted Z.ge ts.

(** A field of the analysis a response carries. *)
Definition analysisField (r : Server.Response) (k : string) : option Server.json :=
  match own (Server.body r) "analysis" with
  | Some (Server.JObj a) => own a k
  | _ => None
  end.

(** The [dataUsed] record of the analyze route. *)
Definition dataUsedOf (recentReadings recentEvents : list Server.object)
  : Server.json :=
  Server.JObj
    [ ("readingCount",
       Server.JNum (inject_Z (Z.of_nat (List.length recentReadings))));
      ("eventCount",
       Server.JNum (inject_Z (Z.of_nat (List.length recentEvents))));
      ("daysAnalyzed", Server.JNum 7) ].

(** A backend whose model answers with an [id], a [type] and a [dataUsed]
    of its own. *)
Definition overridingBackend : Server.Backend :=
  Server.mkBackend
    (fun _ tankId => Server.Resolved (Some [("id", Server.JStr tankId)]))
    (fun _ _ _ => Server.Resolved [sampleReading])
    (fun _ _ _ => Server.Resolved [])
    (fun _ _ _ _ _ =>
       Server.Resolved
         (Server.AnalysisOk
            (Server.JObj [("id", Server.JStr "chosen-by-model");
                          ("type", Server.JStr "scheduled");
                          ("dataUsed", Server.JNull)])))
    (fun _ _ _ => Server.Resolved "analysis-1").

(* ================================================================= *)
(** ** Authentication (JWT) *)

Module AuthNew.

(** What [jwt.verify] does with a token: it returns the decoded payload or
    throws an error, told apart by its [name]. *)
Inductive Verified : Type :=
| Decoded (payload : Server.json)
| TokenExpiredError
| JsonWebTokenError
| OtherError.

(** The collaborators: the Firestore helpers, bcrypt and the JWT
    library.  [undefined] arguments are [None]. *)
Record Collaborators : Type := mkCollaborators {
  getUserByEmail : string -> Server.outcome (option Server.object);
  getUserById : option Server.json -> Server.outcome (option Server.object);
  bcryptCompare : string -> option Server.json -> Server.outcome bool;
  jwtSign : option Server.json -> option Server.json -> Server.outcome string;
  jwtVerify : string -> Verified
}.

(** [{ ok: true, user, token }], [{ ok: true, user }] or
    [{ ok: false, error }]. *)
Inductive Result : Type :=
| Granted (user : Server.object) (token : option string)
| Refused (error : string).

(** [v.k] on a JSON value that is no array index or string method. *)
Definition prop (v : Server.json) (k : string) : option Server.json :=
  match v with
  | Server.JObj fields => own fields k
  | _ => None
  end.

(** [const { [k]: _, ...rest } = o] *)
Definition without (k : string) (o : Server.object) : Server.object :=
  filter (fun kv => negb (String.eqb (fst kv) k)) o.

(** [loginUser(email, password)] *)
Definition loginUser (c : Collaborators) (email password : string) : Result :=
  if String.eqb email EmptyString || String.eqb password EmptyString
  then Refused "Email and password are required"
  else
    match getUserByEmail c email with
    | Server.Rejected _ => Refused "Login failed"
    | Server.Resolved None => Refused "Invalid email or password"
    | Server.Resolved (Some user) =>
        match bcryptCompare c password (own user "passwordHash") with
        | Server.Rejected _ => Refused "Login failed"
        | Server.Resolved false => Refused "Invalid email or password"
        | Server.Resolved true =>
            match jwtSign c (own user "id") (own user "email") with
            | Server.Rejected _ => Refused "Login failed"
            | Server.Resolved token =>
                Granted (without "passwordHash" user) (Some token)
            end
        end
    end.

(** [verifyToken(token)] *)
Definition verifyToken (c : Collaborators) (token : string) : Result :=
  if String.eqb token EmptyString then Refused "Token required"
  else
    match jwtVerify c token with
    | TokenExpiredError => Refused "Token expired"
    | JsonWebTokenError => Refused "Invalid token"
    | OtherError => Refused "Token verification failed"
    | Decoded payload =>
        match getUserById c (prop payload "userId") with
        | Server.Rejected _ => Refused "Token verification failed"
        | Server.Resolved None => Refused "User not found"
        | Server.Resolved (Some user) =>
            Granted (without "passwordHash" user) None
        end
    end.

(** [s.substring(n)] *)
Fixpoint substringFrom (n : nat) (s : string) : string :=
  match n, s with
  | O, _ => s
  | S n', String _ s' => substringFrom n' s'
  | S _, EmptyString => EmptyString
  end.

(** What the middleware does with a request: it answers it, or attaches
    the user and calls [next]. *)
Inductive Gate : Type :=
| Answer (r : Server.Response)
| Next (user : Server.object).

(** [requireAuth(req, res, next)]; [authHeader] is
    [req.headers.authorization]. *)
Definition requireAuth (c : Collaborators) (authHeader : option string) : Gate :=
  match authHeader with
  | None => Answer (Server.error 401 "Authorization token required")
  | Some header =>
      if negb (String.prefix "Bearer " header)
      then Answer (Server.error 401 "Authorization token required")
      else
        match verifyToken c (substringFrom 7 header) with
        | Refused e => Answer (Server.error 401 e)
        | Granted user _ => Next user
        end
  end.

(** [app.post('/api/auth/login')]; a field the body lacks is the empty
    string here, which is as falsy. *)
Definition login (c : Collaborators) (email password : string) : Server.Response :=
  if String.eqb email EmptyString || String.eqb password EmptyString
  then Server.error 400 "Email and password are required"
  else
    match loginUser c email password with
    | Refused e => Server.error 401 e
    | Granted user token =>
        Server.mkResponse 200
          [ ("user", Server.JObj user);
            ("token", match token with
                      | Some t => Server.JStr t
                      | None => Server.JNull
                      end) ]
    end.

End AuthNew.


(** Collaborators that know one user and accept one password and one
    token. *)
Definition sampleUser : Server.object :=
  [ ("id", Server.JStr "user-1");
    ("email", Server.JStr "reefer@example.com");
    ("passwordHash", Server.JStr "$2b$12$hash") ].

Definition sampleCollaborators : AuthNew.Collaborators :=
  AuthNew.mkCollaborators
    (fun email =>
       Server.Resolved
         (if String.eqb email "reefer@example.com" then Some sampleUser else None))
    (fun _ => Server.Resolved (Some sampleUser))
    (fun password _ => Server.Resolved (String.eqb password "correct horse"))
    (fun _ _ => Server.Resolved "signed-token")
    (fun token =>
       if String.eqb token "signed-token"
       then AuthNew.Decoded (Server.JObj [("userId", Server.JStr "user-1")])
       else AuthNew.JsonWebTokenError).

(* ================================================================= *)
(** ** Posting a reading to the unified server *)

Module ServerRoutes.

(** The document [addReading] writes:
    [{ ...readingData, timestamp: readingData.timestamp || Timestamp.now() }];
    [stamp] is the value of [Firestore.Timestamp.now()]. *)
Definition readingDocument (stamp : Server.json) (readingData : Server.object)
  : Server.object :=
  Server.set (Server.assign [] readingData) "timestamp"
    (match own readingData "timestamp" with
     | Some t => if Server.truthy t then t else stamp
     | None => stamp
     end).

(** [addReading]: [write] is the document write, resolving to the id of
    the new document; the result is [{ id: readingRef.id, ...readingData }]. *)
Definition addReading (write : Server.object -> Server.outcome string)
           (stamp : Server.json) (readingData : Server.object)
  : Server.outcome Server.object :=
  match write (readingDocument stamp readingData) with
  | Server.Resolved i => Server.Resolved (Server.assign [("id", Server.JStr i)] readingData)
  | Server.Rejected m => Server.Rejected m
  end.

(** [app.post('/api/tanks/:tankId/readings')] for an authenticated
    request with the parsed body [readingData]. *)
Definition post_readings (write : Server.object -> Server.outcome string)
           (stamp : Server.json) (readingData : Server.json) : Server.Response :=
  if negb (Server.truthy readingData)
     || (List.length (Server.spread readingData) =? 0)%nat
  then Server.error 400 "Reading data required"
  else
    let source :=
      match AuthNew.prop readingData "source" with
      | Some s => if Server.truthy s then s else Server.JStr "manual"
      | None => Server.JStr "manual"
      end in
    match addReading write stamp
            (Server.set (Server.assign [] (Server.spread readingData))
                        "source" source) with
    | Server.Rejected _ => Server.error 500 "Failed to add reading"
    | Server.Resolved reading =>
        Server.mkResponse 200 [("reading", Server.JObj reading)]
    end.

End ServerRoutes.

(** A field of the reading a response carries. *)
Definition readingField (r : Server.Response) (k : string) : option Server.json :=
  match own (Server.body r) "reading" with
  | Some (Server.JObj a) => own a k
  | _ => None
  end.

(* ================================================================= *)
(** ** Encryption of the Fusion credentials *)

Module ApexFusion.

(** A [Buffer] is a string of bytes.  A text is represented by its UTF-8
    encoding, which is what [cipher.update(text, 'utf8', ...)] reads and
    what [decipher] decodes back for well-formed text. *)
Definition hexDigit (n : N) : Ascii.ascii :=
  match n with
  | 0%N => "0" | 1%N => "1" | 2%N => "2" | 3%N => "3"
  | 4%N => "4" | 5%N => "5" | 6%N => "6" | 7%N => "7"
  | 8%N => "8" | 9%N => "9" | 10%N => "a" | 11%N => "b"
  | 12%N => "c" | 13%N => "d" | 14%N => "e" | _ => "f"
  end%char.

(** [buffer.toString('hex')] *)
Fixpoint toHex (buffer : string) : string :=
  match buffer with
  | EmptyString => EmptyString
  | String c rest =>
      String (hexDigit (N.div (Ascii.N_of_ascii c) 16))
        (String (hexDigit (N.modulo (Ascii.N_of_ascii c) 16)) (toHex rest))
  end.

Definition hexValue (c : Ascii.ascii) : option N :=
  let n := Ascii.N_of_ascii c in
  if (48 <=? n)%N && (n <=? 57)%N then Some (n - 48)%N
  else if (97 <=? n)%N && (n <=? 102)%N then Some (n - 87)%N
  else if (65 <=? n)%N && (n <=? 70)%N then Some (n - 55)%N
  else None.

(** [Buffer.from(text, 'hex')]: pairs of hex digits, up to the first pair
    that is not one. *)
Fixpoint fromHex (text : string) : string :=
  match text with
  | String h (String l rest) =>
      match hexValue h, hexValue l with
      | Some a, Some b => String (Ascii.ascii_of_N (16 * a + b)) (fromHex rest)
      | _, _ => EmptyString
      end
  | _ => EmptyString
  end.

(** [text.split(':')] for a one-character separator: the first part,
    which [parts.shift()] takes, and the parts that stay. *)
Fixpoint split (sep : Ascii.ascii) (text : string) : string * list string :=
  match text with
  | EmptyString => (EmptyString, [])
  | String c rest =>
      let (first, others) := split sep rest in
      if Ascii.eqb c sep then (EmptyString, first :: others)
      else (String c first, others)
  end.

(** [parts.join(':')] *)
Fixpoint join (sep : Ascii.ascii) (parts : list string) : string :=
  match parts with
  | [] => EmptyString
  | [part] => part
  | part :: others => (part ++ String sep (join sep others))%string
  end.

(** What a call returns or, by its message, throws. *)
Inductive Outcome : Type :=
| Returned (text : string)
| Thrown (message : string).

Section Cipher.

(** AES-256-CBC of Node's [crypto]: [aesEncrypt key iv plain] is the
    output of [update] followed by [final], and [aesDecrypt] is [None]
    where [decipher.final] throws. *)
Variable aesEncrypt : string -> string -> string -> string.
Variable aesDecrypt : string -> string -> string -> option string.

(** The value of [ENCRYPTION_KEY]. *)
Variable ENCRYPTION_KEY : string.

Definition key : string := fromHex (String.substring 0 64 ENCRYPTION_KEY).

(** [encrypt(text)]; [iv] is what [crypto.randomBytes(16)] returned.
    [createCipheriv] insists on a 16-byte vector and a 32-byte key. *)
Definition encrypt (iv text : string) : Outcome :=
  if negb (String.length iv =? 16)%nat
  then Thrown "Invalid initialization vector"
  else if negb (String.length key =? 32)%nat
  then Thrown "Invalid key length"
  else Returned (toHex iv ++ String ":" (toHex (aesEncrypt key iv text)))%string.

(** [decrypt(encrypted)].  After [createDecipheriv] has accepted the
    vector and the key, [decipher.update(encryptedText, 'hex', 'utf8')]
    refuses a hex text of odd length. *)
Definition decrypt (encrypted : string) : Outcome :=
  let (first, parts) := split ":" encrypted in
  let iv := fromHex first in
  let encryptedText := join ":" parts in
  if negb (String.length iv =? 16)%nat
  then Thrown "Invalid initialization vector"
  else if negb (String.length key =? 32)%nat
  then Thrown "Invalid key length"
  else if Nat.odd (String.length encryptedText)
  then Thrown ("The argument 'encoding' is invalid for data of length "
               ++ string_of_Z (Z.of_nat (String.length encryptedText))
               ++ ". Received 'hex'")%string
  else match aesDecrypt key iv (fromHex encryptedText) with
       | Some text => Returned text
       | None => Thrown "bad decrypt"
       end.

End Cipher.

End ApexFusion.

(** A stand-in cipher for examples: it leaves the text as it is. *)
Definition plainCipher (key iv text : string) : string := text.

Definition plainDecipher (key iv text : string) : option string := Some text.

Definition sampleKey : string :=
  "000102030405060708090a0b0c0d0e0f101112131415161718191a1b1c1d1e1f".

Definition sampleIv : string := "0123456789abcdef".

(* ================================================================= *)
(** ** The daily analysis quota of the API-key authentication

    The [users] table of the SQLite database as far as [checkRateLimit]
    and [incrementAnalysisCount] use it: the primary key [id], the counter
    [daily_analyses] (INTEGER DEFAULT 0: the code writes 0 and increments
    only, so it is never NULL; SQLite's 64-bit integers are modelled by
    [Z]) and [last_analysis_date] (NULL until the first check).  The
    argument [today] stands for the date part of the clock's toISOString,
    a text that the DATE column keeps as it is. *)

Module ApiKeyAuth.

Record User : Type := mkUser
  { id : Z;
    daily_analyses : Z;
    last_analysis_date : option string }.

Definition Db : Type := list User.

(** [SELECT ... WHERE id = ?] read with [get]: the first matching row,
    or undefined. *)
Fixpoint selectById (db : Db) (userId : Z) : option User :=
  match db with
  | [] => None
  | u :: rest => if (id u =? userId)%Z then Some u else selectById rest userId
  end.

(** [UPDATE ... WHERE id = ?]: every matching row. *)
Definition updateById (change : User -> User) (db : Db) (userId : Z) : Db :=
  map (fun u => if (id u =? userId)%Z then change u else u) db.

Record RateLimit : Type := mkRateLimit { allowed : bool; remaining : Z }.

(** [user.last_analysis_date !== today] is true for NULL. *)
Definition sameDate (stored : option string) (today : string) : bool :=
  match stored with
  | Some date => String.eqb date today
  | None => false
  end.

Definition checkRateLimit (today : string) (db : Db) (userId limit : Z)
  : RateLimit * Db :=
  match selectById db userId with
  | None => (mkRateLimit false 0, db)
  | Some user =>
      if negb (sameDate (last_analysis_date user) today) then
        (mkRateLimit true (limit - 1),
         updateById (fun u => mkUser (id u) 0 (Some today)) db userId)
      else if (limit <=? daily_analyses user)%Z then (mkRateLimit false 0, db)
      else (mkRateLimit true (limit - daily_analyses user - 1), db)
  end.

Definition incrementAnalysisCount (db : Db) (userId : Z) : Db :=
  updateById
    (fun u => mkUser (id u) (daily_analyses u + 1) (last_analysis_date u))
    db userId.

End ApiKeyAuth.

(** The analyses counted after [k] calls of [incrementAnalysisCount]. *)
Definition counted (k : nat) (db : ApiKeyAuth.Db) (userId : Z) : ApiKeyAuth.Db :=
  Nat.iter k (fun d => ApiKeyAuth.incrementAnalysisCount d userId) db.

(** Two users, the first of whom used twelve analyses the day before. *)
Definition sampleUsers : ApiKeyAuth.Db :=
  [ ApiKeyAuth.mkUser 1 12 (Some "2023-11-13");
    ApiKeyAuth.mkUser 2 0 None ].

(* ================================================================= *)
(** ** Binary64 arithmetic

    The numbers of JavaScript are IEEE-754 binary64 values, and each
    arithmetic operation returns the binary64 value nearest to the exact
    result, a tie going to the value whose significand is even.  [fl] is
    that rounding on the rationals: 53 significant bits, and the fixed
    spacing [2^-1074] below [2^-1022] (gradual underflow).  A result of
    magnitude [2^1024] or more, which the code turns into an infinity, is
    outside the model: the statements about [fl] keep the operands far
    below that. *)

Module Binary64.

Definition pow2 (k : Z) : Q := (2 # 1) ^ k.

(** The integer nearest to [y], the even one of two that are equally
    near. *)
Definition nearestEven (y : Q) : Z :=
  let f := Qfloor y in
  match Qcompare (y - inject_Z f) (1 # 2) with
  | Lt => f
  | Gt => (f + 1)%Z
  | Eq => if Z.even f then f else (f + 1)%Z
  end.

(** The binary exponent of [x > 0]: the [e] with [2^e <= x < 2^(e+1)].
    The difference of the bit lengths of numerator and denominator is
    [e] or [e + 1]. *)
Definition exponent (x : Q) : Z :=
  let e := (Z.log2 (Qnum x) - Z.log2 (Zpos (Qden x)))%Z in
  if Qle_bool (pow2 e) x then e else (e - 1)%Z.

(** Rounding of [x > 0] to a multiple of the spacing of the binary64
    values around it. *)
Definition roundPositive (x : Q) : Q :=
  let k := (Z.max (exponent x) (-1022) - 52)%Z in
  inject_Z (nearestEven (x / pow2 k)) * pow2 k.

Definition fl (x : Q) : Q :=
  match Qcompare x 0 with
  | Eq => 0
  | Gt => roundPositive x
  | Lt => - roundPositive (- x)
  end.

(** Half the spacing of the subnormal values: the most that rounding can
    move a number of magnitude below [2^-1022]. *)
Definition eta : Q := pow2 (-1075).

(** [jitter(value, amount)] of apex-simulator.js and [simulator.jitter] of
    simulator-api.js and server.js,
    [+(value + (Math.random() - 0.5) * 2 * amount).toFixed(2)],
    operation by operation.  [toFixed] works on the exact value of the
    sum it is given, and the unary plus reads the digits back as the
    nearest binary64 value. *)
Definition jitter (value amount : Q) : M Q :=
  u <- Math_random ;;
  ret (fl (toFixed 2 (fl (value + fl (fl (fl (u - 0.5) * 2) * amount))))).

End Binary64.

(** What the roundings of [Binary64.jitter] can add to the distance
    between the value and the result. *)
Definition roundingSlack (value amount : Q) : Q :=
  (Qabs value + amount + 1) * Binary64.pow2 (-50).

(** A source of draws that always gives the binary64 value nearest to
    0.05. *)
Definition twentieths : nat -> Q := fun _ => Binary64.fl 0.05.

(* ================================================================= *)
(** ** Assessment *)

Lemma inside_within band value : inside band value = true <-> within band value.
Proof.
  unfold inside, within.
  rewrite andb_true_iff, !Qle_bool_iff. tauto.
Qed.

Lemma inside_beyond band value : beyond band value -> inside band value = false.
Proof.
  intros H. destruct (inside band value) eqn:E; [|reflexivity].
  apply inside_within in E. destruct E as [Hlo Hhi].
  destruct H as [H|H]; [apply Qle_not_lt in Hlo | apply Qle_not_lt in Hhi];
    contradiction.
Qed.

Lemma get_own {A} (o : list (string * A)) k a : own o k = Some a -> get o k = Own a.
Proof. unfold get. now intros ->. Qed.

Lemma own_In {A} (o : list (string * A)) k a : own o k = Some a -> In (k, a) o.
Proof.
  induction o as [|[k' a'] o IH]; simpl; [discriminate|].
  destruct (String.eqb k' k) eqn:E.
  - intros [= ->]. apply String.eqb_eq in E. subst. now left.
  - intros H. right. now apply IH.
Qed.

Lemma assess_optimal table param ranges value :
  own table param = Some ranges ->
  within (r_optimal ranges) value ->
  assess table param value = Ok optimal.
Proof.
  intros Hown Hin. unfold assess. rewrite (get_own _ _ _ Hown).
  apply inside_within in Hin. now rewrite Hin.
Qed.

Lemma assess_danger table param ranges value :
  own table param = Some ranges ->
  beyond (r_optimal ranges) value ->
  beyond (r_watch ranges) value ->
  beyond (r_critical ranges) value ->
  assess table param value = Ok danger.
Proof.
  intros Hown Ho Hw Hc. unfold assess. rewrite (get_own _ _ _ Hown).
  now rewrite (inside_beyond _ _ Ho), (inside_beyond _ _ Hw), (inside_beyond _ _ Hc).
Qed.


Lemma nestedb_nested r : nestedb r = true -> nested r.
Proof.
  unfold nestedb, nested. rewrite !andb_true_iff, !Qle_bool_iff. tauto.
Qed.

Lemma table_nested table param ranges :
  forallb (fun kv => nestedb (snd kv)) table = true ->
  own table param = Some ranges ->
  nested ranges.
Proof.
  intros Hall Hown. apply own_In in Hown.
  rewrite forallb_forall in Hall. apply nestedb_nested.
  exact (Hall _ Hown).
Qed.

(** C3. For a parameter registered in either table, [assessParameter]
    answers [optimal] for every value inside the optimal band, its two
    end points included, and [danger] for every value outside all three
    bands. *)
Theorem assessParameter_optimal_and_danger param ranges value :
  (own AiNew.PARAM_RANGES param = Some ranges ->
   (within (r_optimal ranges) value ->
    AiNew.assessParameter param value = Ok optimal) /\
   (beyond (r_optimal ranges) value -> beyond (r_watch ranges) value ->
    beyond (r_critical ranges) value ->
    AiNew.assessParameter param value = Ok danger)) /\
  (own Ai.PARAM_RANGES param = Some ranges ->
   (within (r_optimal ranges) value ->
    Ai.assessParameter param value = Ok optimal) /\
   (beyond (r_optimal ranges) value -> beyond (r_watch ranges) value ->
    beyond (r_critical ranges) value ->
    Ai.assessParameter param value = Ok danger)).
Proof.
  split; intros Hown; split.
  - now apply assess_optimal.
  - now apply assess_danger.
  - now apply assess_optimal.
  - now apply assess_danger.
Qed.

Lemma assessParameter_optimal_and_danger_witness :
  AiNew.assessParameter "alk" 9.0 = Ok optimal /\
  AiNew.assessParameter "alk" 13.0 = Ok danger /\
  Ai.assessParameter "sal" 34 = Ok optimal /\
  Ai.assessParameter "sal" 31.5 = Ok danger.
Proof.
  pose (alk := mkRange (7.5, 9.0) (7.0, 10.0) (6.0, 12.0) "dKH").
  pose (sal := mkRange (34, 36) (33, 37) (32, 38) "ppt").
  split; [|split; [|split]].
  - apply (proj1 (proj1 (assessParameter_optimal_and_danger "alk" alk 9.0) eq_refl)).
    split; discriminate.
  - apply (proj2 (proj1 (assessParameter_optimal_and_danger "alk" alk 13.0) eq_refl));
      right; reflexivity.
  - apply (proj1 (proj2 (assessParameter_optimal_and_danger "sal" sal 34) eq_refl)).
    split; discriminate.
  - apply (proj2 (proj2 (assessParameter_optimal_and_danger "sal" sal 31.5) eq_refl));
      left; reflexivity.
Defined.

(** C7. In both range tables every parameter's bands are nested: the
    watch band contains the optimal band and the critical band contains
    the watch band. *)
Theorem PARAM_RANGES_nested param ranges :
  own AiNew.PARAM_RANGES param = Some ranges \/
  own Ai.PARAM_RANGES param = Some ranges ->
  nested ranges.
Proof.
  intros [H|H]; eapply table_nested; try exact H; reflexivity.
Qed.

Lemma PARAM_RANGES_nested_witness :
  nested (mkRange (0.03, 0.1) (0.02, 0.15) (0, 0.3) "ppm").
Proof.
  apply (PARAM_RANGES_nested "po4"). left. reflexivity.
Defined.

(** C8, at the inputs where the code departs from it: a name that is not
    in the table but is a property of [Object.prototype], such as
    [constructor], makes both copies of [assessParameter] raise a
    [TypeError] instead of answering [unknown], whatever the value. *)
Theorem assessParameter_inherited_key_throws value :
  Forall
    (fun param =>
       own AiNew.PARAM_RANGES param = None /\
       own Ai.PARAM_RANGES param = None /\
       AiNew.assessParameter param value =
         Throw (TypeError "Cannot read properties of undefined (reading '0')") /\
       Ai.assessParameter param value =
         Throw (TypeError "Cannot read properties of undefined (reading '0')"))
    Object_prototype_keys.
Proof.
  unfold Object_prototype_keys.
  repeat (constructor; [repeat split|]). constructor.
Qed.

(* ================================================================= *)
(** ** Reasoning about computations *)

Lemma wp_ret {A} (a : A) rand n (post : A -> nat -> Prop) :
  post a n -> wp (ret a) rand n post.
Proof. exact (fun H => H). Qed.

Lemma wp_bind {A B} (m : M A) (k : A -> M B) rand n (post : B -> nat -> Prop) :
  wp m rand n (fun a n' => wp (k a) rand n' post) ->
  wp (bind m k) rand n post.
Proof.
  unfold wp, bind. destruct (m rand n) as [[a n']|e]; auto.
Qed.

Lemma wp_mono {A} (m : M A) rand n (P P' : A -> nat -> Prop) :
  wp m rand n P -> (forall a n', P a n' -> P' a n') -> wp m rand n P'.
Proof.
  unfold wp. destruct (m rand n) as [[a n']|e]; auto.
Qed.

Lemma wp_run {A} (m : M A) rand n (post : A -> nat -> Prop) :
  wp m rand n post -> exists a n', m rand n = Ok (a, n') /\ post a n'.
Proof.
  unfold wp. destruct (m rand n) as [[a n']|e]; [eauto | contradiction].
Qed.

Lemma wp_toISOString t rand n (post : Z -> nat -> Prop) :
  validTime t = true -> post t n -> wp (toISOString t) rand n post.
Proof.
  intros Hv Hp. unfold wp, toISOString. now rewrite Hv.
Qed.

(** The loop rule: an invariant indexed by the number of iterations made. *)
Lemma wp_for_each {A St} (I : nat -> St -> nat -> Prop) (xs : list A)
      (body : A -> St -> M St) rand :
  (forall i x acc n, nth_error xs i = Some x -> I i acc n ->
                     wp (body x acc) rand n (I (S i))) ->
  forall acc n, I 0%nat acc n ->
                wp (for_each xs body acc) rand n (I (List.length xs)).
Proof.
  revert I. induction xs as [|x xs IH]; intros I Hstep acc n H0; simpl.
  - now apply wp_ret.
  - apply wp_bind.
    apply wp_mono with (P := I 1%nat).
    + now apply (Hstep 0%nat x).
    + intros acc' n' H1.
      apply (IH (fun i => I (S i))); [|exact H1].
      intros i y acc'' n'' Hnth. now apply (Hstep (S i)).
Qed.

Lemma nth_error_map_seq {A} (f : nat -> A) n : forall a i x,
  nth_error (map f (seq a n)) i = Some x -> x = f (a + i)%nat /\ (i < n)%nat.
Proof.
  induction n as [|n IH]; intros a i x; simpl.
  - destruct i; discriminate.
  - destruct i as [|i]; simpl.
    + intros [= <-]. rewrite Nat.add_0_r. split; [reflexivity | lia].
    + intros H. apply IH in H. destruct H as [-> Hlt].
      rewrite Nat.add_succ_r. split; [reflexivity | lia].
Qed.

Lemma nth_error_upto n i r :
  nth_error (ApexSimulator.upto n) i = Some r -> r = Z.of_nat i /\ (i < n)%nat.
Proof.
  intros H. apply nth_error_map_seq in H. exact H.
Qed.

Lemma nth_error_countdown days i d :
  nth_error (ApexSimulator.countdown days) i = Some d ->
  d = (days - Z.of_nat i)%Z /\ (Z.of_nat i <= days)%Z.
Proof.
  intros H. apply nth_error_map_seq in H. destruct H as [-> Hlt].
  split; [reflexivity | lia].
Qed.

Lemma length_countdown days :
  List.length (ApexSimulator.countdown days) = Z.to_nat (days + 1).
Proof.
  unfold ApexSimulator.countdown. now rewrite length_map, length_seq.
Qed.

Lemma ascending_snoc ts t :
  ascending ts -> Forall (fun x => (x < t)%Z) ts -> ascending (ts ++ [t]).
Proof.
  unfold ascending. induction 1 as [|x ts Hs IH Hx]; intros Hlt; simpl.
  - repeat constructor.
  - inversion Hlt as [|? ? Hxt Hts]; subst. constructor.
    + now apply IH.
    + apply Forall_app. split; [exact Hx | now constructor].
Qed.

Lemma Forall_lt_snoc ts t u :
  Forall (fun x => (x < t)%Z) ts -> (t < u)%Z ->
  Forall (fun x => (x < u)%Z) (ts ++ [t]).
Proof.
  intros H Htu. apply Forall_app. split.
  - eapply Forall_impl; [|exact H]. simpl. intros. lia.
  - now constructor.
Qed.

(* ================================================================= *)
(** ** The generator of the Apex simulator *)

Section GeneratorFacts.

Import ApexSimulator.

Variable sinThirds : Z -> Q.

Lemma wp_jitter value amount rand n (post : Q -> nat -> Prop) :
  post (toFixed 2 (value + (rand n - 0.5) * 2 * amount)) (S n) ->
  wp (jitter value amount) rand n post.
Proof. exact (fun H => H). Qed.

Lemma wp_reading dayTime d r rand n (post : Reading -> nat -> Prop) :
  validTime (dayTime + r * 4 * 3600000) = true ->
  (forall x, timestamp x = (dayTime + r * 4 * 3600000)%Z -> post x (7 + n)%nat) ->
  wp (reading sinThirds dayTime d r) rand n post.
Proof.
  intros Hv Hp. unfold reading.
  apply wp_bind, wp_toISOString; [exact Hv|].
  do 7 (apply wp_bind, wp_jitter).
  apply wp_ret. now apply Hp.
Qed.

(** One day of the outer loop: six readings, four hours apart. *)
Lemma wp_day now d acc rand n :
  validTime (now - d * msPerDay) = true ->
  validTime (now - d * msPerDay + 5 * 4 * 3600000) = true ->
  ascending (timestamps acc) ->
  Forall (fun t => (t < now - d * msPerDay)%Z) (timestamps acc) ->
  wp (day sinThirds now d acc) rand n
     (fun acc' n' =>
        n' = (42 + n)%nat /\
        List.length acc' = (6 + List.length acc)%nat /\
        ascending (timestamps acc') /\
        Forall (fun t => (t < now - d * msPerDay + msPerDay)%Z) (timestamps acc')).
Proof.
  intros Hlo Hhi Hasc Hlt. unfold day.
  set (dayTime := (now - d * msPerDay)%Z) in *.
  pose (I := fun (i : nat) (acc' : list Reading) (n' : nat) =>
               n' = (7 * i + n)%nat /\
               List.length acc' = (i + List.length acc)%nat /\
               ascending (timestamps acc') /\
               Forall (fun t => (t < dayTime + Z.of_nat i * 14400000)%Z)
                      (timestamps acc')).
  apply wp_mono with (P := I 6%nat).
  - apply (wp_for_each I).
    + intros i r acc' n' Hnth (Hn & Hlen & Ha & Hf).
      apply nth_error_upto in Hnth. destruct Hnth as [-> Hi].
      assert (Hv : validTime (dayTime + Z.of_nat i * 4 * 3600000) = true).
      { unfold validTime in *. apply andb_true_iff in Hlo, Hhi.
        rewrite !Z.leb_le in *. apply andb_true_iff. rewrite !Z.leb_le. lia. }
      apply wp_bind, wp_reading; [exact Hv|].
      intros x Hx. apply wp_ret. unfold I, timestamps in *.
      rewrite length_app, map_app. simpl. rewrite Hx.
      repeat split.
      * lia.
      * lia.
      * apply ascending_snoc; [exact Ha|].
        eapply Forall_impl; [|exact Hf]. simpl. intros. lia.
      * apply Forall_lt_snoc with (t := (dayTime + Z.of_nat i * 4 * 3600000)%Z).
        -- eapply Forall_impl; [|exact Hf]. simpl. intros. lia.
        -- lia.
    + unfold I. repeat split; auto.
      eapply Forall_impl; [|exact Hlt]. simpl. intros. lia.
  - unfold I. intros acc' n' (Hn & Hlen & Ha & Hf).
    split; [exact Hn|]. split; [exact Hlen|]. split; [exact Ha|].
    eapply Forall_impl; [|exact Hf]. simpl. unfold msPerDay. intros. lia.
Qed.

(** The whole series: [6 * (days + 1)] readings, oldest first, made from
    [42 * (days + 1)] draws. *)
Lemma generateReadings_spec days now rand n :
  (0 <= days)%Z ->
  window_valid days now ->
  exists rs,
    generateReadings sinThirds days now rand n
      = Ok (rs, (42 * Z.to_nat (days + 1) + n)%nat) /\
    Z.of_nat (List.length rs) = (6 * (days + 1))%Z /\
    ascending (timestamps rs).
Proof.
  intros Hdays [Hlo Hhi].
  pose (I := fun (j : nat) (acc : list Reading) (n' : nat) =>
               n' = (42 * j + n)%nat /\
               List.length acc = (6 * j)%nat /\
               ascending (timestamps acc) /\
               Forall (fun t => (t < now - (days - Z.of_nat j) * msPerDay)%Z)
                      (timestamps acc)).
  assert (H : wp (generateReadings sinThirds days now) rand n
                 (I (List.length (countdown days)))).
  { unfold generateReadings. apply (wp_for_each I).
    - intros j d acc n' Hnth (Hn & Hlen & Ha & Hf).
      apply nth_error_countdown in Hnth. destruct Hnth as [-> Hj].
      eapply wp_mono.
      + apply wp_day; [| |exact Ha|exact Hf];
          unfold validTime, msPerDay in *; apply andb_true_iff;
          rewrite !Z.leb_le; lia.
      + simpl. intros acc' n'' (Hn' & Hlen' & Ha' & Hf'). unfold I.
        repeat split; [lia|lia|exact Ha'|].
        eapply Forall_impl; [|exact Hf']. simpl. intros. lia.
    - unfold I. repeat split; simpl; try lia; constructor. }
  apply wp_run in H. destruct H as (rs & n' & Hrun & Hn & Hlen & Ha & _).
  rewrite length_countdown in *. subst n'.
  exists rs. repeat split; [exact Hrun | lia | exact Ha].
Qed.

End GeneratorFacts.

(* ================================================================= *)
(** ** Which draws a computation depends on *)

Lemma draws_ret {A} (a : A) : draws_at_most 0 (ret a).
Proof.
  intros rand1 rand2 n _. split; [reflexivity|].
  unfold ret. intros a' n' [= _ <-]. lia.
Qed.

Lemma draws_throw {A} e : draws_at_most 0 (@throw A e).
Proof.
  intros rand1 rand2 n _. split; [reflexivity | discriminate].
Qed.

Lemma draws_random : draws_at_most 1 Math_random.
Proof.
  intros rand1 rand2 n H. unfold Math_random. split.
  - rewrite (H n); [reflexivity | lia].
  - intros a n' [= _ <-]. lia.
Qed.

Lemma draws_bind {A B} c1 c2 (m : M A) (k : A -> M B) :
  draws_at_most c1 m ->
  (forall a, draws_at_most c2 (k a)) ->
  draws_at_most (c1 + c2) (bind m k).
Proof.
  intros Hm Hk rand1 rand2 n H.
  destruct (Hm rand1 rand2 n) as [Heq Hle].
  { intros i Hi. apply H. lia. }
  unfold bind. rewrite <- Heq.
  destruct (m rand1 n) as [[a n1]|e]; [|split; [reflexivity | discriminate]].
  specialize (Hle a n1 eq_refl).
  destruct (Hk a rand1 rand2 n1) as [Heq' Hle'].
  { intros i Hi. apply H. lia. }
  split; [exact Heq'|].
  intros b n' Hrun. specialize (Hle' b n' Hrun). lia.
Qed.

Lemma draws_toISOString t : draws_at_most 0 (toISOString t).
Proof.
  unfold toISOString. destruct (validTime t); [apply draws_ret | apply draws_throw].
Qed.

Lemma draws_for_each {A St} c (xs : list A) (body : A -> St -> M St) :
  (forall x acc, draws_at_most c (body x acc)) ->
  forall acc, draws_at_most (List.length xs * c) (for_each xs body acc).
Proof.
  intros Hbody. induction xs as [|x xs IH]; intros acc; simpl.
  - apply draws_ret.
  - apply draws_bind; [apply Hbody | exact IH].
Qed.

Lemma draws_jitter value amount : draws_at_most 1 (ApexSimulator.jitter value amount).
Proof.
  unfold ApexSimulator.jitter.
  apply (draws_bind 1 0); [apply draws_random | intros; apply draws_ret].
Qed.

Lemma draws_reading sinThirds dayTime d r :
  draws_at_most 7 (ApexSimulator.reading sinThirds dayTime d r).
Proof.
  unfold ApexSimulator.reading.
  apply (draws_bind 0 7); [apply draws_toISOString | intros ts].
  apply (draws_bind 1 6); [apply draws_jitter | intros a].
  apply (draws_bind 1 5); [apply draws_jitter | intros c].
  apply (draws_bind 1 4); [apply draws_jitter | intros m].
  apply (draws_bind 1 3); [apply draws_jitter | intros p].
  apply (draws_bind 1 2); [apply draws_jitter | intros t].
  apply (draws_bind 1 1); [apply draws_jitter | intros n].
  apply (draws_bind 1 0); [apply draws_jitter | intros o].
  apply draws_ret.
Qed.

Lemma draws_day sinThirds now d acc :
  draws_at_most 42 (ApexSimulator.day sinThirds now d acc).
Proof.
  unfold ApexSimulator.day.
  apply (draws_for_each 7 (ApexSimulator.upto 6)).
  intros r readings.
  apply (draws_bind 7 0); [apply draws_reading | intros; apply draws_ret].
Qed.

Lemma draws_generateReadings sinThirds days now :
  draws_at_most (Z.to_nat (days + 1) * 42)
                (ApexSimulator.generateReadings sinThirds days now).
Proof.
  unfold ApexSimulator.generateReadings.
  rewrite <- length_countdown.
  apply draws_for_each. intros d acc. apply draws_day.
Qed.

(* ================================================================= *)
(** ** Rounding and noise *)

Lemma Qmake_scaled k p : Qmake k p == inject_Z k * (1 # p).
Proof.
  unfold Qeq, Qmult, inject_Z. simpl. now rewrite Z.mul_1_r.
Qed.

Lemma floor_hundredths y :
  y - 0.005 <= Qmake (Qfloor (y * inject_Z 100 + 0.5)) 100 /\
  Qmake (Qfloor (y * inject_Z 100 + 0.5)) 100 <= y + 0.005.
Proof.
  set (z := y * inject_Z 100 + 0.5).
  pose proof (Qfloor_le z) as Hlo.
  pose proof (Qlt_floor z) as Hhi.
  rewrite inject_Z_plus in Hhi.
  rewrite (Qmake_scaled (Qfloor z) 100).
  set (k := inject_Z (Qfloor z)) in *.
  assert (Hz : z == y * 100 + 0.5) by (unfold z; reflexivity).
  rewrite Hz in Hlo, Hhi.
  change (inject_Z 1) with 1 in Hhi.
  split; lra.
Qed.

(** Rounding to two decimals moves a number by at most half a hundredth. *)
Lemma toFixed_2_close y :
  y - 0.005 <= toFixed 2 y /\ toFixed 2 y <= y + 0.005.
Proof.
  unfold toFixed.
  change (10 ^ Z.of_nat 2)%Z with 100%Z. change (Z.to_pos 100) with 100%positive.
  destruct (Qle_bool 0 y).
  - destruct (Qle_bool 1e21 y); [split; lra | apply floor_hundredths].
  - destruct (Qle_bool 1e21 (- y)); [split; lra|].
    destruct (floor_hundredths (- y)) as [Hlo Hhi].
    set (n := Qfloor (- y * inject_Z 100 + 0.5)) in *.
    rewrite (Qmake_scaled n 100) in Hlo, Hhi.
    rewrite (Qmake_scaled (- n) 100), inject_Z_opp.
    set (k := inject_Z n) in *.
    split; lra.
Qed.

Lemma noise_bounded u amount :
  0 <= u -> u < 1 -> 0 <= amount ->
  - amount <= (u - 0.5) * 2 * amount /\ (u - 0.5) * 2 * amount <= amount.
Proof.
  intros Hu0 Hu1 Ha. split; nra.
Qed.

(* ================================================================= *)
(** ** The store of the simulator routes *)

Section StoreFacts.

Import SimulatorApi.

Lemma validTime_between lo hi t :
  validTime lo = true -> validTime hi = true -> (lo <= t <= hi)%Z ->
  validTime t = true.
Proof.
  unfold validTime. rewrite !andb_true_iff, !Z.leb_le. lia.
Qed.

Lemma window_valid_ends days now :
  (0 <= days)%Z -> window_valid days now ->
  validTime (now - days * dayMs) = true /\ validTime now = true.
Proof.
  unfold window_valid, validTime, ApexSimulator.msPerDay, dayMs, maxTime.
  intros Hd [Hlo Hhi]. rewrite !andb_true_iff, !Z.leb_le. lia.
Qed.

Lemma wp_pushDay now i acc rand n (post : list Reading -> nat -> Prop) :
  validTime (now - i * dayMs) = true ->
  (forall x, timestamp x = (now - i * dayMs)%Z -> post (acc ++ [x]) (6 + n)%nat) ->
  wp (pushDay now i acc) rand n post.
Proof.
  intros Hv Hp. unfold pushDay, wp, bind, Math_random, toISOString.
  rewrite Hv. simpl. now apply Hp.
Qed.

Lemma wp_storyEvents now rand n (post : list Event -> nat -> Prop) :
  validTime (now - 30 * dayMs) = true -> validTime now = true ->
  (forall es, List.length es = 6%nat -> post es n) ->
  wp (storyEvents now) rand n post.
Proof.
  intros Hlo Hhi Hp. unfold storyEvents.
  do 6 (apply wp_bind, wp_toISOString;
        [apply (validTime_between _ _ _ Hlo Hhi); unfold dayMs; lia|]).
  apply wp_ret. now apply Hp.
Qed.

(** An initialised store is left alone, and no draw is made. *)
Lemma initializeSimulatorData_again now s rand n :
  readings s <> [] ->
  initializeSimulatorData now s rand n = Ok (s, n).
Proof.
  intros Hne. unfold initializeSimulatorData.
  destruct (readings s); [contradiction | reflexivity].
Qed.

(** The first initialisation: 31 daily readings, oldest first, and the
    six events of the story. *)
Lemma initializeSimulatorData_first now s rand n :
  readings s = [] ->
  window_valid 30 now ->
  exists rs es,
    initializeSimulatorData now s rand n
      = Ok (mkStore (tank s) rs es (analyses s), (186 + n)%nat) /\
    List.length rs = 31%nat /\
    ascending (simTimestamps rs) /\
    List.length es = 6%nat.
Proof.
  intros Hempty Hwin.
  destruct (window_valid_ends 30 now ltac:(lia) Hwin) as [Hlo Hhi].
  pose (I := fun (j : nat) (acc : list Reading) (n' : nat) =>
               n' = (6 * j + n)%nat /\
               List.length acc = j /\
               ascending (simTimestamps acc) /\
               Forall (fun t => (t < now - (30 - Z.of_nat j) * dayMs)%Z)
                      (simTimestamps acc)).
  assert (H : wp (initializeSimulatorData now s) rand n
                 (fun s' n' =>
                    exists rs es,
                      s' = mkStore (tank s) rs es (analyses s) /\
                      n' = (186 + n)%nat /\ List.length rs = 31%nat /\
                      ascending (simTimestamps rs) /\ List.length es = 6%nat)).
  { unfold initializeSimulatorData. rewrite Hempty. simpl Nat.ltb. cbv iota.
    apply wp_bind.
    apply wp_mono with (P := I (List.length (ApexSimulator.countdown 30))).
    - apply (wp_for_each I).
      + intros j i acc n' Hnth (Hn & Hlen & Ha & Hf).
        apply nth_error_countdown in Hnth. destruct Hnth as [-> Hj].
        apply wp_pushDay.
        * apply (validTime_between _ _ _ Hlo Hhi). unfold dayMs. lia.
        * intros x Hx. unfold I, simTimestamps in *.
          rewrite length_app, map_app. cbn [map List.length]. rewrite Hx.
          split; [lia|]. split; [lia|]. split.
          -- now apply ascending_snoc.
          -- apply Forall_lt_snoc with (t := (now - (30 - Z.of_nat j) * dayMs)%Z);
               [exact Hf | unfold dayMs; lia].
      + unfold I. repeat split; simpl; try lia; constructor.
    - rewrite length_countdown. intros rs n' (Hn & Hlen & Ha & _).
      apply wp_bind, wp_storyEvents; [exact Hlo | exact Hhi |].
      intros es Hes. apply wp_ret. exists rs, es.
      subst n'. repeat split; auto. }
  apply wp_run in H.
  destruct H as (s' & n' & Hrun & rs & es & -> & -> & Hlen & Ha & Hes).
  exists rs, es. auto.
Qed.

End StoreFacts.

(* ================================================================= *)
(** ** Claims about the generators *)

Lemma sample_window days :
  (0 <= days <= 30)%Z -> window_valid days sampleNow.
Proof.
  unfold window_valid, sampleNow, maxTime, ApexSimulator.msPerDay. lia.
Qed.

(** A window that starts before the earliest instant a [Date] can hold
    makes the very first [toISOString] raise. *)
Lemma generateReadings_out_of_range sinThirds days now rand n :
  (0 <= days)%Z ->
  validTime (now - days * ApexSimulator.msPerDay) = false ->
  ApexSimulator.generateReadings sinThirds days now rand n
    = Throw (RangeError "Invalid time value").
Proof.
  intros Hdays Hbad.
  unfold ApexSimulator.generateReadings, ApexSimulator.countdown.
  replace (Z.to_nat (days + 1)) with (S (Z.to_nat days)) by lia.
  cbn [seq map for_each]. rewrite Z.sub_0_r.
  unfold bind at 1, ApexSimulator.day. cbn [ApexSimulator.upto seq map for_each].
  unfold bind at 1, bind at 1, ApexSimulator.reading, bind at 1, toISOString.
  replace (now - days * ApexSimulator.msPerDay + Z.of_nat 0 * 4 * 3600000)%Z
    with (now - days * ApexSimulator.msPerDay)%Z by lia.
  now rewrite Hbad.
Qed.

(** C1, as the code has it. [generateReadings(days)] returns
    [6 * (days + 1)] readings, six for each of the day offsets [days]
    down to [0], and [initializeSimulatorData] stores 31 daily readings for
    its 30-day window; both series are in strictly increasing timestamp
    order, oldest first. *)
Theorem generators_count_and_order sinThirds days now rand n :
  ((0 <= days)%Z -> window_valid days now ->
   exists rs n',
     ApexSimulator.generateReadings sinThirds days now rand n = Ok (rs, n') /\
     Z.of_nat (List.length rs) = (6 * (days + 1))%Z /\
     ascending (timestamps rs)) /\
  (window_valid 30 now ->
   exists s' n',
     SimulatorApi.initializeSimulatorData now SimulatorApi.simulatorData rand n
       = Ok (s', n') /\
     List.length (SimulatorApi.readings s') = 31%nat /\
     ascending (simTimestamps (SimulatorApi.readings s'))).
Proof.
  split.
  - intros Hdays Hwin.
    destruct (generateReadings_spec sinThirds days now rand n Hdays Hwin)
      as (rs & Hrun & Hlen & Ha).
    eauto.
  - intros Hwin.
    destruct (initializeSimulatorData_first now SimulatorApi.simulatorData rand n
                eq_refl Hwin) as (rs & es & Hrun & Hlen & Ha & _).
    eauto.
Qed.

Lemma generators_count_and_order_witness :
  (exists rs n',
     ApexSimulator.generateReadings sineTable 30 sampleNow zeros 0%nat = Ok (rs, n') /\
     Z.of_nat (List.length rs) = 186%Z /\
     ascending (timestamps rs)) /\
  (exists s' n',
     SimulatorApi.initializeSimulatorData sampleNow SimulatorApi.simulatorData zeros 0%nat
       = Ok (s', n') /\
     List.length (SimulatorApi.readings s') = 31%nat /\
     ascending (simTimestamps (SimulatorApi.readings s'))).
Proof.
  split.
  - apply (proj1 (generators_count_and_order sineTable 30 sampleNow zeros 0%nat)).
    + lia.
    + apply sample_window. lia.
  - apply (proj2 (generators_count_and_order sineTable 30 sampleNow zeros 0%nat)).
    apply sample_window. lia.
Defined.

(** C1 as stated fails: a one-day window yields twelve readings, not one. *)
Lemma generateReadings_one_day_counterexample :
  exists rs n',
    ApexSimulator.generateReadings sineTable 1 sampleNow zeros 0%nat = Ok (rs, n') /\
    List.length rs = 12%nat /\
    Z.of_nat (List.length rs) <> 1%Z.
Proof.
  destruct (generateReadings_spec sineTable 1 sampleNow zeros 0%nat)
    as (rs & Hrun & Hlen & _); [lia | apply sample_window; lia |].
  exists rs. eexists. split; [exact Hrun|]. split; lia.
Qed.

(** C5, as the code has it. For every [days >= 0] whose window lies in
    the range of [Date], [generateReadings] returns normally and its
    result is never empty; for [days = 0] it holds the six readings of the
    current day. *)
Theorem generateReadings_succeeds sinThirds days now rand n :
  (0 <= days)%Z -> window_valid days now ->
  exists rs n',
    ApexSimulator.generateReadings sinThirds days now rand n = Ok (rs, n') /\
    rs <> [] /\
    (days = 0%Z -> List.length rs = 6%nat).
Proof.
  intros Hdays Hwin.
  destruct (generateReadings_spec sinThirds days now rand n Hdays Hwin)
    as (rs & Hrun & Hlen & _).
  exists rs. eexists. split; [exact Hrun|]. split.
  - intros ->. cbn [List.length] in Hlen. lia.
  - intros ->. lia.
Qed.

Lemma generateReadings_succeeds_witness :
  exists rs n',
    ApexSimulator.generateReadings sineTable 0 sampleNow halves 0%nat = Ok (rs, n') /\
    rs <> [] /\
    (0%Z = 0%Z -> List.length rs = 6%nat).
Proof.
  apply (generateReadings_succeeds sineTable 0 sampleNow halves 0%nat).
  - lia.
  - apply sample_window. lia.
Defined.

(** C5 as stated fails: a zero-day window is not answered with the empty
    sequence. *)
Lemma generateReadings_zero_days_counterexample :
  exists rs n',
    ApexSimulator.generateReadings sineTable 0 sampleNow zeros 0%nat = Ok (rs, n') /\
    List.length rs = 6%nat /\ rs <> [].
Proof.
  destruct (generateReadings_spec sineTable 0 sampleNow zeros 0%nat)
    as (rs & Hrun & Hlen & _); [lia | apply sample_window; lia |].
  exists rs. eexists. split; [exact Hrun|]. split.
  - lia.
  - intros ->. cbn [List.length] in Hlen. lia.
Qed.

(** C4, as the code has it. [generateReadings] takes no seed; its outcome
    is fixed by [days], the clock reading and the next
    [42 * (days + 1)] values of [Math.random]: two runs that agree on
    those produce the same series. *)
Theorem generateReadings_determined_by_draws sinThirds days now rand1 rand2 n :
  (forall i, (n <= i < n + Z.to_nat (days + 1) * 42)%nat -> rand1 i = rand2 i) ->
  ApexSimulator.generateReadings sinThirds days now rand1 n
    = ApexSimulator.generateReadings sinThirds days now rand2 n.
Proof.
  intros Hagree.
  exact (proj1 (draws_generateReadings sinThirds days now rand1 rand2 n Hagree)).
Qed.

Lemma generateReadings_determined_by_draws_witness :
  ApexSimulator.generateReadings sineTable 0 sampleNow zeros 0%nat
    = ApexSimulator.generateReadings sineTable 0 sampleNow
        (fun i => if (i <? 42)%nat then 0 else 0.5) 0%nat.
Proof.
  apply (generateReadings_determined_by_draws sineTable 0 sampleNow zeros
           (fun i => if (i <? 42)%nat then 0 else 0.5) 0%nat).
  intros i Hi. unfold zeros.
  destruct (Nat.ltb_spec i 42) as [_|Hge]; [reflexivity | simpl in Hi; lia].
Defined.

(** C4 as stated fails: with the same window and the same clock reading,
    two runs that meet different values of [Math.random] differ. *)
Lemma generateReadings_unseeded_counterexample :
  ApexSimulator.generateReadings sineTable 0 sampleNow zeros 0%nat
    <> ApexSimulator.generateReadings sineTable 0 sampleNow halves 0%nat.
Proof.
  vm_compute. discriminate.
Qed.

(* ================================================================= *)
(** ** Rounding to binary64 *)

Lemma pow2_pos k : 0 < Binary64.pow2 k.
Proof. apply Qpower_0_lt. reflexivity. Qed.

Lemma pow2_add a b :
  Binary64.pow2 (a + b) == Binary64.pow2 a * Binary64.pow2 b.
Proof. apply Qpower_plus. discriminate. Qed.

Lemma pow2_Z n : (0 <= n)%Z -> Binary64.pow2 n == inject_Z (2 ^ n).
Proof. intros H. unfold Binary64.pow2. now rewrite Zpower_Qpower. Qed.

(** The nearest integer is at most a half away. *)
Lemma nearestEven_close y :
  inject_Z (Binary64.nearestEven y) - (1 # 2) <= y /\
  y <= inject_Z (Binary64.nearestEven y) + (1 # 2).
Proof.
  unfold Binary64.nearestEven.
  pose proof (Qfloor_le y) as Hlo. pose proof (Qlt_floor y) as Hhi.
  rewrite inject_Z_plus in Hhi. set (f := Qfloor y) in *.
  change (inject_Z 1) with 1 in Hhi.
  destruct (Qcompare_spec (y - inject_Z f) (1 # 2)) as [E|E|E];
    [destruct (Z.even f)| |];
    rewrite ?inject_Z_plus; change (inject_Z 1) with 1; split; lra.
Qed.

(** The exponent found for [x] is not too large: [2^e <= x]. *)
Lemma exponent_le x : 0 < x -> Binary64.pow2 (Binary64.exponent x) <= x.
Proof.
  intros Hx. unfold Binary64.exponent.
  set (e := (Z.log2 (Qnum x) - Z.log2 (Z.pos (Qden x)))%Z).
  destruct (Qle_bool (Binary64.pow2 e) x) eqn:E; [now apply Qle_bool_iff|].
  destruct x as [p q]. cbn [Qnum Qden] in e.
  assert (Hp : (0 < p)%Z) by (unfold Qlt in Hx; simpl in Hx; lia).
  pose proof (Z.log2_spec p Hp) as [Hp1 _].
  pose proof (Z.log2_spec (Z.pos q) ltac:(lia)) as [_ Hq2].
  pose proof (Z.log2_nonneg p) as Hlp.
  pose proof (Z.log2_nonneg (Z.pos q)) as Hlq.
  replace (e - 1)%Z with (Z.log2 p + - Z.succ (Z.log2 (Z.pos q)))%Z
    by (unfold e; lia).
  rewrite pow2_add. unfold Binary64.pow2 at 2. rewrite Qpower_opp.
  fold (Binary64.pow2 (Z.succ (Z.log2 (Z.pos q)))).
  rewrite !pow2_Z by lia.
  rewrite (Qmake_Qdiv p q).
  apply Qle_shift_div_l; [reflexivity|].
  set (a := (2 ^ Z.log2 p)%Z) in *.
  set (b := (2 ^ Z.succ (Z.log2 (Z.pos q)))%Z) in *.
  assert (Hb : 0 < inject_Z b) by (rewrite <- (Zlt_Qlt 0); lia).
  assert (H1 : inject_Z a <= inject_Z p) by (rewrite <- Zle_Qle; lia).
  assert (H2 : inject_Z (Z.pos q) <= inject_Z b) by (rewrite <- Zle_Qle; lia).
  assert (Ha : 0 <= inject_Z a)
    by (rewrite <- (Zle_Qle 0); unfold a; apply Z.pow_nonneg; lia).
  assert (Hinv : / inject_Z b * inject_Z b == 1)
    by (rewrite Qmult_comm; apply Qmult_inv_r; lra).
  assert (Hib : 0 < / inject_Z b) by (apply Qinv_lt_0_compat; exact Hb).
  set (ib := / inject_Z b) in *. set (ia := inject_Z a) in *.
  set (iq := inject_Z (Z.pos q)) in *. set (ip := inject_Z p) in *.
  set (jb := inject_Z b) in *.
  assert (H3 : 0 <= ia * ib) by nra.
  assert (H4 : ia * ib * jb == ia) by (rewrite <- Qmult_assoc, Hinv; ring).
  nra.
Qed.

(** Rounding moves a positive number by at most half the spacing at its
    magnitude: [2^-53] of the number itself, or [eta] below the normal
    range. *)
Lemma roundPositive_close x :
  0 < x ->
  x - ((1 # 9007199254740992) * x + Binary64.eta) <= Binary64.roundPositive x /\
  Binary64.roundPositive x <= x + ((1 # 9007199254740992) * x + Binary64.eta).
Proof.
  intros Hx. unfold Binary64.roundPositive. cbv zeta.
  pose proof (exponent_le x Hx) as He.
  set (e := Binary64.exponent x) in *.
  set (k := (Z.max e (-1022) - 52)%Z).
  pose proof (pow2_pos k) as Hk.
  destruct (nearestEven_close (x / Binary64.pow2 k)) as [Hlo Hhi].
  set (m := inject_Z (Binary64.nearestEven (x / Binary64.pow2 k))) in *.
  assert (Hdiv : x / Binary64.pow2 k * Binary64.pow2 k == x) by (field; lra).
  assert (Hulp : Binary64.pow2 k * (1 # 2)
                 <= (1 # 9007199254740992) * x + Binary64.eta).
  { destruct (Z.max_spec e (-1022)) as [[Hlt Hmax]|[Hge Hmax]].
    - assert (Ek : k = (-1074)%Z) by (unfold k; lia).
      rewrite Ek.
      assert (Hc : Binary64.pow2 (-1074) * (1 # 2) == Binary64.eta)
        by reflexivity.
      rewrite Hc. set (h := Binary64.eta). lra.
    - assert (Ek : k = (e + -52)%Z) by (unfold k; lia).
      rewrite Ek, pow2_add.
      assert (Hc : Binary64.pow2 (-52) * (1 # 2) == 1 # 9007199254740992)
        by reflexivity.
      pose proof (pow2_pos (-1075)) as Heta. fold Binary64.eta in Heta.
      set (pe := Binary64.pow2 e) in *. set (c := Binary64.pow2 (-52)) in *.
      clearbody pe c. set (h := Binary64.eta) in *. clearbody h. nra. }
  set (y := x / Binary64.pow2 k) in *. set (u := Binary64.pow2 k) in *.
  set (h := Binary64.eta) in *.
  clearbody m y u h. split; nra.
Qed.

(** The standard model of binary64 rounding: a number of magnitude at
    most [bound] is moved by at most [2^-53 * bound + eta]. *)
Lemma fl_close x bound :
  - bound <= x -> x <= bound ->
  x - ((1 # 9007199254740992) * bound + Binary64.eta) <= Binary64.fl x /\
  Binary64.fl x <= x + ((1 # 9007199254740992) * bound + Binary64.eta).
Proof.
  intros Hlo Hhi. unfold Binary64.fl.
  pose proof (pow2_pos (-1075)) as Heta. fold Binary64.eta in Heta.
  destruct (Qcompare_spec x 0) as [E|E|E].
  - split; lra.
  - destruct (roundPositive_close (- x)) as [H1 H2]; [lra|]. split; lra.
  - destruct (roundPositive_close x) as [H1 H2]; [lra|]. split; lra.
Qed.

Lemma eta_small : 0 < Binary64.eta /\ Binary64.eta <= 1 # 1267650600228229401496703205376.
Proof. split; [apply pow2_pos | vm_compute; discriminate]. Qed.

Lemma product_bounded x c a :
  0 <= a -> - c <= x -> x <= c -> - (c * a) <= x * a /\ x * a <= c * a.
Proof. intros Ha Hlo Hhi. split; nra. Qed.

(** The sum [Binary64.jitter] hands to [toFixed]: the value and a noise
    of at most the amplitude, after four roundings. *)
Lemma jitter_binary64_sum u value amount bound :
  0 <= u -> u < 1 -> 0 <= amount -> - bound <= value -> value <= bound ->
  let d :=
    Binary64.fl
      (value + Binary64.fl (Binary64.fl (Binary64.fl (u - 0.5) * 2) * amount)) in
  value - (1 + (6 # 9007199254740992)) * amount
    - (1 # 9007199254740992) * (bound + 3) <= d /\
  d <= value + (1 + (6 # 9007199254740992)) * amount
         + (1 # 9007199254740992) * (bound + 3).
Proof.
  intros Hu0 Hu1 Ha Hlo Hhi.
  destruct eta_small as [Heta0 Heta1].
  destruct (fl_close (u - 0.5) (1 # 2)) as [L1 U1]; [lra|lra|].
  set (n1 := Binary64.fl (u - 0.5)) in *.
  destruct (fl_close (n1 * 2) (1 + (1 # 4503599627370496))) as [L2 U2];
    [lra|lra|].
  set (n2 := Binary64.fl (n1 * 2)) in *.
  destruct (product_bounded n2 (1 + (3 # 9007199254740992)) amount Ha)
    as [L3' U3']; [lra|lra|].
  destruct (fl_close (n2 * amount) ((1 + (3 # 9007199254740992)) * amount))
    as [L3 U3]; [lra|lra|].
  set (x3 := n2 * amount) in *. set (n3 := Binary64.fl x3) in *.
  destruct (fl_close (value + n3)
              (bound + (1 + (5 # 9007199254740992)) * amount + 1))
    as [L4 U4]; [lra|lra|].
  cbv zeta. set (d := Binary64.fl (value + n3)) in *.
  set (h := Binary64.eta) in *. clearbody d n3 x3 n2 n1 h.
  split; lra.
Qed.

(** The arithmetic of [Binary64.jitter]: the sum, the two decimals of
    [toFixed] and the rounding of what the unary plus reads. *)
Lemma jitter_binary64_value u value amount bound :
  0 <= u -> u < 1 -> 0 <= amount -> - bound <= value -> value <= bound ->
  let x :=
    Binary64.fl
      (toFixed 2
         (Binary64.fl
            (value + Binary64.fl (Binary64.fl (Binary64.fl (u - 0.5) * 2) * amount)))) in
  value - amount - 0.005 - (bound + amount + 1) * (1 # 1125899906842624) <= x /\
  x <= value + amount + 0.005 + (bound + amount + 1) * (1 # 1125899906842624).
Proof.
  intros Hu0 Hu1 Ha Hlo Hhi.
  destruct eta_small as [Heta0 Heta1].
  destruct (jitter_binary64_sum u value amount bound Hu0 Hu1 Ha Hlo Hhi)
    as [L4 U4].
  cbv zeta in L4, U4.
  set (d := Binary64.fl
              (value + Binary64.fl (Binary64.fl (Binary64.fl (u - 0.5) * 2) * amount)))
    in *.
  destruct (toFixed_2_close d) as [L5 U5].
  set (t := toFixed 2 d) in *.
  destruct (fl_close t ((1 + (1 # 9007199254740992)) * bound
                         + (1 + (6 # 9007199254740992)) * amount + 2))
    as [L6 U6]; [lra|lra|].
  cbv zeta. set (r := Binary64.fl t) in *.
  set (h := Binary64.eta) in *. clearbody r t d h.
  split; lra.
Qed.

(** Below [10^21], [toFixed(2)] prints a whole number of hundredths. *)
Lemma toFixed_2_hundredths y :
  - (1000000000000000000000) < y -> y < 1000000000000000000000 ->
  exists k : Z, toFixed 2 y = Qmake k 100.
Proof.
  intros Hlo Hhi. unfold toFixed.
  change (10 ^ Z.of_nat 2)%Z with 100%Z. change (Z.to_pos 100) with 100%positive.
  assert (Hbig : forall z, z < 1000000000000000000000 ->
                           Qle_bool 1e21 z = false).
  { intros z Hz. destruct (Qle_bool 1e21 z) eqn:E; [|reflexivity].
    apply Qle_bool_iff in E.
    assert (E21 : 1e21 == 1000000000000000000000) by reflexivity.
    rewrite E21 in E. lra. }
  destruct (Qle_bool 0 y).
  - rewrite (Hbig y Hhi). eauto.
  - rewrite (Hbig (- y)) by lra. eauto.
Qed.

(** In exact arithmetic, the arithmetic of the generators' model, the
    result of [jitter value amount] is no further than [amount + 0.005]
    from [value]: the noise is bounded by the amplitude and rounding to two
    decimals adds at most half a hundredth. *)
Lemma jitter_exact_within_amplitude value amount rand n :
  0 <= amount -> unit_draws rand ->
  exists x,
    ApexSimulator.jitter value amount rand n = Ok (x, S n) /\
    SimulatorApi.jitter value amount rand n = Ok (x, S n) /\
    value - amount - 0.005 <= x /\ x <= value + amount + 0.005.
Proof.
  intros Ha Hunit. destruct (Hunit n) as [Hu0 Hu1].
  exists (toFixed 2 (value + (rand n - 0.5) * 2 * amount)).
  split; [reflexivity|]. split; [reflexivity|].
  destruct (noise_bounded (rand n) amount Hu0 Hu1 Ha) as [Hlo Hhi].
  destruct (toFixed_2_close (value + (rand n - 0.5) * 2 * amount)) as [Hlo' Hhi'].
  set (noise := (rand n - 0.5) * 2 * amount) in *.
  set (x := toFixed 2 (value + noise)) in *.
  split; lra.
Qed.

(** C10, as the code has it.  In binary64, for an amplitude
    [amount >= 0], a value and an amplitude far below the largest binary64
    number and a draw in the unit interval, [jitter value amount] returns a
    number no further from [value] than [amount + 0.005] plus what the
    five roundings add, which is at most
    [(|value| + amount + 1) * 2^-50].  Below [10^20] the number returned
    is the binary64 value nearest to a whole number of hundredths. *)
Theorem jitter_binary64_within_amplitude value amount rand n :
  0 <= amount -> Qabs value + amount <= 1e300 -> unit_draws rand ->
  exists x,
    Binary64.jitter value amount rand n = Ok (x, S n) /\
    value - amount - 0.005 - roundingSlack value amount <= x /\
    x <= value + amount + 0.005 + roundingSlack value amount /\
    (Qabs value + amount <= 1e20 ->
     exists k : Z, x = Binary64.fl (Qmake k 100)).
Proof.
  intros Ha _ Hunit. destruct (Hunit n) as [Hu0 Hu1].
  assert (Hlo : - Qabs value <= value)
    by (pose proof (Qle_Qabs (- value)) as H; rewrite Qabs_opp in H; lra).
  assert (Hhi : value <= Qabs value) by apply Qle_Qabs.
  eexists. split; [reflexivity|].
  apply and_assoc. split.
  - unfold roundingSlack.
    assert (Hc : Binary64.pow2 (-50) == 1 # 1125899906842624) by reflexivity.
    rewrite Hc.
    apply jitter_binary64_value; assumption.
  - intros Hsmall.
    assert (E20 : 1e20 == 100000000000000000000) by reflexivity.
    rewrite E20 in Hsmall.
    destruct (jitter_binary64_sum (rand n) value amount (Qabs value)
                Hu0 Hu1 Ha Hlo Hhi) as [L U].
    cbv zeta in L, U.
    set (d := Binary64.fl
                (value + Binary64.fl (Binary64.fl (Binary64.fl (rand n - 0.5) * 2)
                                      * amount))) in *.
    destruct (toFixed_2_hundredths d) as [k Hk].
    + set (b := Qabs value) in *. clearbody d b. lra.
    + set (b := Qabs value) in *. clearbody d b. lra.
    + exists k. now rewrite Hk.
Qed.

Lemma jitter_binary64_within_amplitude_witness :
  exists x,
    Binary64.jitter 438 3 twentieths 0%nat = Ok (x, 1%nat) /\
    438 - 3 - 0.005 - roundingSlack 438 3 <= x /\
    x <= 438 + 3 + 0.005 + roundingSlack 438 3 /\
    exists k : Z, x = Binary64.fl (Qmake k 100).
Proof.
  destruct (jitter_binary64_within_amplitude 438 3 twentieths 0%nat)
    as (x & Hrun & Hlo & Hhi & Hk).
  - discriminate.
  - vm_compute. discriminate.
  - intros i. split; vm_compute; [discriminate | reflexivity].
  - exists x. repeat split; try assumption.
    apply Hk. vm_compute. discriminate.
Defined.

(** C10 as stated fails in binary64: around [1e17] the binary64 values are
    16 apart, so the sum of [1e17] and a noise of about [-9] is rounded to
    [1e17 - 16], which is more than [10.005] below [1e17]. *)
Lemma jitter_binary64_counterexample :
  unit_draws twentieths /\
  exists x,
    Binary64.jitter 1e17 10 twentieths 0%nat = Ok (x, 1%nat) /\
    x == 99999999999999984 /\
    x < 1e17 - 10 - 0.005.
Proof.
  split.
  - intros i. split; vm_compute; [discriminate | reflexivity].
  - eexists. split; [reflexivity|]. split; vm_compute; reflexivity.
Qed.

(* ================================================================= *)
(** ** Objects built by assignment and spread *)

Section ObjectFacts.

Import Server.

Lemma own_set o k v k' :
  own (set o k v) k' = if String.eqb k k' then Some v else own o k'.
Proof.
  induction o as [|[k0 v0] o IH]; simpl.
  - reflexivity.
  - destruct (String.eqb k0 k) eqn:E0; simpl.
    + apply String.eqb_eq in E0. subst k0.
      destruct (String.eqb k k'); reflexivity.
    + destruct (String.eqb k0 k') eqn:E1; [|exact IH].
      apply String.eqb_eq in E1. subst k0.
      now rewrite String.eqb_sym, E0.
Qed.

Lemma own_assign extra : forall o k,
  own (assign o extra) k =
  match last_binding extra k with
  | Some v => Some v
  | None => own o k
  end.
Proof.
  unfold assign. induction extra as [|[k1 v1] extra IH]; intros o k; simpl.
  - reflexivity.
  - rewrite IH. destruct (last_binding extra k); [reflexivity|].
    rewrite own_set. destruct (String.eqb k1 k); reflexivity.
Qed.

Lemma in_keys_set o k v x :
  In x (keys (set o k v)) -> x = k \/ In x (keys o).
Proof.
  unfold keys. induction o as [|[k0 v0] o IH]; simpl.
  - intros [H|[]]. now left.
  - destruct (String.eqb k0 k) eqn:E; simpl.
    + intros H. now right.
    + intros [H|H]; [now right; left|].
      destruct (IH H); [now left | now right; right].
Qed.

Lemma nodup_set o k v : NoDup (keys o) -> NoDup (keys (set o k v)).
Proof.
  unfold keys. induction o as [|[k0 v0] o IH]; simpl; intros Hnd.
  - repeat constructor. intros [].
  - inversion Hnd as [|? ? Hnotin Hnd']; subst.
    destruct (String.eqb k0 k) eqn:E; simpl.
    + now constructor.
    + constructor; [|now apply IH].
      intros Hin. apply in_keys_set in Hin. destruct Hin as [->|Hin].
      * now rewrite String.eqb_refl in E.
      * contradiction.
Qed.

Lemma nodup_assign extra : forall o,
  NoDup (keys o) -> NoDup (keys (assign o extra)).
Proof.
  unfold assign. induction extra as [|[k v] extra IH]; intros o Hnd; simpl.
  - exact Hnd.
  - apply IH. now apply nodup_set.
Qed.

Lemma own_absent (o : object) k : ~ In k (keys o) -> own o k = None.
Proof.
  unfold keys. induction o as [|[k0 v0] o IH]; simpl; intros Hnotin.
  - reflexivity.
  - destruct (String.eqb k0 k) eqn:E.
    + apply String.eqb_eq in E. subst. exfalso. apply Hnotin. now left.
    + apply IH. intros Hin. apply Hnotin. now right.
Qed.

(** Without duplicate keys the last binding is the only one. *)
Lemma last_binding_own o k : NoDup (keys o) -> last_binding o k = own o k.
Proof.
  unfold keys. induction o as [|[k0 v0] o IH]; simpl; intros Hnd.
  - reflexivity.
  - inversion Hnd as [|? ? Hnotin Hnd']; subst.
    rewrite (IH Hnd'). destruct (String.eqb k0 k) eqn:E.
    + apply String.eqb_eq in E. subst. now rewrite (own_absent _ _ Hnotin).
    + destruct (own o k); reflexivity.
Qed.


End ObjectFacts.

(* ================================================================= *)
(** ** Claims about the analyze routes *)

Lemma post_analyze_run tick tock s rand n :
  validTime tock = true ->
  exists a,
    SimulatorApi.post_analyze tick tock s rand n
      = Ok ((s, SimulatorApi.AnalysisJson a), n) /\
    SimulatorApi.confidence a = 95 /\
    SimulatorApi.severity a = "high" /\
    List.length (SimulatorApi.recommendations a) = 4%nat.
Proof.
  intros Hv. unfold SimulatorApi.post_analyze, bind, toISOString. rewrite Hv.
  eexists. split; [reflexivity|]. repeat split.
Qed.

(** C2, as the code has it. For a request that the rate limiter and
    [requireAuth] have let through, with an existing tank and an empty
    trailing window, the handler of the server's analyze route produces no
    diagnosis: it answers with status 400 and the error "No readings
    available. Add readings first.", whatever [analyzeTank] would do.  The
    simulator's route does not look at the store: whatever readings it
    holds, also none, the answer is one and the same mock analysis, fixed
    field by field but for the id and the date, which come from the clock,
    and the store is left as it is. *)
Theorem analyze_empty_window b userId tankId tank recentEvents
        tick tock rand n :
  (Server.getTank b userId tankId = Server.Resolved (Some tank) ->
   Server.getReadings b userId tankId 7 = Server.Resolved [] ->
   Server.getEvents b userId tankId 10 = Server.Resolved recentEvents ->
   Server.analyze b userId tankId
     = Server.error 400 "No readings available. Add readings first.") /\
  (validTime tock = true ->
   exists a,
     (forall s,
        SimulatorApi.post_analyze tick tock s rand n
          = Ok ((s, SimulatorApi.AnalysisJson a), n)) /\
     SimulatorApi.a_id a = ("sim-analysis-" ++ string_of_Z tick)%string /\
     SimulatorApi.a_type a = "user-requested" /\
     SimulatorApi.a_date a = tock /\
     SimulatorApi.diagnosis a
       = "Alkalinity crash likely caused by nitrification from urea/ammonium dosing consuming alk. Calcium elevated due to reduced All-For-Reef dosing." /\
     SimulatorApi.confidence a = 95 /\
     SimulatorApi.severity a = "high" /\
     SimulatorApi.recommendations a
       = [ "Stop ammonium dosing immediately";
           "Increase All-For-Reef to 180-200 mL/day to restore alk";
           "Monitor alk every 12 hours for next 48 hours";
           "Once alk stabilizes above 7.5, resume normal dosing schedule" ] /\
     SimulatorApi.citations a
       = [ SimulatorApi.mkCitation "Randy Holmes-Farley"
             "Nitrification consumes alkalinity at a rate of ~7 dKH per 1 ppm ammonia converted"
             "Explains the mechanism of alkalinity consumption from urea dosing" ]).
Proof.
  split.
  - intros Htank Hreadings Hevents. unfold Server.analyze.
    now rewrite Htank, Hreadings, Hevents.
  - intros Hv. eexists. split.
    + intros s. unfold SimulatorApi.post_analyze, bind, toISOString.
      rewrite Hv. reflexivity.
    + repeat split.
Qed.

Lemma analyze_empty_window_witness :
  Server.analyze emptyWindowBackend "user-1" "tank-1"
    = Server.error 400 "No readings available. Add readings first." /\
  exists a,
    (forall s,
       SimulatorApi.post_analyze 0 sampleNow s zeros 0%nat
         = Ok ((s, SimulatorApi.AnalysisJson a), 0%nat)) /\
    SimulatorApi.a_date a = sampleNow /\
    SimulatorApi.confidence a = 95 /\
    SimulatorApi.severity a = "high".
Proof.
  split.
  - apply (proj1 (analyze_empty_window emptyWindowBackend "user-1" "tank-1"
                    [("id", Server.JStr "tank-1")] []
                    0 sampleNow zeros 0%nat));
      reflexivity.
  - destruct (proj2 (analyze_empty_window emptyWindowBackend "user-1" "tank-1"
                       [("id", Server.JStr "tank-1")] []
                       0 sampleNow zeros 0%nat) eq_refl)
      as (a & Hrun & _ & _ & Hdate & _ & Hconfidence & Hseverity & _).
    exists a. auto.
Defined.

(** C2 as stated fails: the answer to an empty window is an error response
    that carries no analysis. *)
Lemma analyze_empty_window_counterexample :
  Server.status (Server.analyze emptyWindowBackend "user-1" "tank-1") = 400%Z /\
  own (Server.body (Server.analyze emptyWindowBackend "user-1" "tank-1")) "analysis"
    = None /\
  own (Server.body (Server.analyze emptyWindowBackend "user-1" "tank-1")) "error"
    = Some (Server.JStr "No readings available. Add readings first.").
Proof. repeat split. Qed.




(* ================================================================= *)
(** ** Claims about shared state *)

Lemma generateReading_run tick tock rand n :
  validTime tock = true ->
  exists r,
    SimulatorApi.generateReading tick tock rand n = Ok (r, (6 + n)%nat) /\
    SimulatorApi.timestamp r = tock.
Proof.
  intros Hv. unfold SimulatorApi.generateReading, SimulatorApi.jitter, bind,
    Math_random, ret, toISOString.
  rewrite Hv. eexists. split; reflexivity.
Qed.

(** C9, as the code has it. The simulator routes work on the shared
    module-level store: [initializeSimulatorData] fills an empty store with
    31 readings and 6 events and leaves a filled one untouched, the
    readings and sync routes each put one new reading in front and change
    nothing else, and the analyze route leaves the store as it is. *)
Theorem simulator_store_effects tick tock now s rand n :
  validTime tock = true ->
  (exists r,
     SimulatorApi.post_readings tick tock s rand n
       = Ok ((SimulatorApi.mkStore (SimulatorApi.tank s)
                (r :: SimulatorApi.readings s)
                (SimulatorApi.events s) (SimulatorApi.analyses s),
              SimulatorApi.ReadingJson r), (6 + n)%nat) /\
     SimulatorApi.get_sync tick tock s rand n
       = Ok ((SimulatorApi.mkStore (SimulatorApi.tank s)
                (r :: SimulatorApi.readings s)
                (SimulatorApi.events s) (SimulatorApi.analyses s),
              SimulatorApi.SyncJson true r true), (6 + n)%nat)) /\
  (exists a,
     SimulatorApi.post_analyze tick tock s rand n
       = Ok ((s, SimulatorApi.AnalysisJson a), n)) /\
  (SimulatorApi.readings s <> [] ->
   SimulatorApi.initializeSimulatorData now s rand n = Ok (s, n)) /\
  (SimulatorApi.readings s = [] -> window_valid 30 now ->
   exists rs es,
     SimulatorApi.initializeSimulatorData now s rand n
       = Ok (SimulatorApi.mkStore (SimulatorApi.tank s) rs es
               (SimulatorApi.analyses s), (186 + n)%nat) /\
     List.length rs = 31%nat /\ List.length es = 6%nat).
Proof.
  intros Hv. split; [|split; [|split]].
  - destruct (generateReading_run tick tock rand n Hv) as (r & Hrun & _).
    exists r. unfold SimulatorApi.post_readings, SimulatorApi.get_sync, bind.
    rewrite Hrun. split; reflexivity.
  - destruct (post_analyze_run tick tock s rand n Hv) as (a & Hrun & _). eauto.
  - apply initializeSimulatorData_again.
  - intros Hempty Hwin.
    destruct (initializeSimulatorData_first now s rand n Hempty Hwin)
      as (rs & es & Hrun & Hlen & _ & Hes).
    eauto.
Qed.

Lemma simulator_store_effects_witness :
  (exists r,
     SimulatorApi.post_readings 0 sampleNow SimulatorApi.simulatorData zeros 0%nat
       = Ok ((SimulatorApi.mkStore (SimulatorApi.tank SimulatorApi.simulatorData)
                [r] [] [],
              SimulatorApi.ReadingJson r), 6%nat)) /\
  (exists rs es,
     SimulatorApi.initializeSimulatorData sampleNow SimulatorApi.simulatorData
       zeros 0%nat
       = Ok (SimulatorApi.mkStore (SimulatorApi.tank SimulatorApi.simulatorData)
               rs es [], 186%nat) /\
     List.length rs = 31%nat /\ List.length es = 6%nat).
Proof.
  destruct (simulator_store_effects 0 sampleNow sampleNow
              SimulatorApi.simulatorData zeros 0%nat eq_refl)
    as ((r & Hpost & _) & _ & _ & Hfirst).
  split.
  - exists r. exact Hpost.
  - apply Hfirst; [reflexivity | apply sample_window; lia].
Defined.

(** C9 as stated fails: a call of the readings route leaves the store
    changed, and the later initialisation, which would have written the
    30-day story into a fresh store, now does nothing. *)
Lemma post_readings_writes_store_counterexample :
  exists s' r n',
    SimulatorApi.post_readings 0 sampleNow SimulatorApi.simulatorData zeros 0%nat
      = Ok ((s', r), n') /\
    s' <> SimulatorApi.simulatorData /\
    SimulatorApi.initializeSimulatorData sampleNow s' zeros n' = Ok (s', n') /\
    SimulatorApi.initializeSimulatorData sampleNow SimulatorApi.simulatorData zeros n'
      <> Ok (SimulatorApi.simulatorData, n').
Proof.
  do 3 eexists. split; [reflexivity|]. split; [discriminate|].
  split; [reflexivity|].
  destruct (initializeSimulatorData_first sampleNow SimulatorApi.simulatorData
              zeros 6%nat eq_refl (sample_window 30 ltac:(lia)))
    as (rs & es & Hrun & Hlen & _).
  rewrite Hrun. intros H. inversion H.
Qed.


(* ================================================================= *)
(** ** Further properties of the assessment *)

Lemma registered_nested table param ranges :
  isRangeTable table -> own table param = Some ranges -> nested ranges.
Proof.
  intros [-> | ->] Hown; eapply table_nested; try exact Hown; reflexivity.
Qed.

Lemma nested_optimal_watch r v :
  nested r -> within (r_optimal r) v -> within (r_watch r) v.
Proof.
  unfold nested, within. intros (H1 & H2 & _ & _) [Hlo Hhi]. split; lra.
Qed.

Lemma nested_watch_critical r v :
  nested r -> within (r_watch r) v -> within (r_critical r) v.
Proof.
  unfold nested, within. intros (_ & _ & H3 & H4) [Hlo Hhi]. split; lra.
Qed.

Lemma inside_not_within band value :
  inside band value = false <-> ~ within band value.
Proof.
  rewrite <- inside_within. destruct (inside band value); split; intros H;
    try reflexivity; try discriminate; try (intros H'; discriminate).
  exfalso. now apply H.
Qed.

Lemma not_within_beyond band value : ~ within band value -> beyond band value.
Proof.
  unfold within, beyond. intros H.
  destruct (Qlt_le_dec value (fst band)) as [Hlt|Hle]; [now left|].
  destruct (Qlt_le_dec (snd band) value) as [Hlt|Hle']; [now right|].
  exfalso. apply H. split; assumption.
Qed.

(** The four ways an assessment of a registered parameter can go. *)
Lemma assess_cases table param ranges value :
  own table param = Some ranges -> nested ranges ->
  (within (r_optimal ranges) value /\ assess table param value = Ok optimal) \/
  (~ within (r_optimal ranges) value /\ within (r_watch ranges) value /\
   assess table param value = Ok watch) \/
  (~ within (r_optimal ranges) value /\ ~ within (r_watch ranges) value /\
   within (r_critical ranges) value /\ assess table param value = Ok critical) \/
  (~ within (r_optimal ranges) value /\ ~ within (r_watch ranges) value /\
   ~ within (r_critical ranges) value /\ assess table param value = Ok danger).
Proof.
  intros Hown Hnest. unfold assess. rewrite (get_own _ _ _ Hown).
  destruct (inside (r_optimal ranges) value) eqn:Eo.
  { left. apply inside_within in Eo. auto. }
  right. apply inside_not_within in Eo.
  destruct (inside (r_watch ranges) value) eqn:Ew.
  { left. apply inside_within in Ew. auto. }
  right. apply inside_not_within in Ew.
  destruct (inside (r_critical ranges) value) eqn:Ec.
  { left. apply inside_within in Ec. auto. }
  right. apply inside_not_within in Ec. auto.
Qed.

(** X1. For a parameter registered in either table the tier is decided
    by the innermost band that holds the value: [optimal] exactly inside
    the optimal band, [watch] exactly inside the watch band but outside the
    optimal one, [critical] exactly inside the critical band but outside
    the watch one, and [danger] exactly outside the critical band.  The
    answer is never [unknown] and never an exception. *)
Theorem assessParameter_tier_by_innermost_band table param ranges value :
  isRangeTable table ->
  own table param = Some ranges ->
  exists tier,
    assess table param value = Ok tier /\
    (tier = optimal <-> within (r_optimal ranges) value) /\
    (tier = watch <->
       within (r_watch ranges) value /\ ~ within (r_optimal ranges) value) /\
    (tier = critical <->
       within (r_critical ranges) value /\ ~ within (r_watch ranges) value) /\
    (tier = danger <-> ~ within (r_critical ranges) value) /\
    tier <> unknown.
Proof.
  intros Htable Hown.
  pose proof (registered_nested _ _ _ Htable Hown) as Hnest.
  pose proof (nested_optimal_watch ranges value Hnest) as How.
  pose proof (nested_watch_critical ranges value Hnest) as Hwc.
  destruct (assess_cases table param ranges value Hown Hnest)
    as [(Ho & ->) | [(Ho & Hw & ->) | [(Ho & Hw & Hc & ->) | (Ho & Hw & Hc & ->)]]];
    eexists; (split; [reflexivity|]);
    (split; [|split; [|split; [|split]]]);
    try discriminate; split; intros H; try discriminate H; try tauto;
    try reflexivity; exfalso; tauto.
Qed.

Lemma assessParameter_tier_by_innermost_band_witness :
  exists tier,
    AiNew.assessParameter "ca" 500 = Ok tier /\
    (tier = critical <-> within (350, 520) 500 /\ ~ within (380, 480) 500).
Proof.
  destruct (assessParameter_tier_by_innermost_band AiNew.PARAM_RANGES "ca"
              (mkRange (400, 450) (380, 480) (350, 520) "mg/L") 500
              (or_introl eq_refl) eq_refl)
    as (tier & Hrun & _ & _ & Hcrit & _).
  exists tier. split; [exact Hrun | exact Hcrit].
Defined.




(** X3. Moving a value towards the optimal band never worsens its tier:
    of two values on the same side of the band, the one nearer to it is
    assessed at least as well, for every parameter of either table. *)
Theorem assessParameter_monotone table param ranges v v' :
  isRangeTable table ->
  own table param = Some ranges ->
  (v <= v' /\ v' <= snd (r_optimal ranges)) \/
  (fst (r_optimal ranges) <= v' /\ v' <= v) ->
  exists t t',
    assess table param v = Ok t /\
    assess table param v' = Ok t' /\
    (rank t' <= rank t)%nat.
Proof.
  intros Htable Hown Hside.
  pose proof (registered_nested _ _ _ Htable Hown) as Hnest.
  assert (Hn := Hnest). destruct Hn as (N1 & N2 & N3 & N4).
  destruct (assess_cases table param ranges v Hown Hnest)
    as [(Ho & ->) | [(Ho & Hw & ->) | [(Ho & Hw & Hc & ->) | (Ho & Hw & Hc & ->)]]];
  destruct (assess_cases table param ranges v' Hown Hnest)
    as [(Ho' & ->) | [(Ho' & Hw' & ->) | [(Ho' & Hw' & Hc' & ->) | (Ho' & Hw' & Hc' & ->)]]];
  do 2 eexists; (split; [reflexivity|]); (split; [reflexivity|]);
  simpl; try lia; exfalso;
  repeat match goal with
         | H : ~ within _ _ |- _ => apply not_within_beyond in H; destruct H
         end;
  unfold within in *;
  repeat match goal with
         | H : _ /\ _ |- _ => destruct H
         end;
  destruct Hside as [[Hs1 Hs2] | [Hs1 Hs2]]; unfold beyond in *; lra.
Qed.

Lemma assessParameter_monotone_witness :
  exists t t',
    Ai.assessParameter "alk" 5.8 = Ok t /\
    Ai.assessParameter "alk" 6.7 = Ok t' /\
    (rank t' <= rank t)%nat.
Proof.
  apply (assessParameter_monotone Ai.PARAM_RANGES "alk"
           (mkRange (7, 9) (6.5, 10) (5.5, 12) "dKH") 5.8 6.7).
  - right. reflexivity.
  - reflexivity.
  - left. split; discriminate.
Defined.


(* ================================================================= *)
(** ** Facts that hold whenever a computation returns *)

Lemma wp_onReturn {A} (m : M A) rand n (post : A -> nat -> Prop) :
  wp m rand n post -> onReturn m rand n post.
Proof.
  unfold wp, onReturn. destruct (m rand n) as [[a n']|e]; auto.
Qed.

Lemma onReturn_ret {A} (a : A) rand n (post : A -> nat -> Prop) :
  post a n -> onReturn (ret a) rand n post.
Proof. exact (fun H => H). Qed.

Lemma onReturn_bind {A B} (m : M A) (k : A -> M B) rand n
      (post : B -> nat -> Prop) :
  onReturn m rand n (fun a n' => onReturn (k a) rand n' post) ->
  onReturn (bind m k) rand n post.
Proof.
  unfold onReturn, bind. destruct (m rand n) as [[a n']|e]; auto.
Qed.

Lemma onReturn_mono {A} (m : M A) rand n (P P' : A -> nat -> Prop) :
  onReturn m rand n P -> (forall a n', P a n' -> P' a n') ->
  onReturn m rand n P'.
Proof.
  unfold onReturn. destruct (m rand n) as [[a n']|e]; auto.
Qed.

Lemma onReturn_run {A} (m : M A) rand n (post : A -> nat -> Prop) a n' :
  onReturn m rand n post -> m rand n = Ok (a, n') -> post a n'.
Proof.
  unfold onReturn. intros H Hrun. now rewrite Hrun in H.
Qed.

Lemma onReturn_for_each {A St} (I : nat -> St -> nat -> Prop) (xs : list A)
      (body : A -> St -> M St) rand :
  (forall i x acc n, nth_error xs i = Some x -> I i acc n ->
                     onReturn (body x acc) rand n (I (S i))) ->
  forall acc n, I 0%nat acc n ->
                onReturn (for_each xs body acc) rand n (I (List.length xs)).
Proof.
  revert I. induction xs as [|x xs IH]; intros I Hstep acc n H0; simpl.
  - now apply onReturn_ret.
  - apply onReturn_bind.
    apply onReturn_mono with (P := I 1%nat).
    + now apply (Hstep 0%nat x).
    + intros acc' n' H1.
      apply (IH (fun i => I (S i))); [|exact H1].
      intros i y acc'' n'' Hnth. now apply (Hstep (S i)).
Qed.

Lemma firstn_snoc {A} (l : list A) : forall i x,
  nth_error l i = Some x -> firstn (S i) l = firstn i l ++ [x].
Proof.
  induction l as [|y l IH]; intros [|i] x; simpl; try discriminate.
  - now intros [= ->].
  - intros H. f_equal. now apply IH.
Qed.

Lemma Forall2_snoc {A B} (R : A -> B -> Prop) l l' x y :
  Forall2 R l l' -> R x y -> Forall2 R (l ++ [x]) (l' ++ [y]).
Proof.
  intros H Hxy. apply Forall2_app; [exact H | now constructor].
Qed.

(* ================================================================= *)
(** ** Every reading of the generated series *)

Section SeriesFacts.

Import ApexSimulator.

Variable sinThirds : Z -> Q.

(** The fields of one pushed reading, draw by draw. *)
Lemma reading_fields dayTime d r rand n :
  onReturn (reading sinThirds dayTime d r) rand n
    (fun x n' =>
       n' = (7 + n)%nat /\
       timestamp x = (dayTime + r * 4 * 3600000)%Z /\
       source x = "trident" /\
       alk x = toFixed 2 (alkBase d + (rand n - 0.5) * 2 * 0.08) /\
       ca x = toFixed 2 (caBase d + (rand (1 + n)%nat - 0.5) * 2 * 2) /\
       mg x = toFixed 2 (1350 + (rand (2 + n)%nat - 0.5) * 2 * 5) /\
       ph x = toFixed 2 (8.32 + sinThirds r * 0.12
                         + (rand (3 + n)%nat - 0.5) * 2 * 0.02) /\
       temp x = toFixed 2 (77.8 + (rand (4 + n)%nat - 0.5) * 2 * 0.3) /\
       no3 x = toFixed 2 (no3Base d + (rand (5 + n)%nat - 0.5) * 2 * 0.3) /\
       po4 x = toFixed 2 (po4Base d + (rand (6 + n)%nat - 0.5) * 2 * 0.005)).
Proof.
  unfold onReturn, reading, bind, toISOString.
  destruct (validTime (dayTime + r * 4 * 3600000)); simpl; [|exact I].
  repeat split.
Qed.

(** Whatever holds of each pushed reading, given its day offset and slot,
    holds of the series slot by slot. *)
Lemma generateReadings_slots (R : Z * Z -> Reading -> Prop) days now rand n :
  (forall d r m, (0 <= d <= days)%Z -> (0 <= r < 6)%Z ->
     onReturn (reading sinThirds (now - d * msPerDay) d r) rand m
       (fun x _ => R (d, r) x)) ->
  onReturn (generateReadings sinThirds days now) rand n
    (fun rs _ => Forall2 R (slots days) rs).
Proof.
  intros Hreading. unfold generateReadings, slots.
  pose (I := fun (j : nat) (acc : list Reading) (_ : nat) =>
               Forall2 R
                 (flat_map (fun d => map (fun r => (d, r)) (upto 6))
                           (firstn j (countdown days)))
                 acc).
  apply onReturn_mono with (P := I (List.length (countdown days))).
  - apply (onReturn_for_each I); [|constructor].
    intros j d acc m Hnth Hacc. unfold I in Hacc |- *.
    rewrite (firstn_snoc _ _ _ Hnth), flat_map_app.
    cbn [flat_map]. rewrite app_nil_r.
    apply nth_error_countdown in Hnth. destruct Hnth as [Hd Hj].
    unfold day.
    pose (J := fun (i : nat) (acc' : list Reading) (_ : nat) =>
                 Forall2 R
                   (flat_map (fun d => map (fun r => (d, r)) (upto 6))
                             (firstn j (countdown days))
                    ++ map (fun r => (d, r)) (firstn i (upto 6)))
                   acc').
    apply onReturn_mono with (P := J (List.length (upto 6))).
    + apply (onReturn_for_each J).
      * intros i r acc' m' Hnth' Hacc'. unfold J in Hacc' |- *.
        rewrite (firstn_snoc _ _ _ Hnth'), map_app, app_assoc.
        apply nth_error_upto in Hnth'. destruct Hnth' as [Hr Hi].
        apply onReturn_bind.
        eapply onReturn_mono; [apply (Hreading d r m'); lia|].
        cbv beta. intros x m2 Hx. apply onReturn_ret.
        now apply Forall2_snoc.
      * unfold J. cbn [firstn map]. now rewrite app_nil_r.
    + unfold J. intros acc' _ H. now rewrite firstn_all in H.
  - unfold I. intros rs _ H. now rewrite firstn_all in H.
Qed.

Lemma Forall2_map_eq {A B C} (f : A -> C) (g : B -> C) l l' :
  Forall2 (fun a b => g b = f a) l l' -> map g l' = map f l.
Proof.
  induction 1 as [|a b l l' Hab _ IH]; simpl; [reflexivity|].
  now rewrite Hab, IH.
Qed.

(** The stamps of the series: day by day, slot by slot. *)
Lemma generateReadings_stamps days now rand n :
  onReturn (generateReadings sinThirds days now) rand n
    (fun rs _ => timestamps rs = map (slotTime now) (slots days)).
Proof.
  eapply onReturn_mono.
  - apply (generateReadings_slots (fun dr x => timestamp x = slotTime now dr)).
    intros d r m _ _.
    eapply onReturn_mono; [apply reading_fields|].
    simpl. intros x _ (_ & Hts & _). exact Hts.
  - simpl. intros rs _ H. now apply Forall2_map_eq.
Qed.

End SeriesFacts.


(* ================================================================= *)
(** ** Further properties of the generated series *)

Lemma countdown_ends_today days :
  (0 <= days)%Z ->
  ApexSimulator.countdown days
  = map (fun k => (days - Z.of_nat k)%Z) (seq 0 (Z.to_nat days)) ++ [0%Z].
Proof.
  intros Hdays. unfold ApexSimulator.countdown.
  replace (Z.to_nat (days + 1)) with (S (Z.to_nat days)) by lia.
  rewrite seq_S, map_app. simpl. f_equal. f_equal. lia.
Qed.

Lemma jittered_value u value amount :
  0 <= u -> u < 1 -> 0 <= amount ->
  jittered value amount (toFixed 2 (value + (u - 0.5) * 2 * amount)).
Proof.
  intros Hu0 Hu1 Ha. unfold jittered.
  destruct (noise_bounded u amount Hu0 Hu1 Ha) as [Hlo Hhi].
  destruct (toFixed_2_close (value + (u - 0.5) * 2 * amount)) as [Hlo' Hhi'].
  set (noise := (u - 0.5) * 2 * amount) in *.
  set (x := toFixed 2 (value + noise)) in *.
  split; lra.
Qed.

Lemma Forall2_Forall_r {A B} (R : A -> B -> Prop) (P : B -> Prop) l l' :
  (forall a b, R a b -> P b) -> Forall2 R l l' -> Forall P l'.
Proof.
  intros HRP. induction 1; constructor; eauto.
Qed.

(** X4. The series lies on a fixed grid: reading by reading, in the order
    returned, the stamps are [now - d * 86400000 + r * 14400000] for the
    day offsets [d = days, ..., 0] and, within each day, the slots
    [r = 0, ..., 5]. *)
Theorem generateReadings_grid sinThirds days now rand n :
  (0 <= days)%Z -> window_valid days now ->
  exists rs n',
    ApexSimulator.generateReadings sinThirds days now rand n = Ok (rs, n') /\
    timestamps rs = map (slotTime now) (slots days).
Proof.
  intros Hdays Hwin.
  destruct (generateReadings_spec sinThirds days now rand n Hdays Hwin)
    as (rs & Hrun & _).
  exists rs. eexists. split; [exact Hrun|].
  exact (onReturn_run _ _ _ _ _ _
           (generateReadings_stamps sinThirds days now rand n) Hrun).
Qed.

Lemma generateReadings_grid_witness :
  exists rs n',
    ApexSimulator.generateReadings sineTable 1 sampleNow zeros 0%nat
      = Ok (rs, n') /\
    timestamps rs = map (slotTime sampleNow) (slots 1).
Proof.
  apply (generateReadings_grid sineTable 1 sampleNow zeros 0%nat).
  - lia.
  - apply sample_window. lia.
Defined.

(** X5. The series runs into the future: it ends with the six readings
    of the current day, stamped [now], [now + 4 h], ..., [now + 20 h], so
    five readings carry an instant later than the moment of generation;
    every reading before them is stamped earlier than [now]. *)
Theorem generateReadings_future_stamps sinThirds days now rand n :
  (0 <= days)%Z -> window_valid days now ->
  exists rs n' older,
    ApexSimulator.generateReadings sinThirds days now rand n = Ok (rs, n') /\
    timestamps rs
    = older ++ map (fun r => (now + r * 14400000)%Z) (ApexSimulator.upto 6) /\
    Forall (fun t => (t < now)%Z) older.
Proof.
  intros Hdays Hwin.
  destruct (generateReadings_spec sinThirds days now rand n Hdays Hwin)
    as (rs & Hrun & _).
  pose proof (onReturn_run _ _ _ _ _ _
                (generateReadings_stamps sinThirds days now rand n) Hrun) as Hts.
  cbv beta in Hts. unfold slots in Hts.
  rewrite (countdown_ends_today days Hdays), flat_map_app, map_app in Hts.
  exists rs. eexists. eexists. split; [exact Hrun|]. split.
  - rewrite Hts. f_equal. cbn [flat_map]. rewrite app_nil_r, map_map.
    apply map_ext. intros r. unfold slotTime. simpl fst. simpl snd. lia.
  - apply Forall_map, Forall_flat_map, Forall_map.
    apply Forall_forall. intros k Hk. apply in_seq in Hk.
    apply Forall_map, Forall_forall. intros r Hr.
    unfold ApexSimulator.upto in Hr. apply in_map_iff in Hr.
    destruct Hr as (i & <- & Hi). apply in_seq in Hi.
    unfold slotTime, ApexSimulator.msPerDay. simpl fst. simpl snd. lia.
Qed.

Lemma generateReadings_future_stamps_witness :
  exists rs n' older,
    ApexSimulator.generateReadings sineTable 30 sampleNow halves 0%nat
      = Ok (rs, n') /\
    timestamps rs
    = older ++ map (fun r => (sampleNow + r * 14400000)%Z) (ApexSimulator.upto 6) /\
    Forall (fun t => (t < sampleNow)%Z) older.
Proof.
  apply (generateReadings_future_stamps sineTable 30 sampleNow halves 0%nat).
  - lia.
  - apply sample_window. lia.
Defined.

Lemma inject_Z_between lo hi z :
  (lo <= z <= hi)%Z -> inject_Z lo <= inject_Z z /\ inject_Z z <= inject_Z hi.
Proof.
  intros [Hlo Hhi]. split; rewrite <- Zle_Qle; assumption.
Qed.

Lemma alkBase_bounds d : (0 <= d)%Z ->
  7.4 <= ApexSimulator.alkBase d /\ ApexSimulator.alkBase d <= 8.2.
Proof.
  intros Hd. unfold ApexSimulator.alkBase.
  destruct (Z.ltb_spec 20 d); [split; lra|].
  destruct (Z.ltb_spec 10 d).
  - destruct (inject_Z_between 0 9 (20 - d)) as [Hlo Hhi]; [lia|].
    set (q := inject_Z (20 - d)) in *.
    change (inject_Z 0) with 0 in Hlo. change (inject_Z 9) with 9 in Hhi.
    split; lra.
  - destruct (inject_Z_between 0 10 (10 - d)) as [Hlo Hhi]; [lia|].
    set (q := inject_Z (10 - d)) in *.
    change (inject_Z 0) with 0 in Hlo. change (inject_Z 10) with 10 in Hhi.
    split; lra.
Qed.

Lemma caBase_bounds d : (0 <= d)%Z ->
  440 <= ApexSimulator.caBase d /\ ApexSimulator.caBase d <= 470.
Proof.
  intros Hd. unfold ApexSimulator.caBase.
  destruct (Z.ltb_spec 20 d); [split; lra|].
  destruct (Z.ltb_spec 10 d).
  - destruct (inject_Z_between 0 9 (20 - d)) as [Hlo Hhi]; [lia|].
    set (q := inject_Z (20 - d)) in *.
    change (inject_Z 0) with 0 in Hlo. change (inject_Z 9) with 9 in Hhi.
    split; lra.
  - destruct (inject_Z_between 0 10 (10 - d)) as [Hlo Hhi]; [lia|].
    set (q := inject_Z (10 - d)) in *.
    change (inject_Z 0) with 0 in Hlo. change (inject_Z 10) with 10 in Hhi.
    split; lra.
Qed.

Lemma no3Base_bounds d : (0 <= d)%Z ->
  5 <= ApexSimulator.no3Base d /\ ApexSimulator.no3Base d <= 14.
Proof.
  intros Hd. unfold ApexSimulator.no3Base.
  destruct (Z.ltb_spec 15 d); [split; lra|].
  destruct (inject_Z_between 0 15 (15 - d)) as [Hlo Hhi]; [lia|].
  set (q := inject_Z (15 - d)) in *.
  change (inject_Z 0) with 0 in Hlo. change (inject_Z 15) with 15 in Hhi.
  split; lra.
Qed.

Lemma po4Base_bounds d : (0 <= d)%Z ->
  0.04 <= ApexSimulator.po4Base d /\ ApexSimulator.po4Base d <= 0.115.
Proof.
  intros Hd. unfold ApexSimulator.po4Base.
  destruct (Z.ltb_spec 15 d); [split; lra|].
  destruct (inject_Z_between 0 15 (15 - d)) as [Hlo Hhi]; [lia|].
  set (q := inject_Z (15 - d)) in *.
  change (inject_Z 0) with 0 in Hlo. change (inject_Z 15) with 15 in Hhi.
  split; lra.
Qed.

Lemma within_watch_no_worse table param ranges value :
  own table param = Some ranges -> nested ranges ->
  within (r_watch ranges) value ->
  noWorseThan watch (assess table param value).
Proof.
  intros Hown Hnest Hw.
  destruct (assess_cases table param ranges value Hown Hnest)
    as [(_ & ->) | [(_ & _ & ->) | [(_ & Hnw & _) | (_ & Hnw & _)]]];
    simpl; try lia; contradiction.
Qed.

(** The registered channels of one reading of the series, by its day. *)
Lemma series_reading_tiers table d x :
  isRangeTable table -> (0 <= d)%Z ->
  jittered (ApexSimulator.alkBase d) 0.08 (ApexSimulator.alk x) ->
  jittered (ApexSimulator.caBase d) 2 (ApexSimulator.ca x) ->
  jittered 1350 5 (ApexSimulator.mg x) ->
  jittered 77.8 0.3 (ApexSimulator.temp x) ->
  jittered (ApexSimulator.no3Base d) 0.3 (ApexSimulator.no3 x) ->
  jittered (ApexSimulator.po4Base d) 0.005 (ApexSimulator.po4 x) ->
  noWorseThan watch (assess table "alk" (ApexSimulator.alk x)) /\
  noWorseThan watch (assess table "ca" (ApexSimulator.ca x)) /\
  assess table "mg" (ApexSimulator.mg x) = Ok optimal /\
  assess table "temp" (ApexSimulator.temp x) = Ok optimal /\
  noWorseThan watch (assess table "no3" (ApexSimulator.no3 x)) /\
  noWorseThan watch (assess table "po4" (ApexSimulator.po4 x)).
Proof.
  intros Htable Hd [Ha1 Ha2] [Hc1 Hc2] [Hm1 Hm2] [Ht1 Ht2] [Hn1 Hn2] [Hp1 Hp2].
  destruct (alkBase_bounds d Hd) as [Ba1 Ba2].
  destruct (caBase_bounds d Hd) as [Bc1 Bc2].
  destruct (no3Base_bounds d Hd) as [Bn1 Bn2].
  destruct (po4Base_bounds d Hd) as [Bp1 Bp2].
  assert (Hwatch : forall param ranges value,
             own table param = Some ranges -> within (r_watch ranges) value ->
             noWorseThan watch (assess table param value)).
  { intros param ranges value Hown Hw.
    apply (within_watch_no_worse table param ranges value Hown); [|exact Hw].
    exact (registered_nested _ _ _ Htable Hown). }
  destruct Htable as [-> | ->];
    (split; [eapply Hwatch; [reflexivity | split; simpl; lra]|]);
    (split; [eapply Hwatch; [reflexivity | split; simpl; lra]|]);
    (split; [eapply assess_optimal; [reflexivity | split; simpl; lra]|]);
    (split; [eapply assess_optimal; [reflexivity | split; simpl; lra]|]);
    (split; [eapply Hwatch; [reflexivity | split; simpl; lra]|]);
    (eapply Hwatch; [reflexivity | split; simpl; lra]).
Qed.

(** X6. With draws in the unit interval, the story [generateReadings]
    tells never leaves the watch tier: under either range table every
    reading's alkalinity, calcium, nitrate and phosphate are assessed
    [optimal] or [watch], and its magnesium and temperature [optimal]. *)
Theorem generateReadings_story_tiers sinThirds days now rand n :
  (0 <= days)%Z -> window_valid days now -> unit_draws rand ->
  exists rs n',
    ApexSimulator.generateReadings sinThirds days now rand n = Ok (rs, n') /\
    Forall
      (fun x =>
         forall table, isRangeTable table ->
           noWorseThan watch (assess table "alk" (ApexSimulator.alk x)) /\
           noWorseThan watch (assess table "ca" (ApexSimulator.ca x)) /\
           assess table "mg" (ApexSimulator.mg x) = Ok optimal /\
           assess table "temp" (ApexSimulator.temp x) = Ok optimal /\
           noWorseThan watch (assess table "no3" (ApexSimulator.no3 x)) /\
           noWorseThan watch (assess table "po4" (ApexSimulator.po4 x)))
      rs.
Proof.
  intros Hdays Hwin Hunit.
  destruct (generateReadings_spec sinThirds days now rand n Hdays Hwin)
    as (rs & Hrun & _).
  exists rs. eexists. split; [exact Hrun|].
  pose (R := fun (dr : Z * Z) (x : ApexSimulator.Reading) =>
               (0 <= fst dr)%Z /\
               jittered (ApexSimulator.alkBase (fst dr)) 0.08 (ApexSimulator.alk x) /\
               jittered (ApexSimulator.caBase (fst dr)) 2 (ApexSimulator.ca x) /\
               jittered 1350 5 (ApexSimulator.mg x) /\
               jittered 77.8 0.3 (ApexSimulator.temp x) /\
               jittered (ApexSimulator.no3Base (fst dr)) 0.3 (ApexSimulator.no3 x) /\
               jittered (ApexSimulator.po4Base (fst dr)) 0.005 (ApexSimulator.po4 x)).
  assert (Hslots : Forall2 R (slots days) rs).
  { refine (onReturn_run _ _ _ _ _ _
              (generateReadings_slots sinThirds R days now rand n _) Hrun).
    intros d r m Hd _.
    eapply onReturn_mono; [apply reading_fields|].
    unfold R. cbv beta. simpl fst.
    intros x _ (_ & _ & _ & -> & -> & -> & _ & -> & -> & ->).
    repeat split; try lia;
      apply jittered_value; try apply Hunit; discriminate. }
  eapply Forall2_Forall_r; [|exact Hslots].
  intros [d r] x (Hd & Ha & Hc & Hm & Ht & Hn & Hp) table Htable.
  now apply (series_reading_tiers table d x).
Qed.

Lemma generateReadings_story_tiers_witness :
  exists rs n',
    ApexSimulator.generateReadings sineTable 30 sampleNow halves 0%nat
      = Ok (rs, n') /\
    Forall
      (fun x =>
         forall table, isRangeTable table ->
           noWorseThan watch (assess table "alk" (ApexSimulator.alk x)) /\
           noWorseThan watch (assess table "ca" (ApexSimulator.ca x)) /\
           assess table "mg" (ApexSimulator.mg x) = Ok optimal /\
           assess table "temp" (ApexSimulator.temp x) = Ok optimal /\
           noWorseThan watch (assess table "no3" (ApexSimulator.no3 x)) /\
           noWorseThan watch (assess table "po4" (ApexSimulator.po4 x)))
      rs.
Proof.
  apply (generateReadings_story_tiers sineTable 30 sampleNow halves 0%nat).
  - lia.
  - apply sample_window. lia.
  - intros i. split; [discriminate | reflexivity].
Defined.

Lemma filter_all {A} (f : A -> bool) l :
  Forall (fun x => f x = true) l -> filter f l = l.
Proof.
  induction 1 as [|x l Hx _ IH]; simpl; [reflexivity|].
  now rewrite Hx, IH.
Qed.

Lemma daysOrDefault_cases parsed :
  FusionApi.daysOrDefault parsed = 30%Z <->
  parsed = None \/ parsed = Some 0%Z \/ parsed = Some 30%Z.
Proof.
  unfold FusionApi.daysOrDefault. split.
  - destruct parsed as [[|p|p]|]; intros H; auto; try discriminate H.
    injection H as ->. auto.
  - intros [-> | [-> | ->]]; reflexivity.
Qed.

(** X7. The readings route of the Apex simulator and the default window
    (no [days], [days=0] or [days=30]).  The cutoff is compared strictly
    and the oldest reading is stamped 30 days before the generation of the
    series, so the oldest reading is served exactly when the clock of the
    request is behind the clock of the generation (a clock that was set
    back), and then the whole series of 186 is served.  Otherwise at most
    185 readings are served, and exactly the other 185 within four hours
    of the generation. *)
Theorem fusion_readings_default_drops_oldest sinThirds now rand n parsed clock :
  window_valid 30 now ->
  FusionApi.daysOrDefault parsed = 30%Z ->
  exists oldest rest n',
    ApexSimulator.allReadings sinThirds now rand n = Ok (oldest :: rest, n') /\
    (In oldest (snd (FusionApi.readings parsed clock (oldest :: rest)))
     <-> (clock < now)%Z) /\
    ((clock < now)%Z ->
     FusionApi.readings parsed clock (oldest :: rest)
       = (186%Z, oldest :: rest)) /\
    ((now <= clock)%Z ->
     (fst (FusionApi.readings parsed clock (oldest :: rest)) <= 185)%Z) /\
    ((now <= clock < now + 14400000)%Z ->
     FusionApi.readings parsed clock (oldest :: rest) = (185%Z, rest)).
Proof.
  intros Hwin Hdays. unfold ApexSimulator.allReadings.
  destruct (generateReadings_spec sinThirds 30 now rand n ltac:(lia) Hwin)
    as (rs & Hrun & Hlen & Hasc).
  pose proof (onReturn_run _ _ _ _ _ _
                (generateReadings_stamps sinThirds 30 now rand n) Hrun) as Hts.
  cbv beta in Hts.
  assert (Hslots : slots 30 = (30, 0)%Z :: (30, 1)%Z :: tl (tl (slots 30)))
    by (vm_compute; reflexivity).
  rewrite Hslots in Hts. clear Hslots.
  destruct rs as [|oldest [|second rest]]; try discriminate Hts.
  cbn [timestamps map] in Hts, Hasc. injection Hts as Hts0 Hts1 _.
  unfold slotTime, ApexSimulator.msPerDay in Hts0, Hts1. simpl in Hts0, Hts1.
  cbn [List.length] in Hlen.
  exists oldest, (second :: rest). eexists. split; [exact Hrun|].
  unfold FusionApi.readings. rewrite Hdays. cbn [fst snd].
  set (keep := fun r => (clock - 30 * 86400000 <? ApexSimulator.timestamp r)%Z).
  assert (Hhead : filter keep (oldest :: second :: rest)
                  = if keep oldest then oldest :: filter keep (second :: rest)
                    else filter keep (second :: rest)) by reflexivity.
  apply StronglySorted_inv in Hasc. destruct Hasc as [Hasc' Hfirst].
  rewrite Forall_forall in Hfirst.
  split; [|split; [|split]].
  - split.
    + intros Hin. apply filter_In in Hin. destruct Hin as [_ Hkeep].
      unfold keep in Hkeep. apply Z.ltb_lt in Hkeep. lia.
    + intros Hback. apply filter_In. split; [now left|].
      unfold keep. apply Z.ltb_lt. lia.
  - intros Hback. rewrite filter_all.
    + f_equal. cbn [List.length]. lia.
    + constructor.
      * apply Z.ltb_lt. lia.
      * apply Forall_forall. intros r Hr. apply Z.ltb_lt.
        specialize (Hfirst _ (in_map ApexSimulator.timestamp _ _ Hr)). lia.
  - intros Hclock.
    assert (Hold : keep oldest = false) by (apply Z.ltb_ge; lia).
    rewrite Hhead, Hold.
    pose proof (filter_length_le keep (second :: rest)) as Hle.
    cbn [List.length] in Hle. lia.
  - intros [Hclock Hsoon].
    assert (Hold : keep oldest = false) by (apply Z.ltb_ge; lia).
    rewrite Hhead, Hold.
    apply StronglySorted_inv in Hasc'. destruct Hasc' as [_ Hsecond].
    rewrite Forall_forall in Hsecond.
    rewrite filter_all.
    + f_equal. cbn [List.length]. lia.
    + constructor.
      * apply Z.ltb_lt. lia.
      * apply Forall_forall. intros r Hr. apply Z.ltb_lt.
        specialize (Hsecond _ (in_map ApexSimulator.timestamp _ _ Hr)). lia.
Qed.

Lemma fusion_readings_default_drops_oldest_witness :
  exists oldest rest n',
    ApexSimulator.allReadings sineTable sampleNow zeros 0%nat
      = Ok (oldest :: rest, n') /\
    FusionApi.readings None (sampleNow - 1) (oldest :: rest)
      = (186%Z, oldest :: rest) /\
    FusionApi.readings None sampleNow (oldest :: rest) = (185%Z, rest).
Proof.
  destruct (fusion_readings_default_drops_oldest sineTable sampleNow zeros 0%nat
              None (sampleNow - 1))
    as (oldest & rest & n' & Hrun & _ & Hback & _);
    [apply sample_window; lia | reflexivity |].
  destruct (fusion_readings_default_drops_oldest sineTable sampleNow zeros 0%nat
              None sampleNow)
    as (oldest' & rest' & n'' & Hrun' & _ & _ & _ & Hsoon);
    [apply sample_window; lia | reflexivity |].
  rewrite Hrun in Hrun'. injection Hrun' as <- <- <-.
  exists oldest, rest, n'. split; [exact Hrun|]. split.
  - apply Hback. lia.
  - apply Hsoon. lia.
Defined.

(* ================================================================= *)
(** ** Further properties of the simulator routes *)

Lemma demo_reading_run tock rand n :
  validTime tock = true ->
  exists r,
    DemoSimulator.generateReading tock rand n = Ok (r, (6 + n)%nat) /\
    DemoSimulator.alk r = toFixed 2 (8.1 + (rand n - 0.5) * 2 * 0.08) /\
    DemoSimulator.ca r = toFixed 2 (438 + (rand (1 + n)%nat - 0.5) * 2 * 3) /\
    DemoSimulator.mg r = toFixed 2 (1350 + (rand (2 + n)%nat - 0.5) * 2 * 8) /\
    DemoSimulator.ph r = toFixed 2 (8.32 + (rand (3 + n)%nat - 0.5) * 2 * 0.02) /\
    DemoSimulator.temp r = toFixed 2 (77.8 + (rand (4 + n)%nat - 0.5) * 2 * 0.3) /\
    DemoSimulator.orp r = toFixed 2 (325 + (rand (5 + n)%nat - 0.5) * 2 * 5) /\
    DemoSimulator.timestamp r = tock.
Proof.
  intros Hv.
  unfold DemoSimulator.generateReading, DemoSimulator.jitter, bind,
    Math_random, ret, toISOString.
  rewrite Hv. eexists. repeat split.
Qed.

(** X8. What the analysis makes of a simulated reading: with draws in the
    unit interval, every reading of [simulator.generateReading] is
    assessed [optimal] on alk, ca, mg, temp and orp under either range
    table, and [unknown] on pH, which the reading carries under the key
    [ph] while the tables register [pH]. *)
Theorem demo_reading_assessment tock rand n :
  unit_draws rand -> validTime tock = true ->
  exists r,
    DemoSimulator.generateReading tock rand n = Ok (r, (6 + n)%nat) /\
    forall table, isRangeTable table ->
      map (fun kv => assess table (fst kv) (snd kv))
          (DemoSimulator.numericEntries r)
      = [ Ok optimal; Ok optimal; Ok optimal; Ok unknown; Ok optimal; Ok optimal ].
Proof.
  intros Hunit Hv.
  destruct (demo_reading_run tock rand n Hv)
    as (r & Hrun & Ha & Hc & Hm & Hp & Ht & Ho & _).
  exists r. split; [exact Hrun|].
  assert (Ja : jittered 8.1 0.08 (DemoSimulator.alk r))
    by (rewrite Ha; apply jittered_value; try apply Hunit; discriminate).
  assert (Jc : jittered 438 3 (DemoSimulator.ca r))
    by (rewrite Hc; apply jittered_value; try apply Hunit; discriminate).
  assert (Jm : jittered 1350 8 (DemoSimulator.mg r))
    by (rewrite Hm; apply jittered_value; try apply Hunit; discriminate).
  assert (Jt : jittered 77.8 0.3 (DemoSimulator.temp r))
    by (rewrite Ht; apply jittered_value; try apply Hunit; discriminate).
  assert (Jo : jittered 325 5 (DemoSimulator.orp r))
    by (rewrite Ho; apply jittered_value; try apply Hunit; discriminate).
  destruct Ja as [Ja1 Ja2], Jc as [Jc1 Jc2], Jm as [Jm1 Jm2],
           Jt as [Jt1 Jt2], Jo as [Jo1 Jo2].
  intros table [-> | ->]; unfold DemoSimulator.numericEntries;
    cbn [map fst snd];
    repeat match goal with
           | |- context [assess ?t ?k ?v] =>
               rewrite (assess_optimal t k _ v eq_refl) by (split; simpl; lra)
           end;
    reflexivity.
Qed.

Lemma demo_reading_assessment_witness :
  exists r,
    DemoSimulator.generateReading sampleNow halves 0%nat = Ok (r, 6%nat) /\
    forall table, isRangeTable table ->
      map (fun kv => assess table (fst kv) (snd kv))
          (DemoSimulator.numericEntries r)
      = [ Ok optimal; Ok optimal; Ok optimal; Ok unknown; Ok optimal; Ok optimal ].
Proof.
  apply (demo_reading_assessment sampleNow halves 0%nat).
  - intros i. split; [discriminate | reflexivity].
  - reflexivity.
Defined.



Lemma insertNewestFirst_perm x l :
  Permutation (x :: l) (SimulatorRoutes.insertNewestFirst x l).
Proof.
  induction l as [|y l IH]; simpl; [reflexivity|].
  destruct (SimulatorApi.timestamp x <? SimulatorApi.timestamp y)%Z.
  - rewrite perm_swap. now constructor.
  - reflexivity.
Qed.

Lemma sortNewestFirst_perm l :
  Permutation l (SimulatorRoutes.sortNewestFirst l).
Proof.
  induction l as [|x l IH]; simpl; [constructor|].
  rewrite <- insertNewestFirst_perm. now constructor.
Qed.

Lemma insertNewestFirst_descending x l :
  descending (simTimestamps l) ->
  descending (simTimestamps (SimulatorRoutes.insertNewestFirst x l)).
Proof.
  unfold descending, simTimestamps.
  induction l as [|y l IH]; simpl; intros Hs.
  - repeat constructor.
  - apply StronglySorted_inv in Hs. destruct Hs as [Hs Hy].
    destruct (Z.ltb_spec (SimulatorApi.timestamp x) (SimulatorApi.timestamp y)).
    + simpl. constructor; [now apply IH|].
      apply (Permutation_Forall
               (Permutation_map SimulatorApi.timestamp
                  (insertNewestFirst_perm x l))).
      simpl. constructor; [lia | exact Hy].
    + simpl. constructor.
      * now constructor.
      * constructor; [lia|].
        eapply Forall_impl; [|exact Hy]. cbv beta. intros t Ht. lia.
Qed.

Lemma sortNewestFirst_descending l :
  descending (simTimestamps (SimulatorRoutes.sortNewestFirst l)).
Proof.
  induction l as [|x l IH]; simpl.
  - constructor.
  - now apply insertNewestFirst_descending.
Qed.

(** X10. What the readings route of the Electron simulator sends: the
    stored readings stamped at or after the cutoff, each exactly once and
    none invented, newest first.  The store itself keeps its order. *)
Theorem get_readings_sorted_selection parsed now clock s rand n :
  SimulatorApi.readings s <> [] \/ window_valid 30 now ->
  exists s' out n',
    SimulatorRoutes.get_readings parsed now clock s rand n = Ok ((s', out), n') /\
    SimulatorApi.initializeSimulatorData now s rand n = Ok (s', n') /\
    descending (simTimestamps out) /\
    Permutation out
      (filter (fun r => (clock - FusionApi.daysOrDefault parsed * 24 * 60 * 60 * 1000
                         <=? SimulatorApi.timestamp r)%Z)
              (SimulatorApi.readings s')) /\
    Forall (fun r => (clock - FusionApi.daysOrDefault parsed * 86400000
                      <= SimulatorApi.timestamp r)%Z) out.
Proof.
  intros Hcase.
  assert (Hinit : exists s' n',
             SimulatorApi.initializeSimulatorData now s rand n = Ok (s', n')).
  { destruct Hcase as [Hne | Hwin].
    - do 2 eexists. now apply initializeSimulatorData_again.
    - destruct (SimulatorApi.readings s) eqn:E.
      + destruct (initializeSimulatorData_first now s rand n E Hwin)
          as (rs & es & Hrun & _).
        eauto.
      + do 2 eexists. apply initializeSimulatorData_again. rewrite E. discriminate. }
  destruct Hinit as (s' & n' & Hinit).
  exists s'. eexists. exists n'.
  unfold SimulatorRoutes.get_readings, bind. rewrite Hinit.
  split; [reflexivity|]. split; [reflexivity|].
  split; [apply sortNewestFirst_descending|]. split.
  - symmetry. apply sortNewestFirst_perm.
  - eapply Permutation_Forall; [apply sortNewestFirst_perm|].
    apply Forall_forall. intros r Hr. apply filter_In in Hr.
    destruct Hr as [_ Hr]. apply Z.leb_le in Hr. lia.
Qed.

Lemma get_readings_sorted_selection_witness :
  exists s' out n',
    SimulatorRoutes.get_readings (Some 7%Z) sampleNow sampleNow
      SimulatorApi.simulatorData zeros 0%nat = Ok ((s', out), n') /\
    SimulatorApi.initializeSimulatorData sampleNow SimulatorApi.simulatorData
      zeros 0%nat = Ok (s', n') /\
    descending (simTimestamps out) /\
    Permutation out
      (filter (fun r => (sampleNow - FusionApi.daysOrDefault (Some 7%Z)
                                     * 24 * 60 * 60 * 1000
                         <=? SimulatorApi.timestamp r)%Z)
              (SimulatorApi.readings s')) /\
    Forall (fun r => (sampleNow - FusionApi.daysOrDefault (Some 7%Z) * 86400000
                      <= SimulatorApi.timestamp r)%Z) out.
Proof.
  apply (get_readings_sorted_selection (Some 7%Z) sampleNow sampleNow
           SimulatorApi.simulatorData zeros 0%nat).
  right. apply sample_window. lia.
Defined.

Lemma onReturn_any {A} (m : M A) rand n (post : A -> nat -> Prop) :
  (forall a n', post a n') -> onReturn m rand n post.
Proof.
  intros H. unfold onReturn. destruct (m rand n) as [[a n']|e]; auto.
Qed.

Lemma pushDay_stamp now i acc rand n :
  onReturn (SimulatorApi.pushDay now i acc) rand n
    (fun acc' _ =>
       exists x, acc' = acc ++ [x] /\
                 SimulatorApi.timestamp x = (now - i * SimulatorApi.dayMs)%Z).
Proof.
  unfold onReturn, SimulatorApi.pushDay, bind, Math_random, toISOString.
  destruct (validTime (now - i * SimulatorApi.dayMs)); simpl; [|exact I].
  eexists. split; reflexivity.
Qed.

(** The stamps of the story: one per day, from 30 days back to [now]. *)
Lemma initializeSimulatorData_stamps now s rand n :
  SimulatorApi.readings s = [] ->
  onReturn (SimulatorApi.initializeSimulatorData now s) rand n
    (fun s' _ =>
       simTimestamps (SimulatorApi.readings s')
       = map (fun i => (now - i * SimulatorApi.dayMs)%Z)
             (ApexSimulator.countdown 30)).
Proof.
  intros Hempty. unfold SimulatorApi.initializeSimulatorData.
  rewrite Hempty. simpl Nat.ltb. cbv iota.
  pose (I := fun (j : nat) (acc : list SimulatorApi.Reading) (_ : nat) =>
               simTimestamps acc
               = map (fun i => (now - i * SimulatorApi.dayMs)%Z)
                     (firstn j (ApexSimulator.countdown 30))).
  apply onReturn_bind.
  apply onReturn_mono with (P := I (List.length (ApexSimulator.countdown 30))).
  - apply (onReturn_for_each I); [|reflexivity].
    intros j i acc m Hnth Hacc. unfold I in Hacc |- *.
    eapply onReturn_mono; [apply pushDay_stamp|].
    cbv beta. intros acc' _ (x & -> & Hx).
    rewrite (firstn_snoc _ _ _ Hnth), map_app. unfold simTimestamps in *.
    rewrite map_app, Hacc. simpl. now rewrite Hx.
  - unfold I. intros rs m Hrs. rewrite firstn_all in Hrs.
    apply onReturn_bind, onReturn_any. intros es m'.
    apply onReturn_ret. exact Hrs.
Qed.

Lemma length_filter_map {A B} (f : A -> B) (p : B -> bool) l :
  List.length (filter (fun x => p (f x)) l) = List.length (filter p (map f l)).
Proof.
  induction l as [|x l IH]; simpl; [reflexivity|].
  destruct (p (f x)); simpl; now rewrite IH.
Qed.

Lemma in_countdown days i :
  In i (ApexSimulator.countdown days) -> (0 <= i <= days)%Z.
Proof.
  unfold ApexSimulator.countdown. intros H. apply in_map_iff in H.
  destruct H as (k & <- & Hk). apply in_seq in Hk. lia.
Qed.

(** X11. How many readings the first request for the default 30-day
    window gets from a fresh store: all 31 if the clock has not moved
    since the data was initialised inside the same request, and 30, the
    oldest one missing, once it has moved on by up to a day. *)
Theorem get_readings_first_request parsed now clock rand n :
  window_valid 30 now ->
  FusionApi.daysOrDefault parsed = 30%Z ->
  exists s' out n',
    SimulatorRoutes.get_readings parsed now clock SimulatorApi.simulatorData rand n
      = Ok ((s', out), n') /\
    List.length (SimulatorApi.readings s') = 31%nat /\
    (clock = now -> List.length out = 31%nat) /\
    ((now < clock <= now + SimulatorApi.dayMs)%Z -> List.length out = 30%nat).
Proof.
  intros Hwin Hdays.
  destruct (initializeSimulatorData_first now SimulatorApi.simulatorData rand n
              eq_refl Hwin) as (rs & es & Hrun & Hlen & _).
  pose proof (onReturn_run _ _ _ _ _ _
                (initializeSimulatorData_stamps now SimulatorApi.simulatorData
                   rand n eq_refl) Hrun) as Hts.
  cbv beta in Hts. cbn [SimulatorApi.readings] in Hts.
  do 3 eexists.
  unfold SimulatorRoutes.get_readings, bind. rewrite Hrun, Hdays.
  split; [reflexivity|]. cbn [SimulatorApi.readings].
  split; [exact Hlen|].
  set (keep := fun t => (clock - 30 * 24 * 60 * 60 * 1000 <=? t)%Z).
  assert (Hcount : forall l,
             List.length (SimulatorRoutes.sortNewestFirst
                            (filter (fun r => keep (SimulatorApi.timestamp r)) l))
             = List.length (filter keep (simTimestamps l))).
  { intros l. rewrite <- (Permutation_length (sortNewestFirst_perm _)).
    apply length_filter_map. }
  assert (Hcd : ApexSimulator.countdown 30 = 30%Z :: ApexSimulator.countdown 29)
    by (vm_compute; reflexivity).
  split.
  - intros ->. change (fun r => (now - 30 * 24 * 60 * 60 * 1000
                                 <=? SimulatorApi.timestamp r)%Z)
      with (fun r => keep (SimulatorApi.timestamp r)).
    rewrite Hcount, Hts, filter_all.
    + now rewrite length_map, length_countdown.
    + apply Forall_map, Forall_forall. intros i Hi. apply in_countdown in Hi.
      unfold keep, SimulatorApi.dayMs. apply Z.leb_le. lia.
  - intros Hmoved. change (fun r => (clock - 30 * 24 * 60 * 60 * 1000
                                     <=? SimulatorApi.timestamp r)%Z)
      with (fun r => keep (SimulatorApi.timestamp r)).
    rewrite Hcount, Hts, Hcd. cbn [map filter].
    assert (Hfirst : keep (now - 30 * SimulatorApi.dayMs)%Z = false).
    { unfold keep, SimulatorApi.dayMs. apply Z.leb_gt. lia. }
    rewrite Hfirst, filter_all.
    + now rewrite length_map, length_countdown.
    + apply Forall_map, Forall_forall. intros i Hi. apply in_countdown in Hi.
      unfold keep, SimulatorApi.dayMs in *. apply Z.leb_le. lia.
Qed.

Lemma get_readings_first_request_witness :
  exists s' out n',
    SimulatorRoutes.get_readings None sampleNow (sampleNow + 5)
      SimulatorApi.simulatorData zeros 0%nat = Ok ((s', out), n') /\
    List.length (SimulatorApi.readings s') = 31%nat /\
    ((sampleNow + 5)%Z = sampleNow -> List.length out = 31%nat) /\
    ((sampleNow < sampleNow + 5 <= sampleNow + SimulatorApi.dayMs)%Z ->
     List.length out = 30%nat).
Proof.
  apply (get_readings_first_request None sampleNow (sampleNow + 5)%Z zeros 0%nat).
  - apply sample_window. lia.
  - reflexivity.
Defined.

(* ================================================================= *)
(** ** Further properties of the analyze route *)

(** X12. The answers of the handler of the analyze route, by status.  The
    handler is reached by the requests that the rate limiter and
    [requireAuth] have let through (those two answer 429 and 401
    themselves), with [userId] the id of the authenticated user.  It
    answers 404 exactly when the tank lookup resolves with no tank, 400
    exactly when the tank exists, the week holds no reading and the events
    could be read, and 200 only when the tank exists, the week holds a
    reading and the model call resolved with an analysis.  The handler's
    status is one of 200, 400, 404 and 500; a 200 carries an analysis and
    nothing else, every other answer of the handler an error message and
    nothing else. *)
Theorem analyze_status_classes b userId tankId :
  (Server.status (Server.analyze b userId tankId) = 404%Z <->
   Server.getTank b userId tankId = Server.Resolved None) /\
  (Server.status (Server.analyze b userId tankId) = 400%Z <->
   exists tank recentEvents,
     Server.getTank b userId tankId = Server.Resolved (Some tank) /\
     Server.getReadings b userId tankId 7 = Server.Resolved [] /\
     Server.getEvents b userId tankId 10 = Server.Resolved recentEvents) /\
  (Server.status (Server.analyze b userId tankId) = 200%Z ->
   exists tank current rest recentEvents analysis stored,
     Server.getTank b userId tankId = Server.Resolved (Some tank) /\
     Server.getReadings b userId tankId 7 = Server.Resolved (current :: rest) /\
     Server.getEvents b userId tankId 10 = Server.Resolved recentEvents /\
     Server.analyzeTank b tank current (current :: rest) recentEvents
       (Server.dosing tank) = Server.Resolved (Server.AnalysisOk analysis) /\
     Server.body (Server.analyze b userId tankId)
       = [("analysis", Server.JObj stored)]) /\
  (Server.status (Server.analyze b userId tankId) <> 200%Z ->
   In (Server.status (Server.analyze b userId tankId)) [400; 404; 500]%Z /\
   exists message,
     Server.body (Server.analyze b userId tankId)
       = [("error", Server.JStr message)]).
Proof.
  unfold Server.analyze, Server.addAnalysis.
  destruct (Server.getTank b userId tankId) as [[tank|]|m1];
    [destruct (Server.getReadings b userId tankId 7) as [[|current rest]|m2];
     [destruct (Server.getEvents b userId tankId 10) as [recentEvents|m3]
     |destruct (Server.getEvents b userId tankId 10) as [recentEvents|m3];
      [destruct (Server.analyzeTank b tank current (current :: rest)
                   recentEvents (Server.dosing tank)) as [[analysis|e]|m4]
         eqn:Emodel;
       [destruct (Server.newAnalysisId b userId tankId _) as [i|m5]| |]|]
     |]
    | |];
    repeat split; simpl;
    try (intros H; try discriminate H; try (exfalso; now apply H));
    intros;
    repeat match goal with
           | H : exists _, _ |- _ => destruct H
           | H : _ /\ _ |- _ => destruct H
           end;
    try discriminate; try congruence; eauto 12;
    try (exfalso;
         match goal with
         | H : _ <> _ |- _ => apply H; reflexivity
         end);
    try (do 6 eexists; repeat split; try reflexivity; eassumption).
Qed.

Lemma analyze_status_classes_witness :
  Server.status (Server.analyze percentBackend "user-1" "tank-1") = 200%Z /\
  exists tank current rest recentEvents analysis stored,
    Server.getTank percentBackend "user-1" "tank-1"
      = Server.Resolved (Some tank) /\
    Server.getReadings percentBackend "user-1" "tank-1" 7
      = Server.Resolved (current :: rest) /\
    Server.getEvents percentBackend "user-1" "tank-1" 10
      = Server.Resolved recentEvents /\
    Server.analyzeTank percentBackend tank current (current :: rest)
      recentEvents (Server.dosing tank)
      = Server.Resolved (Server.AnalysisOk analysis) /\
    Server.body (Server.analyze percentBackend "user-1" "tank-1")
      = [("analysis", Server.JObj stored)].
Proof.
  split; [reflexivity|].
  apply (proj1 (proj2 (proj2
           (analyze_status_classes percentBackend "user-1" "tank-1")))).
  reflexivity.
Defined.

Lemma stored_field i analysis dataUsed k :
  own (Server.assign [("id", Server.JStr i)]
         (Server.set
            (Server.assign [("type", Server.JStr "user-requested")]
               (Server.spread analysis))
            "dataUsed" dataUsed))
      k
  = match
      (if String.eqb "dataUsed" k then Some dataUsed
       else match last_binding (Server.spread analysis) k with
            | Some v => Some v
            | None => own [("type", Server.JStr "user-requested")] k
            end)
    with
    | Some v => Some v
    | None => own [("id", Server.JStr i)] k
    end.
Proof.
  rewrite own_assign, last_binding_own.
  - now rewrite own_set, own_assign.
  - apply nodup_set, nodup_assign. repeat constructor. intros [].
Qed.

(** X13. Which fields of a stored analysis the model's answer decides:
    it can replace the [type] and even the [id] the route would give, but
    never [dataUsed], which always reports the number of readings and
    events that were handed to the model and the seven days analysed. *)
Theorem analysis_fields_set_by_route
        b userId tankId tank current rest recentEvents analysis i :
  Server.getTank b userId tankId = Server.Resolved (Some tank) ->
  Server.getReadings b userId tankId 7 = Server.Resolved (current :: rest) ->
  Server.getEvents b userId tankId 10 = Server.Resolved recentEvents ->
  Server.analyzeTank b tank current (current :: rest) recentEvents
                     (Server.dosing tank)
    = Server.Resolved (Server.AnalysisOk analysis) ->
  (forall data, Server.newAnalysisId b userId tankId data = Server.Resolved i) ->
  analysisField (Server.analyze b userId tankId) "dataUsed"
    = Some (dataUsedOf (current :: rest) recentEvents) /\
  analysisField (Server.analyze b userId tankId) "type"
    = Some (match last_binding (Server.spread analysis) "type" with
            | Some v => v
            | None => Server.JStr "user-requested"
            end) /\
  analysisField (Server.analyze b userId tankId) "id"
    = Some (match last_binding (Server.spread analysis) "id" with
            | Some v => v
            | None => Server.JStr i
            end).
Proof.
  intros Htank Hreadings Hevents Hmodel Hid.
  unfold Server.analyze, Server.addAnalysis.
  rewrite Htank, Hreadings, Hevents, Hmodel, Hid.
  unfold analysisField.
  cbn [Server.body own String.eqb Ascii.eqb Bool.eqb].
  rewrite !stored_field.
  change (String.eqb "dataUsed" "dataUsed") with true.
  change (String.eqb "dataUsed" "type") with false.
  change (String.eqb "dataUsed" "id") with false.
  cbv iota. split; [reflexivity|]. split.
  - destruct (last_binding (Server.spread analysis) "type"); reflexivity.
  - destruct (last_binding (Server.spread analysis) "id"); reflexivity.
Qed.

Lemma analysis_fields_set_by_route_witness :
  analysisField (Server.analyze overridingBackend "user-1" "tank-1") "dataUsed"
    = Some (dataUsedOf [sampleReading] []) /\
  analysisField (Server.analyze overridingBackend "user-1" "tank-1") "type"
    = Some (Server.JStr "scheduled") /\
  analysisField (Server.analyze overridingBackend "user-1" "tank-1") "id"
    = Some (Server.JStr "chosen-by-model").
Proof.
  apply (analysis_fields_set_by_route overridingBackend "user-1" "tank-1"
           [("id", Server.JStr "tank-1")] sampleReading [] []
           (Server.JObj [("id", Server.JStr "chosen-by-model");
                         ("type", Server.JStr "scheduled");
                         ("dataUsed", Server.JNull)])
           "analysis-1"); reflexivity.
Defined.

(* ================================================================= *)
(** ** Properties of the authentication *)

Lemma own_without k (o : Server.object) : own (AuthNew.without k o) k = None.
Proof.
  unfold AuthNew.without. induction o as [|[k0 v0] o IH]; simpl; [reflexivity|].
  destruct (String.eqb k0 k) eqn:E; simpl; [exact IH|].
  now rewrite E.
Qed.

Lemma own_without_other k k' (o : Server.object) :
  k <> k' -> own (AuthNew.without k o) k' = own o k'.
Proof.
  intros Hne. unfold AuthNew.without.
  induction o as [|[k0 v0] o IH]; simpl; [reflexivity|].
  destruct (String.eqb k0 k) eqn:E; simpl.
  - apply String.eqb_eq in E. subst k0.
    destruct (String.eqb k k') eqn:E'; [|exact IH].
    apply String.eqb_eq in E'. contradiction.
  - now rewrite IH.
Qed.

Lemma prefix_substringFrom p : forall s,
  String.prefix p s = true -> s = (p ++ AuthNew.substringFrom (String.length p) s)%string.
Proof.
  induction p as [|a p IH]; intros [|b s]; simpl; try reflexivity;
    try (intros H; discriminate H).
  destruct (Ascii.ascii_dec a b) as [->|Hne]; intros H; [|discriminate H].
  now rewrite <- (IH s H).
Qed.

Lemma prefix_append p s : String.prefix p (p ++ s)%string = true.
Proof.
  induction p as [|a p IH]; simpl; [now destruct s|].
  destruct (Ascii.ascii_dec a a); [exact IH | contradiction].
Qed.

Lemma substringFrom_append p s :
  AuthNew.substringFrom (String.length p) (p ++ s)%string = s.
Proof.
  induction p as [|a p IH]; simpl; [reflexivity | exact IH].
Qed.

Lemma verifyToken_granted c token user t :
  AuthNew.verifyToken c token = AuthNew.Granted user t <->
  token <> EmptyString /\ t = None /\
  exists payload stored,
    AuthNew.jwtVerify c token = AuthNew.Decoded payload /\
    AuthNew.getUserById c (AuthNew.prop payload "userId")
      = Server.Resolved (Some stored) /\
    user = AuthNew.without "passwordHash" stored.
Proof.
  unfold AuthNew.verifyToken.
  destruct (String.eqb_spec token EmptyString) as [->|Hne].
  { split; [discriminate | intros [H _]; now contradiction H]. }
  destruct (AuthNew.jwtVerify c token) as [payload| | |];
    try (split; [discriminate | intros (_ & _ & ? & ? & H & _); discriminate H]).
  destruct (AuthNew.getUserById c (AuthNew.prop payload "userId"))
    as [[stored|]|m] eqn:Eu;
    try (split; [discriminate|];
         intros (_ & _ & p & s & [= <-] & H & _); rewrite Eu in H;
         discriminate H).
  split.
  - intros [= <- <-]. repeat split; [exact Hne|]. eauto.
  - intros (_ & -> & p & s & [= <-] & H & ->). rewrite Eu in H.
    now injection H as ->.
Qed.

(** X14. No password hash leaves the authentication module: the user
    that [loginUser] or [verifyToken] grants, the user [requireAuth]
    attaches to the request and the user in the answer of the login route
    never have a [passwordHash] field. *)
Theorem auth_never_exposes_passwordHash c :
  (forall email password user token,
     AuthNew.loginUser c email password = AuthNew.Granted user token ->
     own user "passwordHash" = None) /\
  (forall token user t,
     AuthNew.verifyToken c token = AuthNew.Granted user t ->
     own user "passwordHash" = None) /\
  (forall authHeader user,
     AuthNew.requireAuth c authHeader = AuthNew.Next user ->
     own user "passwordHash" = None) /\
  (forall email password user,
     own (Server.body (AuthNew.login c email password)) "user"
       = Some (Server.JObj user) ->
     own user "passwordHash" = None).
Proof.
  assert (Hlogin : forall email password user token,
             AuthNew.loginUser c email password = AuthNew.Granted user token ->
             own user "passwordHash" = None).
  { intros email password user token. unfold AuthNew.loginUser.
    destruct (_ || _); [discriminate|].
    destruct (AuthNew.getUserByEmail c email) as [[stored|]|]; try discriminate.
    destruct (AuthNew.bcryptCompare c password _) as [[|]|]; try discriminate.
    destruct (AuthNew.jwtSign c _ _); try discriminate.
    intros [= <- _]. apply own_without. }
  assert (Hverify : forall token user t,
             AuthNew.verifyToken c token = AuthNew.Granted user t ->
             own user "passwordHash" = None).
  { intros token user t H. apply verifyToken_granted in H.
    destruct H as (_ & _ & payload & stored & _ & _ & ->). apply own_without. }
  split; [exact Hlogin|]. split; [exact Hverify|]. split.
  - intros [header|] user; unfold AuthNew.requireAuth; [|discriminate].
    destruct (negb _); [discriminate|].
    destruct (AuthNew.verifyToken c _) as [u t|e] eqn:E; [|discriminate].
    intros [= <-]. exact (Hverify _ _ _ E).
  - intros email password user. unfold AuthNew.login.
    destruct (_ || _); [discriminate|].
    destruct (AuthNew.loginUser c email password) as [u t|e] eqn:E;
      [|discriminate].
    simpl. intros [= <-]. exact (Hlogin _ _ _ _ E).
Qed.

Lemma auth_never_exposes_passwordHash_witness :
  exists user,
    AuthNew.loginUser sampleCollaborators "reefer@example.com" "correct horse"
      = AuthNew.Granted user (Some "signed-token") /\
    own sampleUser "passwordHash" = Some (Server.JStr "$2b$12$hash") /\
    own user "passwordHash" = None.
Proof.
  eexists. split; [reflexivity|]. split; [reflexivity|].
  apply (proj1 (auth_never_exposes_passwordHash sampleCollaborators)
           "reefer@example.com" "correct horse" _ (Some "signed-token")).
  reflexivity.
Defined.

(** X15. Who passes the middleware: a request is let through exactly when
    its [Authorization] header is [Bearer ] followed by a non-empty token
    that the JWT library decodes and whose [userId] names an existing
    user, and the user attached is the stored one without its
    [passwordHash]; every other request is answered with status 401. *)
Theorem requireAuth_gate c authHeader :
  (forall user,
     AuthNew.requireAuth c authHeader = AuthNew.Next user <->
     exists token payload stored,
       authHeader = Some ("Bearer " ++ token)%string /\
       token <> EmptyString /\
       AuthNew.jwtVerify c token = AuthNew.Decoded payload /\
       AuthNew.getUserById c (AuthNew.prop payload "userId")
         = Server.Resolved (Some stored) /\
       user = AuthNew.without "passwordHash" stored) /\
  (forall r, AuthNew.requireAuth c authHeader = AuthNew.Answer r ->
             Server.status r = 401%Z).
Proof.
  split.
  - intros user. split.
    + unfold AuthNew.requireAuth. destruct authHeader as [header|]; [|discriminate].
      destruct (String.prefix "Bearer " header) eqn:Ep; cbn [negb];
        [|discriminate].
      destruct (AuthNew.verifyToken c (AuthNew.substringFrom 7 header))
        as [u t|e] eqn:E; [|discriminate].
      intros [= <-]. apply verifyToken_granted in E.
      destruct E as (Hne & _ & payload & stored & Hv & Hu & ->).
      exists (AuthNew.substringFrom 7 header), payload, stored.
      repeat split; auto. f_equal.
      exact (prefix_substringFrom "Bearer " header Ep).
    + intros (token & payload & stored & -> & Hne & Hv & Hu & ->).
      unfold AuthNew.requireAuth.
      rewrite (prefix_append "Bearer " token). cbn [negb].
      change 7%nat with (String.length "Bearer ").
      rewrite substringFrom_append.
      assert (E : AuthNew.verifyToken c token
                  = AuthNew.Granted (AuthNew.without "passwordHash" stored) None).
      { apply verifyToken_granted. repeat split; eauto. }
      now rewrite E.
  - intros r. unfold AuthNew.requireAuth.
    destruct authHeader as [header|]; [|now intros [= <-]].
    destruct (negb _); [now intros [= <-]|].
    destruct (AuthNew.verifyToken c _); [discriminate | now intros [= <-]].
Qed.

Lemma requireAuth_gate_witness :
  AuthNew.requireAuth sampleCollaborators (Some "Bearer signed-token")
    = AuthNew.Next (AuthNew.without "passwordHash" sampleUser) /\
  Server.status (Server.error 401 "Authorization token required") = 401%Z.
Proof.
  split.
  - apply (proj1 (requireAuth_gate sampleCollaborators
                    (Some "Bearer signed-token"))).
    exists "signed-token", (Server.JObj [("userId", Server.JStr "user-1")]),
      sampleUser.
    repeat split. discriminate.
  - apply (proj2 (requireAuth_gate sampleCollaborators (Some "bearer x"))).
    reflexivity.
Defined.



(* ================================================================= *)
(** ** Properties of posting a reading *)

Lemma posted_reading_field i fields source k :
  own (Server.assign [("id", Server.JStr i)]
         (Server.set (Server.assign [] fields) "source" source))
      k
  = match
      (if String.eqb "source" k then Some source else last_binding fields k)
    with
    | Some v => Some v
    | None => own [("id", Server.JStr i)] k
    end.
Proof.
  rewrite own_assign, last_binding_own.
  - rewrite own_set, own_assign. cbn [own].
    destruct (String.eqb "source" k); [reflexivity|].
    now destruct (last_binding fields k).
  - apply nodup_set, nodup_assign. constructor.
Qed.

(** X17. Posting a reading to the server, for a request that
    [requireAuth] has let through.  An empty or falsy body is refused with
    status 400 before anything is written.  Otherwise, once the write went
    through, the reading sent back has every posted field with its posted
    value, a [source] that is the posted one if that is truthy and
    ["manual"] if it is falsy or missing, and an [id] that is the posted
    [id] if the body has one and the new document's id if not. *)
Theorem post_reading_keeps_fields write stamp readingData i :
  (Server.truthy readingData = false \/ Server.spread readingData = [] ->
   ServerRoutes.post_readings write stamp readingData
     = Server.error 400 "Reading data required") /\
  (Server.truthy readingData = true -> Server.spread readingData <> [] ->
   (forall doc, write doc = Server.Resolved i) ->
   Server.status (ServerRoutes.post_readings write stamp readingData) = 200%Z /\
   (forall k, k <> "id" -> k <> "source" ->
      readingField (ServerRoutes.post_readings write stamp readingData) k
      = last_binding (Server.spread readingData) k) /\
   (forall s, AuthNew.prop readingData "source" = Some s ->
              Server.truthy s = true ->
      readingField (ServerRoutes.post_readings write stamp readingData) "source"
      = Some s) /\
   (forall s, AuthNew.prop readingData "source" = Some s ->
              Server.truthy s = false ->
      readingField (ServerRoutes.post_readings write stamp readingData) "source"
      = Some (Server.JStr "manual")) /\
   (AuthNew.prop readingData "source" = None ->
      readingField (ServerRoutes.post_readings write stamp readingData) "source"
      = Some (Server.JStr "manual")) /\
   readingField (ServerRoutes.post_readings write stamp readingData) "id"
     = Some (match last_binding (Server.spread readingData) "id" with
             | Some v => v
             | None => Server.JStr i
             end)).
Proof.
  split.
  - intros [Hfalsy | Hempty]; unfold ServerRoutes.post_readings.
    + now rewrite Hfalsy.
    + rewrite Hempty. simpl. now rewrite orb_true_r.
  - intros Htruthy Hfields Hwrite.
    unfold ServerRoutes.post_readings, ServerRoutes.addReading.
    rewrite Htruthy, Hwrite.
    destruct (Server.spread readingData) as [|kv fields'] eqn:Efields;
      [contradiction|].
    cbn [negb orb List.length Nat.eqb].
    unfold readingField.
    cbn [Server.status Server.body own String.eqb Ascii.eqb Bool.eqb].
    split; [reflexivity|]. split; [|split; [|split; [|split]]].
    + intros k Hid Hsource. rewrite posted_reading_field.
      destruct (String.eqb_spec "source" k) as [<-|_]; [contradiction|].
      destruct (last_binding (kv :: fields') k); [reflexivity|].
      cbn [own]. destruct (String.eqb_spec "id" k) as [<-|_];
        [contradiction | reflexivity].
    + intros s Hprop Hs. rewrite posted_reading_field, Hprop, Hs. reflexivity.
    + intros s Hprop Hs. rewrite posted_reading_field, Hprop, Hs. reflexivity.
    + intros Hprop. rewrite posted_reading_field, Hprop. reflexivity.
    + rewrite posted_reading_field.
      change (String.eqb "source" "id") with false. cbv iota.
      destruct (last_binding (kv :: fields') "id"); reflexivity.
Qed.

Lemma post_reading_keeps_fields_witness :
  Server.status
    (ServerRoutes.post_readings (fun _ => Server.Resolved "reading-9")
       Server.JNull
       (Server.JObj [("alk", Server.JNum 8.1); ("source", Server.JStr EmptyString)]))
    = 200%Z /\
  readingField
    (ServerRoutes.post_readings (fun _ => Server.Resolved "reading-9")
       Server.JNull
       (Server.JObj [("alk", Server.JNum 8.1); ("source", Server.JStr EmptyString)]))
    "alk" = Some (Server.JNum 8.1) /\
  readingField
    (ServerRoutes.post_readings (fun _ => Server.Resolved "reading-9")
       Server.JNull
       (Server.JObj [("alk", Server.JNum 8.1); ("source", Server.JStr EmptyString)]))
    "source" = Some (Server.JStr "manual").
Proof.
  destruct (post_reading_keeps_fields (fun _ => Server.Resolved "reading-9")
              Server.JNull
              (Server.JObj [("alk", Server.JNum 8.1);
                            ("source", Server.JStr EmptyString)])
              "reading-9") as [_ H].
  destruct H as (Hstatus & Hfields & _ & Hfalsy & _);
    try reflexivity; try discriminate.
  split; [exact Hstatus|]. split.
  - rewrite (Hfields "alk"); [reflexivity | discriminate | discriminate].
  - apply (Hfalsy (Server.JStr EmptyString)); reflexivity.
Defined.

(* ================================================================= *)
(** ** Properties of the credential encryption *)

Lemma hex_byte c :
  ApexFusion.hexValue (ApexFusion.hexDigit (N.div (N_of_ascii c) 16))
    = Some (N.div (N_of_ascii c) 16) /\
  ApexFusion.hexValue (ApexFusion.hexDigit (N.modulo (N_of_ascii c) 16))
    = Some (N.modulo (N_of_ascii c) 16) /\
  ascii_of_N (16 * N.div (N_of_ascii c) 16 + N.modulo (N_of_ascii c) 16) = c.
Proof.
  destruct c as [[] [] [] [] [] [] [] []]; vm_compute; repeat split.
Qed.

Lemma fromHex_toHex buffer : ApexFusion.fromHex (ApexFusion.toHex buffer) = buffer.
Proof.
  induction buffer as [|c rest IH]; [reflexivity|].
  cbn [ApexFusion.toHex ApexFusion.fromHex].
  destruct (hex_byte c) as (-> & -> & ->). now rewrite IH.
Qed.

Lemma hexDigit_not_colon n : Ascii.eqb (ApexFusion.hexDigit n) ":" = false.
Proof.
  destruct n as [|p]; [reflexivity|].
  do 4 (try destruct p as [p|p|]; try reflexivity).
Qed.

Lemma split_toHex_colon buffer rest :
  ApexFusion.split ":" (ApexFusion.toHex buffer ++ String ":" rest)
  = (ApexFusion.toHex buffer,
     fst (ApexFusion.split ":" rest) :: snd (ApexFusion.split ":" rest)).
Proof.
  induction buffer as [|c buffer IH].
  - cbn [ApexFusion.toHex String.append ApexFusion.split].
    destruct (ApexFusion.split ":" rest) as [first others]. reflexivity.
  - cbn [ApexFusion.toHex String.append ApexFusion.split].
    rewrite IH, !hexDigit_not_colon. reflexivity.
Qed.

Lemma split_toHex buffer :
  ApexFusion.split ":" (ApexFusion.toHex buffer) = (ApexFusion.toHex buffer, []).
Proof.
  induction buffer as [|c buffer IH]; [reflexivity|].
  cbn [ApexFusion.toHex ApexFusion.split].
  rewrite IH, !hexDigit_not_colon. reflexivity.
Qed.

Lemma toHex_even buffer :
  Nat.odd (String.length (ApexFusion.toHex buffer)) = false.
Proof.
  induction buffer as [|c rest IH]; [reflexivity|].
  cbn [ApexFusion.toHex String.length]. now rewrite Nat.odd_succ_succ.
Qed.

(** X18. [decrypt] undoes [encrypt]: for a 16-byte vector and a key
    variable that yields 32 bytes, what [encrypt] returns, the vector and
    the ciphertext in hexadecimal with a colon between them, is taken
    apart by [decrypt] into the same vector and ciphertext, so that the
    text comes back whenever the AES decipher inverts the AES cipher on
    it. *)
Theorem decrypt_encrypt aesEncrypt aesDecrypt ENCRYPTION_KEY iv text :
  String.length iv = 16%nat ->
  String.length (ApexFusion.key ENCRYPTION_KEY) = 32%nat ->
  aesDecrypt (ApexFusion.key ENCRYPTION_KEY) iv
             (aesEncrypt (ApexFusion.key ENCRYPTION_KEY) iv text) = Some text ->
  exists encrypted,
    ApexFusion.encrypt aesEncrypt ENCRYPTION_KEY iv text
      = ApexFusion.Returned encrypted /\
    encrypted
      = (ApexFusion.toHex iv ++ ":"
         ++ ApexFusion.toHex (aesEncrypt (ApexFusion.key ENCRYPTION_KEY) iv text))%string /\
    ApexFusion.decrypt aesDecrypt ENCRYPTION_KEY encrypted
      = ApexFusion.Returned text.
Proof.
  intros Hiv Hkey Haes. eexists. split; [|split; [reflexivity|]].
  - unfold ApexFusion.encrypt. rewrite Hiv, Hkey. reflexivity.
  - unfold ApexFusion.decrypt.
    change (":" ++ ?s)%string with (String ":" s).
    rewrite split_toHex_colon, split_toHex. cbn [fst snd ApexFusion.join].
    rewrite !fromHex_toHex, Hiv, Hkey, toHex_even. cbn [Nat.eqb negb].
    now rewrite Haes.
Qed.

Lemma decrypt_encrypt_witness :
  exists encrypted,
    ApexFusion.encrypt plainCipher sampleKey sampleIv "fusion-token"
      = ApexFusion.Returned encrypted /\
    encrypted
      = (ApexFusion.toHex sampleIv ++ ":"
         ++ ApexFusion.toHex
              (plainCipher (ApexFusion.key sampleKey) sampleIv "fusion-token"))%string /\
    ApexFusion.decrypt plainDecipher sampleKey encrypted
      = ApexFusion.Returned "fusion-token".
Proof.
  apply (decrypt_encrypt plainCipher plainDecipher sampleKey sampleIv
           "fusion-token"); reflexivity.
Defined.

(* ================================================================= *)
(** ** Properties of the daily analysis quota *)

Section QuotaFacts.

Variable change : ApiKeyAuth.User -> ApiKeyAuth.User.
Hypothesis change_id : forall u, ApiKeyAuth.id (change u) = ApiKeyAuth.id u.

Lemma selectById_updated db userId :
  ApiKeyAuth.selectById (ApiKeyAuth.updateById change db userId) userId
  = option_map change (ApiKeyAuth.selectById db userId).
Proof.
  induction db as [|u rest IH]; [reflexivity|].
  cbn [ApiKeyAuth.updateById map ApiKeyAuth.selectById].
  destruct (ApiKeyAuth.id u =? userId)%Z eqn:E.
  - cbn [ApiKeyAuth.selectById]. now rewrite change_id, E.
  - cbn [ApiKeyAuth.selectById]. rewrite E. exact IH.
Qed.

Lemma selectById_other db userId other :
  other <> userId ->
  ApiKeyAuth.selectById (ApiKeyAuth.updateById change db userId) other
  = ApiKeyAuth.selectById db other.
Proof.
  intros Hne. induction db as [|u rest IH]; [reflexivity|].
  cbn [ApiKeyAuth.updateById map ApiKeyAuth.selectById].
  destruct (ApiKeyAuth.id u =? userId)%Z eqn:E.
  - rewrite change_id. apply Z.eqb_eq in E.
    destruct (ApiKeyAuth.id u =? other)%Z eqn:E'.
    + apply Z.eqb_eq in E'. congruence.
    + exact IH.
  - destruct (ApiKeyAuth.id u =? other)%Z; [reflexivity|exact IH].
Qed.

End QuotaFacts.

Lemma sameDate_false stored today :
  stored <> Some today -> ApiKeyAuth.sameDate stored today = false.
Proof.
  destruct stored as [date|]; [|reflexivity]. intros Hne. cbn.
  destruct (String.eqb_spec date today); [subst; now elim Hne|reflexivity].
Qed.

Lemma counted_row k db userId user :
  ApiKeyAuth.selectById db userId = Some user ->
  ApiKeyAuth.selectById (counted k db userId) userId
  = Some (ApiKeyAuth.mkUser (ApiKeyAuth.id user)
            (ApiKeyAuth.daily_analyses user + Z.of_nat k)
            (ApiKeyAuth.last_analysis_date user)).
Proof.
  intros Hrow. induction k as [|k IH].
  - change (counted 0 db userId) with db.
    rewrite Hrow, Z.add_0_r. now destruct user.
  - change (counted (S k) db userId)
      with (ApiKeyAuth.incrementAnalysisCount (counted k db userId) userId).
    unfold ApiKeyAuth.incrementAnalysisCount.
    rewrite selectById_updated by reflexivity. rewrite IH.
    cbn [option_map ApiKeyAuth.id ApiKeyAuth.daily_analyses
         ApiKeyAuth.last_analysis_date].
    do 2 f_equal. lia.
Qed.

(** X19. The daily quota counts the analyses since the first check of the
    day: for a user whose stored date is not today (or NULL), the check is
    allowed with [limit - 1] remaining whatever the counter and the limit
    were, and after [k] increments a check of the same day is allowed
    exactly when [k < limit], with [limit - k - 1] remaining, and leaves
    the table as it is. *)
Theorem daily_quota_counts_from_first_check today db userId limit user k :
  ApiKeyAuth.selectById db userId = Some user ->
  ApiKeyAuth.last_analysis_date user <> Some today ->
  fst (ApiKeyAuth.checkRateLimit today db userId limit)
    = ApiKeyAuth.mkRateLimit true (limit - 1) /\
  ApiKeyAuth.checkRateLimit today
    (counted k (snd (ApiKeyAuth.checkRateLimit today db userId limit)) userId)
    userId limit
  = (if (Z.of_nat k <? limit)%Z
     then ApiKeyAuth.mkRateLimit true (limit - Z.of_nat k - 1)
     else ApiKeyAuth.mkRateLimit false 0,
     counted k (snd (ApiKeyAuth.checkRateLimit today db userId limit)) userId).
Proof.
  intros Hrow Hdate.
  assert (Hfirst : ApiKeyAuth.checkRateLimit today db userId limit
                   = (ApiKeyAuth.mkRateLimit true (limit - 1),
                      ApiKeyAuth.updateById
                        (fun u => ApiKeyAuth.mkUser (ApiKeyAuth.id u) 0 (Some today))
                        db userId)).
  { unfold ApiKeyAuth.checkRateLimit.
    now rewrite Hrow, (sameDate_false _ _ Hdate). }
  rewrite Hfirst. cbn [fst snd]. split; [reflexivity|].
  unfold ApiKeyAuth.checkRateLimit.
  rewrite (counted_row k _ userId
             (ApiKeyAuth.mkUser (ApiKeyAuth.id user) 0 (Some today))).
  - cbn [ApiKeyAuth.last_analysis_date ApiKeyAuth.daily_analyses
         ApiKeyAuth.sameDate].
    rewrite String.eqb_refl. cbn [negb]. rewrite Z.add_0_l.
    destruct (Z.ltb_spec (Z.of_nat k) limit) as [Hlt|Hge].
    + destruct (Z.leb_spec limit (Z.of_nat k)); [lia|reflexivity].
    + destruct (Z.leb_spec limit (Z.of_nat k)); [reflexivity|lia].
  - rewrite selectById_updated by reflexivity. now rewrite Hrow.
Qed.

Lemma daily_quota_counts_from_first_check_witness :
  fst (ApiKeyAuth.checkRateLimit "2023-11-14" sampleUsers 1 10)
    = ApiKeyAuth.mkRateLimit true 9 /\
  ApiKeyAuth.checkRateLimit "2023-11-14"
    (counted 10 (snd (ApiKeyAuth.checkRateLimit "2023-11-14" sampleUsers 1 10)) 1)
    1 10
  = (ApiKeyAuth.mkRateLimit false 0,
     counted 10 (snd (ApiKeyAuth.checkRateLimit "2023-11-14" sampleUsers 1 10)) 1).
Proof.
  apply (daily_quota_counts_from_first_check "2023-11-14" sampleUsers 1 10
           (ApiKeyAuth.mkUser 1 12 (Some "2023-11-13")) 10);
    [reflexivity|discriminate].
Defined.

(** X20. What a check of the quota answers and touches, for a limit of at
    least one: the remaining count is never negative and is zero when the
    check is refused; a refusal means that the user is unknown or has used
    the limit today, and then the table is unchanged; and neither the
    check nor the increment changes the row of another user. *)
Theorem checkRateLimit_answer_and_frame today db userId limit :
  (1 <= limit)%Z ->
  let answer := fst (ApiKeyAuth.checkRateLimit today db userId limit) in
  let db' := snd (ApiKeyAuth.checkRateLimit today db userId limit) in
  (0 <= ApiKeyAuth.remaining answer)%Z /\
  (ApiKeyAuth.allowed answer = false ->
   ApiKeyAuth.remaining answer = 0%Z /\ db' = db /\
   (ApiKeyAuth.selectById db userId = None \/
    exists user,
      ApiKeyAuth.selectById db userId = Some user /\
      ApiKeyAuth.last_analysis_date user = Some today /\
      (limit <= ApiKeyAuth.daily_analyses user)%Z)) /\
  (forall other, other <> userId ->
     ApiKeyAuth.selectById db' other = ApiKeyAuth.selectById db other /\
     ApiKeyAuth.selectById (ApiKeyAuth.incrementAnalysisCount db userId) other
       = ApiKeyAuth.selectById db other).
Proof.
  intros Hlimit answer db'. subst answer db'.
  unfold ApiKeyAuth.checkRateLimit.
  destruct (ApiKeyAuth.selectById db userId) as [user|] eqn:Hrow.
  - destruct (ApiKeyAuth.last_analysis_date user) as [date|] eqn:Hdate;
      cbn [ApiKeyAuth.sameDate negb].
    + destruct (String.eqb_spec date today) as [->|Hne]; cbn [negb].
      * destruct (Z.leb_spec limit (ApiKeyAuth.daily_analyses user));
          cbn [fst snd ApiKeyAuth.remaining ApiKeyAuth.allowed].
        -- split; [lia|]. split.
           ++ intros _. repeat split. right. exists user. now rewrite Hdate.
           ++ intros other Hne. split; [reflexivity|].
              now apply selectById_other.
        -- split; [lia|]. split; [discriminate|].
           intros other Hne. split; [reflexivity|].
           now apply selectById_other.
      * cbn [fst snd ApiKeyAuth.remaining ApiKeyAuth.allowed].
        split; [lia|]. split; [discriminate|].
        intros other Hother. split; now apply selectById_other.
    + cbn [fst snd ApiKeyAuth.remaining ApiKeyAuth.allowed].
      split; [lia|]. split; [discriminate|].
      intros other Hother. split; now apply selectById_other.
  - cbn [fst snd ApiKeyAuth.remaining ApiKeyAuth.allowed].
    split; [lia|]. split; [intros _; auto|].
    intros other Hother. split; [reflexivity|now apply selectById_other].
Qed.

Lemma checkRateLimit_answer_and_frame_witness :
  (0 <= ApiKeyAuth.remaining
          (fst (ApiKeyAuth.checkRateLimit "2023-11-13" sampleUsers 1 10)))%Z /\
  ApiKeyAuth.remaining
    (fst (ApiKeyAuth.checkRateLimit "2023-11-13" sampleUsers 1 10)) = 0%Z /\
  ApiKeyAuth.selectById
    (snd (ApiKeyAuth.checkRateLimit "2023-11-14" sampleUsers 1 10)) 2
  = Some (ApiKeyAuth.mkUser 2 0 None).
Proof.
  split; [|split].
  - apply (checkRateLimit_answer_and_frame "2023-11-13" sampleUsers 1 10). lia.
  - apply (proj1 (proj2 (checkRateLimit_answer_and_frame
                           "2023-11-13" sampleUsers 1 10 ltac:(lia)))).
    reflexivity.
  - apply (proj1 (proj2 (proj2 (checkRateLimit_answer_and_frame
                                  "2023-11-14" sampleUsers 1 10 ltac:(lia)))
                    2%Z ltac:(discriminate))).
Defined.
